(** * svtools: read-depth reclassification of structural variants

    A shallow embedding of [svtools/reclass_combined.py] (the statistical
    reclassifier [sv_classify] and its three read-depth tests) and of
    [svtools/vcftobedpeconverter.py] (VCF to BEDPE conversion), followed by
    the properties of these functions.

    Conventions of the embedding.
    - Python exceptions are values: a function that can raise returns
      [result A], either [Ok a] or [Raise e].
    - Python floats are reached through the interface [Float]: the functions
      are written once against its operations and no law is assumed for
      them.  [Binary64] instantiates it with the IEEE 754 doubles, to run the
      code on concrete inputs.
    - The classes [Vcf], [Variant], [Genotype] and [Bedpe] are not part of
      these files: a [Variant] is the record of the attributes this code
      reads and writes, and a call of [get_var_string] is kept as the
      snapshot of the record it would serialise. *)

From Stdlib Require Import ZArith QArith Qabs Qround String Ascii List Bool Lia Permutation.
From Stdlib Require PrimFloat Uint63 Floats.
From stdpp Require Import base option list gmap strings pretty.

Local Open Scope string_scope.
Local Open Scope Z_scope.

(** ** Python values and exceptions *)

Module Py.

Inductive exn : Type :=
| KeyError (key : string)
| ValueError (msg : string)
| IndexError
| TypeError
| AttributeError
| AssertionError
| ZeroDivisionError.

Inductive result (A : Type) : Type :=
| Ok (a : A)
| Raise (e : exn).

Arguments Ok {A} a.
Arguments Raise {A} e.

Definition bind {A B : Type} (m : result A) (k : A -> result B) : result B :=
  match m with
  | Ok a => k a
  | Raise e => Raise e
  end.

#[export] Instance result_ret : MRet result := @Ok.
#[export] Instance result_bind : MBind result := fun A B k m => bind m k.

(** [d[k]] on a dictionary: [KeyError] when the key is absent. *)
Definition getitem {V : Type} (d : gmap string V) (k : string) : result V :=
  match d !! k with
  | Some v => Ok v
  | None => Raise (KeyError k)
  end.

(** [del d[k]]: [KeyError] when the key is absent. *)
Definition delitem {V : Type} (d : gmap string V) (k : string)
  : result (gmap string V) :=
  match d !! k with
  | Some _ => Ok (delete k d)
  | None => Raise (KeyError k)
  end.

(** [lst[i]] on a list: [IndexError] out of range. *)
Definition index {A : Type} (l : list A) (i : nat) : result A :=
  match l !! i with
  | Some x => Ok x
  | None => Raise IndexError
  end.

(** [x in lst] for a list of strings. *)
Definition contains (l : list string) (x : string) : bool :=
  bool_decide (x ∈ l).

(** [for x in xs: ...] whose body can raise: the results in order, or the
    first exception. *)
Fixpoint for_each {A B : Type} (f : A -> result B) (xs : list A)
  : result (list B) :=
  match xs with
  | [] => Ok []
  | x :: xs' => y ← f x; ys ← for_each f xs'; Ok (y :: ys)
  end.

(** [s.split(c)] for a one-character separator. *)
Fixpoint split_on (c : ascii) (s : string) : list string :=
  match s with
  | EmptyString => [EmptyString]
  | String a s' =>
      if Ascii.eqb a c then EmptyString :: split_on c s'
      else match split_on c s' with
           | [] => [String a EmptyString]
           | w :: ws => String a w :: ws
           end
  end.

(** [s.startswith(p)]. *)
Definition startswith (s p : string) : bool := String.prefix p s.

Definition is_space (a : ascii) : bool :=
  let n := nat_of_ascii a in
  ((9 <=? n) && (n <=? 13))%nat || (n =? 32)%nat.

(** [s.rstrip()]: trailing whitespace removed. *)
Fixpoint rstrip (s : string) : string :=
  match s with
  | EmptyString => EmptyString
  | String a s' =>
      match rstrip s' with
      | EmptyString => if is_space a then EmptyString else String a EmptyString
      | r => String a r
      end
  end.

Definition digit_of (a : ascii) : option Z :=
  let n := Z.of_nat (nat_of_ascii a) in
  if (48 <=? n) && (n <=? 57) then Some (n - 48) else None.

Fixpoint digits_value (acc : Z) (s : string) : option Z :=
  match s with
  | EmptyString => Some acc
  | String a s' =>
      match digit_of a with
      | Some d => digits_value (10 * acc + d) s'
      | None => None
      end
  end.

Definition unsigned_of_string (s : string) : option Z :=
  match s with
  | EmptyString => None
  | _ => digits_value 0 s
  end.

(** [s.lstrip()] and [s.strip()]. *)
Fixpoint lstrip (s : string) : string :=
  match s with
  | EmptyString => EmptyString
  | String a s' => if is_space a then lstrip s' else s
  end.

Definition strip (s : string) : string := lstrip (rstrip s).

(** A decimal numeral with an optional sign. *)
Definition numeral (s : string) : option Z :=
  match s with
  | String "-" s' => Z.opp <$> unsigned_of_string s'
  | String "+" s' => unsigned_of_string s'
  | _ => unsigned_of_string s
  end.

(** [int(s)]: a numeral with white space before and after it, but none
    between the sign and the digits; [None] stands for the [ValueError] of
    an invalid literal. *)
Definition int_of_string (s : string) : option Z := numeral (strip s).

Definition int (s : string) : result Z :=
  match int_of_string s with
  | Some z => Ok z
  | None => Raise (ValueError "invalid literal for int()")
  end.

(** [str(n)] and ['%s' % n] for an integer. *)
Definition str (n : Z) : string := pretty n.

(** Dynamically typed attribute values: an INFO entry is a string or the
    flag [True]; [Variant.pos] and entries stored by [set_info] are
    integers. *)
Inductive pyval : Type :=
| PInt (n : Z)
| PStr (s : string)
| PTrue.

(** [v == s] for a string literal [s]. *)
Definition eq_str (v : pyval) (s : string) : bool :=
  match v with
  | PStr t => String.eqb t s
  | _ => false
  end.

(** [str(v)] and ['%s' % v]. *)
Definition to_str (v : pyval) : string :=
  match v with
  | PInt n => str n
  | PStr s => s
  | PTrue => "True"
  end.

(** [int(v)]. *)
Definition to_int (v : pyval) : result Z :=
  match v with
  | PInt n => Ok n
  | PStr s => int s
  | PTrue => Ok 1
  end.

(** [v + n] for an integer [n]. *)
Definition add_int (v : pyval) (n : Z) : result pyval :=
  match v with
  | PInt a => Ok (PInt (a + n))
  | PTrue => Ok (PInt (1 + n))
  | PStr _ => Raise TypeError
  end.

(** [max(v, 0)]: Python 2 orders every number before every string. *)
Definition max0 (v : pyval) : pyval :=
  match v with
  | PInt a => PInt (Z.max a 0)
  | PStr s => PStr s
  | PTrue => PTrue
  end.

(** An attribute the code computes with as an integer. *)
Definition as_int (v : pyval) : result Z :=
  match v with
  | PInt a => Ok a
  | PTrue => Ok 1
  | PStr _ => Raise TypeError
  end.

End Py.

Export Py.

(** ** Floating-point interface *)

(** The operations of Python's [float] that the classifier uses.  [lit q] is
    the float denoted by a literal or by [float(n)] of an integer; the
    comparisons are the Python operators [<], [<=] and [==]. *)
Class Float (F : Type) : Type := {
  lit : Q -> F;
  fadd : F -> F -> F;
  fsub : F -> F -> F;
  fmul : F -> F -> F;
  fdiv : F -> F -> F;
  fneg : F -> F;
  fabs : F -> F;
  flt : F -> F -> bool;
  fle : F -> F -> bool;
  feq : F -> F -> bool;
  nan : F;
  isnan : F -> bool;
  float_of_string : string -> option F
}.

(** The functions of the [math] module: [math_log x] is [None] where
    [math.log] raises its domain error. *)
Class Libm (F : Type) : Type := {
  math_exp : F -> F;
  math_log : F -> option F
}.

Declare Scope pyfloat_scope.
Delimit Scope pyfloat_scope with flt.
Infix "+" := fadd : pyfloat_scope.
Infix "-" := fsub : pyfloat_scope.
Infix "*" := fmul : pyfloat_scope.
Infix "/" := fdiv : pyfloat_scope.
Notation "- x" := (fneg x) : pyfloat_scope.
Infix "<?" := flt : pyfloat_scope.
Infix "<=?" := fle : pyfloat_scope.
Infix "=?" := feq : pyfloat_scope.
Notation "x >? y" := (flt y x) : pyfloat_scope.
Notation "x >=? y" := (fle y x) : pyfloat_scope.

Definition float {F} `{Float F} (s : string) : result F :=
  match float_of_string s with
  | Some x => Ok x
  | None => Raise (ValueError "could not convert string to float")
  end.

Definition float_of_Z {F} `{Float F} (n : Z) : F := lit (inject_Z n).
Definition float_of_nat {F} `{Float F} (n : nat) : F := lit (inject_Z (Z.of_nat n)).

(** Python's [x / y] on floats, which raises when [y] is zero. *)
Definition truediv {F} `{Float F} (x y : F) : result F :=
  if (y =? lit 0)%flt then Raise ZeroDivisionError else Ok (x / y)%flt.

(** Python's [min(x, y)]: the first argument unless the second is smaller. *)
Definition fmin {F} `{Float F} (x y : F) : F := if (y <? x)%flt then y else x.

(** [float(v)] of an attribute value. *)
Definition to_float {F} `{Float F} (v : pyval) : result F :=
  match v with
  | PInt n => Ok (float_of_Z n)
  | PStr s => float s
  | PTrue => Ok (float_of_Z 1)
  end.

(** [math.log(x)] and [math.log(x, base)]; the second is the quotient of the
    two natural logarithms. *)
Definition log {F} `{Float F} `{Libm F} (x : F) : result F :=
  match math_log x with
  | Some y => Ok y
  | None => Raise (ValueError "math domain error")
  end.

Definition log_base {F} `{Float F} `{Libm F} (x base : F) : result F :=
  n ← log x; d ← log base; Ok (n / d)%flt.

(** ** numpy and scipy *)

(** [scipy.stats.linregress] on paired samples: the slope of the
    least-squares line and the correlation coefficient [r_value]. *)
Class Regression (F : Type) : Type := {
  linregress : list F -> list F -> F * F
}.

Module Np.

Section Stats.
Context {F : Type} `{Float F}.

Fixpoint insert_sorted (x : F) (l : list F) : list F :=
  match l with
  | [] => [x]
  | y :: l' => if (x <=? y)%flt then x :: y :: l' else y :: insert_sorted x l'
  end.

(** [np.sort]. *)
Definition sort (l : list F) : list F := foldr insert_sorted [] l.

(** [np.sum] and [np.prod] of an array. *)
Definition sum (l : list F) : F := fold_left fadd l (float_of_Z 0).
Definition prod (l : list F) : F := fold_left fmul l (float_of_Z 1).

(** [np.prod] of a column of a pandas frame: numpy hands the reduction to
    the [prod] method of the column, which leaves the NaN entries out. *)
Definition prod_series (l : list F) : F :=
  prod (List.filter (fun x => negb (isnan x)) l).

(** [np.mean]. *)
Definition mean (l : list F) : F := (sum l / float_of_nat (length l))%flt.

(** [np.median]: the middle value of the sorted data, or the mean of the two
    middle values; [nan] on empty data. *)
Definition median (l : list F) : F :=
  let s := sort l in
  let n := length s in
  if Nat.even n then
    match s !! (n / 2 - 1)%nat, s !! (n / 2)%nat with
    | Some a, Some b => ((a + b) / float_of_Z 2)%flt
    | _, _ => nan
    end
  else
    match s !! (n / 2)%nat with
    | Some a => a
    | None => nan
    end.

(** [len(np.unique(xs)) > 1]: two of the values differ. *)
Definition more_than_one_unique (xs : list F) : bool :=
  match xs with
  | [] => false
  | x :: xs' => existsb (fun y => negb (y =? x)%flt) xs'
  end.

(** [np.percentile(xs, q)] with linear interpolation between the two order
    statistics around position [(n - 1) * q / 100]; [nan] on empty data. *)
Definition percentile (xs : list F) (q : Q) : F :=
  let s := sort xs in
  let h := (inject_Z (Z.of_nat (length s) - 1) * q / 100)%Q in
  let lo := Qfloor h in
  let frac := (h - inject_Z lo)%Q in
  match s !! Z.to_nat lo with
  | None => nan
  | Some x_lo =>
      match s !! Z.to_nat (lo + 1) with
      | None => x_lo
      | Some x_hi => (x_lo + (x_hi - x_lo) * lit frac)%flt
      end
  end.

End Stats.

End Np.

(** *** IEEE 754 binary64 *)

(** Python's [float] is the binary64 format of the machine: the arithmetic
    and the comparisons below are those of the hardware.  A literal [n # d]
    is the quotient of the two integers, which is the correctly rounded value
    of a decimal numeral of at most fifteen digits. *)
Module Binary64.

Definition float_of_pos (p : positive) : PrimFloat.float :=
  PrimFloat.of_uint63 (Uint63.of_Z (Zpos p)).

Definition float_of_int (z : Z) : PrimFloat.float :=
  match z with
  | Z0 => PrimFloat.zero
  | Zpos p => float_of_pos p
  | Zneg p => PrimFloat.opp (float_of_pos p)
  end.

Definition float_of_Q (q : Q) : PrimFloat.float :=
  PrimFloat.div (float_of_int (Qnum q)) (float_of_pos (Qden q)).

(** [float(s)]: white space, a sign, then [inf], [infinity] or [nan] in
    either case, or digits with an optional point and an optional exponent.
    The value is rounded once, to the nearest double, ties to even. *)
Fixpoint take_digits (acc : Z) (n : nat) (s : string) : Z * nat * string :=
  match s with
  | EmptyString => (acc, n, s)
  | String a s' =>
      match Py.digit_of a with
      | Some d => take_digits (10 * acc + d) (S n) s'
      | None => (acc, n, s)
      end
  end.

Definition lower (a : ascii) : ascii :=
  let n := nat_of_ascii a in
  if ((65 <=? n) && (n <=? 90))%nat then ascii_of_nat (n + 32) else a.

Fixpoint lower_string (s : string) : string :=
  match s with
  | EmptyString => EmptyString
  | String a s' => String (lower a) (lower_string s')
  end.

(** The exponent part [e[+-]ddd], or nothing. *)
Definition exponent_of (s : string) : option Z :=
  match s with
  | EmptyString => Some 0
  | String a s' =>
      if Ascii.eqb (lower a) "e" then
        let '(neg, digits) :=
          match s' with
          | String "-" t => (true, t)
          | String "+" t => (false, t)
          | _ => (false, s')
          end in
        match take_digits 0 0 digits with
        | (e, S _, EmptyString) => Some (if neg then - e else e)
        | _ => None
        end
      else None
  end.

(** A numeral as [m * 10 ^ e] with [m] not negative. *)
Definition decimal_of (s : string) : option (Z * Z) :=
  let '(i, ni, rest) := take_digits 0 0 s in
  let '(m, nf, rest) :=
    match rest with
    | String "." t => take_digits i 0 t
    | _ => (i, 0%nat, rest)
    end in
  match (ni + nf)%nat with
  | O => None
  | S _ => e ← exponent_of rest; Some (m, e - Z.of_nat nf)
  end.

Definition round_half_even (num den : Z) : Z :=
  let q := num / den in
  match 2 * (num mod den) ?= den with
  | Lt => q
  | Gt => q + 1
  | Eq => if Z.even q then q else q + 1
  end.

(** The double nearest to [num / den], for [num] and [den] positive. *)
Definition nearest (num den : Z) : PrimFloat.float :=
  let e0 := Z.log2 num - Z.log2 den in
  let e :=
    if num * 2 ^ Z.max 0 (- e0) <? den * 2 ^ Z.max 0 e0 then e0 - 1 else e0 in
  let k := Z.max (e - 52) (-1074) in
  let m := round_half_even (num * 2 ^ Z.max 0 (- k)) (den * 2 ^ Z.max 0 k) in
  if (971 <? k) || ((k =? 971) && (2 ^ 53 <=? m)) then PrimFloat.infinity
  else FloatOps.Z.ldexp (PrimFloat.of_uint63 (Uint63.of_Z m)) k.

Definition float_of_decimal (m e : Z) : PrimFloat.float :=
  if m =? 0 then PrimFloat.zero
  else if 0 <=? e then nearest (m * 10 ^ e) 1
  else nearest m (10 ^ (- e)).

Definition float_of_str (s : string) : option PrimFloat.float :=
  let s := Py.strip s in
  let '(neg, body) :=
    match s with
    | String "-" t => (true, t)
    | String "+" t => (false, t)
    | _ => (false, s)
    end in
  let signed (x : PrimFloat.float) := if neg then PrimFloat.opp x else x in
  let word := lower_string body in
  if String.eqb word "inf" || String.eqb word "infinity"
  then Some (signed PrimFloat.infinity)
  else if String.eqb word "nan" then Some PrimFloat.nan
  else '(m, e) ← decimal_of body; Some (signed (float_of_decimal m e)).

#[export] Instance binary64_float : Float PrimFloat.float := {
  lit := float_of_Q;
  fadd := PrimFloat.add;
  fsub := PrimFloat.sub;
  fmul := PrimFloat.mul;
  fdiv := PrimFloat.div;
  fneg := PrimFloat.opp;
  fabs := PrimFloat.abs;
  flt := PrimFloat.ltb;
  fle := PrimFloat.leb;
  feq := PrimFloat.eqb;
  nan := PrimFloat.nan;
  isnan := PrimFloat.is_nan;
  float_of_string := float_of_str
}.

(** The functions of the C library are algorithms on doubles; these are
    series after a range reduction, with a relative error of about 1e-13 for
    the exponential and of one unit in the last place for the logarithm, and
    exact at [exp 0 = 1] and [log 1 = 0]. *)
Fixpoint exp_horner (x : PrimFloat.float) (n : nat) (k : PrimFloat.float)
  : PrimFloat.float :=
  match n with
  | O => PrimFloat.one
  | S n' =>
      PrimFloat.add PrimFloat.one
        (PrimFloat.mul (PrimFloat.div x k)
           (exp_horner x n' (PrimFloat.add k PrimFloat.one)))
  end.

Fixpoint square_times (n : nat) (y : PrimFloat.float) : PrimFloat.float :=
  match n with
  | O => y
  | S n' => square_times n' (PrimFloat.mul y y)
  end.

Definition b64_exp (x : PrimFloat.float) : PrimFloat.float :=
  if PrimFloat.is_nan x then PrimFloat.nan
  else if PrimFloat.eqb x PrimFloat.neg_infinity then PrimFloat.zero
  else if PrimFloat.eqb x PrimFloat.infinity then PrimFloat.infinity
  else square_times 10 (exp_horner (PrimFloat.div x (float_of_int 1024)) 20 PrimFloat.one).

Definition ln2 : PrimFloat.float := float_of_Q (6931471805599453 # 10000000000000000).

(** [1/(2k+1) + z2 * (1/(2k+3) + ...)], with [n] terms. *)
Fixpoint atanh_horner (z2 : PrimFloat.float) (n : nat) (k : Z) : PrimFloat.float :=
  match n with
  | O => PrimFloat.zero
  | S n' =>
      PrimFloat.add (PrimFloat.div PrimFloat.one (float_of_int (2 * k + 1)))
        (PrimFloat.mul z2 (atanh_horner z2 n' (k + 1)))
  end.

Definition b64_log (x : PrimFloat.float) : option PrimFloat.float :=
  if PrimFloat.leb x PrimFloat.zero then None
  else if PrimFloat.is_nan x then Some PrimFloat.nan
  else if PrimFloat.eqb x PrimFloat.infinity then Some PrimFloat.infinity
  else
    let '(m, e) := FloatOps.Z.frexp x in
    let '(m, e) :=
      if PrimFloat.ltb m (PrimFloat.sqrt (float_of_Q (1 # 2)))
      then (PrimFloat.mul m (float_of_int 2), e - 1) else (m, e) in
    let z := PrimFloat.div (PrimFloat.sub m PrimFloat.one)
               (PrimFloat.add m PrimFloat.one) in
    Some (PrimFloat.add (PrimFloat.mul (float_of_int e) ln2)
            (PrimFloat.mul (float_of_int 2)
               (PrimFloat.mul z (atanh_horner (PrimFloat.mul z z) 16 0)))).

#[export] Instance binary64_libm : Libm PrimFloat.float := {
  math_exp := b64_exp;
  math_log := b64_log
}.

(** [scipy.stats.linregress]: the covariances of the centred data, the
    correlation coefficient clipped to [-1, 1], and the slope. *)
Definition b64_cov (xs ys : list PrimFloat.float) : PrimFloat.float :=
  let mx := Np.mean xs in
  let my := Np.mean ys in
  Np.mean (zip_with (fun x y => PrimFloat.mul (PrimFloat.sub x mx) (PrimFloat.sub y my)) xs ys).

Definition b64_linregress (xs ys : list PrimFloat.float)
  : PrimFloat.float * PrimFloat.float :=
  let ssxm := b64_cov xs xs in
  let ssxym := b64_cov xs ys in
  let ssym := b64_cov ys ys in
  let r_num := ssxym in
  let r_den := PrimFloat.sqrt (PrimFloat.mul ssxm ssym) in
  let r :=
    if PrimFloat.eqb r_den PrimFloat.zero then PrimFloat.zero
    else
      let r := PrimFloat.div r_num r_den in
      if PrimFloat.ltb PrimFloat.one r then PrimFloat.one
      else if PrimFloat.ltb r (PrimFloat.opp PrimFloat.one)
           then PrimFloat.opp PrimFloat.one else r in
  (PrimFloat.div r_num ssxm, r).

#[export] Instance binary64_regression : Regression PrimFloat.float := {
  linregress := b64_linregress
}.

End Binary64.

(** ** The VCF record *)

Module Vcf.

(** The attributes of [svtools.vcf.variant.Variant] that this code uses.
    [gts] holds, per sample, the FORMAT fields of its genotype, as the
    strings of the VCF line. *)
Record Variant : Type := mkVariant {
  chrom : string;
  pos : pyval;
  var_id : string;
  alt : string;
  qual : string;
  filter : string;
  info : gmap string pyval;
  sample_list : list string;
  active_formats : list string;
  gts : gmap string (gmap string string)
}.

(** [var.genotype(s).get_format(field)]. *)
Definition get_format (var : Variant) (s field : string) : result string :=
  g ← getitem (gts var) s; getitem g field.

Definition set_var_id (x : string) (v : Variant) : Variant :=
  mkVariant (chrom v) (pos v) x (alt v) (qual v) (filter v) (info v)
    (sample_list v) (active_formats v) (gts v).

Definition set_alt (x : string) (v : Variant) : Variant :=
  mkVariant (chrom v) (pos v) (var_id v) x (qual v) (filter v) (info v)
    (sample_list v) (active_formats v) (gts v).

Definition set_pos (x : pyval) (v : Variant) : Variant :=
  mkVariant (chrom v) x (var_id v) (alt v) (qual v) (filter v) (info v)
    (sample_list v) (active_formats v) (gts v).

Definition set_info_dict (x : gmap string pyval) (v : Variant) : Variant :=
  mkVariant (chrom v) (pos v) (var_id v) (alt v) (qual v) (filter v) x
    (sample_list v) (active_formats v) (gts v).

(** [var.info[k] = x]. *)
Definition set_info (k : string) (x : pyval) (v : Variant) : Variant :=
  set_info_dict (<[k := x]> (info v)) v.

(** [del var.info[k]]. *)
Definition del_info (k : string) (v : Variant) : result Variant :=
  d ← delitem (info v) k; Ok (set_info_dict d v).

(** [var.genotype(s)] with the FORMAT fields [g]. *)
Definition set_genotype (s : string) (g : gmap string string) (v : Variant)
  : Variant :=
  mkVariant (chrom v) (pos v) (var_id v) (alt v) (qual v) (filter v) (info v)
    (sample_list v) (active_formats v) (<[s := g]> (gts v)).

(** [var.chrom == 'X' or var.chrom == 'Y']. *)
Definition on_sex_chrom (v : Variant) : bool :=
  String.eqb (chrom v) "X" || String.eqb (chrom v) "Y".

End Vcf.

Export Vcf.

(** ** svtools/reclass_combined.py *)

Module Reclass.

Section Overlap.
Context {F : Type} `{Float F}.

(** The loop of [reciprocal_overlap]: [b_aggregate] and [overlap] after the
    features [bs], from the values [agg] and [ov]. *)
Fixpoint overlap_loop (a : Z * Z) (bs : list (Z * Z)) (agg : Z) (ov : F)
  : Z * F :=
  match bs with
  | [] => (agg, ov)
  | b :: bs' =>
      overlap_loop a bs' (agg + (b.2 - b.1))
        (ov + float_of_Z (Z.min a.2 b.2 - Z.max a.1 b.1))%flt
  end.

Definition reciprocal_overlap (a : Z * Z) (b_list : list (Z * Z)) : F :=
  if a.2 =? a.1 then float_of_Z 0
  else
    let '(b_aggregate, overlap) := overlap_loop a b_list 0 (float_of_Z 0) in
    if b_aggregate =? 0 then float_of_Z 0
    else fmin (overlap / float_of_Z (a.2 - a.1))%flt
              (overlap / float_of_Z b_aggregate)%flt.

End Overlap.

(** *** The read-depth tests *)

Section DepthTests.
Context {F : Type} `{Float F} `{Regression F}.

(** Median absolute deviation, [mad(arr)]. *)
Definition mad (arr : list F) : F :=
  let med := Np.median arr in
  Np.median (map (fun x => fabs (x - med)%flt) arr).

(** The copy number of sample [s], doubled for a male sample on X or Y;
    [gender[s]] is only looked up on these two chromosomes. *)
Definition sample_cn (var : Variant) (gender : gmap string Z) (s : string)
  : result F :=
  male_on_sex_chrom ←
    (if on_sex_chrom var then g ← getitem gender s; Ok (g =? 1) else Ok false);
  cn ← get_format var s "CN";
  x ← float cn;
  Ok (if (male_on_sex_chrom : bool) then (x * float_of_Z 2)%flt else x).

(** The allele balance of sample [s], -1 for a missing one. *)
Definition sample_ab (var : Variant) (s : string) : result F :=
  ab_str ← get_format var s "AB";
  if String.eqb ab_str "." then Ok (float_of_Z (-1)) else float ab_str.

(** [has_high_freq_depth_support]: regression of copy number on allele
    balance.  The two loops run over every sample of the record: the
    [exclude] argument is not consulted, the two tests on it being commented
    out in the source.  The dump of the data points to [writedir], which
    [sv_classify] does not ask for, is left out here and in the next test. *)
Definition has_high_freq_depth_support (var : Variant) (gender : gmap string Z)
    (exclude : list string) (slope_threshold rsquared_threshold : F)
  : result bool :=
  if contains (active_formats var) "CN" then
    ab_list ← for_each (sample_ab var) (sample_list var);
    rd_list ← for_each (sample_cn var gender) (sample_list var);
    let rd := List.filter (fun c => negb (c.1 =? float_of_Z (-1))%flt)
                (zip ab_list rd_list) in
    if Np.more_than_one_unique (map fst rd)
       && Np.more_than_one_unique (map snd rd) then
      let '(slope, r_value) := linregress (map fst rd) (map snd rd) in
      if (r_value * r_value <? rsquared_threshold)%flt then Ok false
      else
        svtype ← getitem (info var) "SVTYPE";
        let slope := if eq_str svtype "DEL" then (- slope)%flt else slope in
        if (slope <? slope_threshold)%flt then Ok false else Ok true
    else Ok false
  else Ok false.

(** The first loop of [has_low_freq_depth_support]: the lists [hom_ref_cn],
    [het_cn] and [hom_alt_cn] after the samples [ss]. *)
Fixpoint cn_by_genotype (var : Variant) (gender : gmap string Z)
    (exclude : list string) (ss : list string)
    (acc : list F * list F * list F) : result (list F * list F * list F) :=
  match ss with
  | [] => Ok acc
  | s :: ss' =>
      if contains exclude s then cn_by_genotype var gender exclude ss' acc
      else
        cn ← sample_cn var gender s;
        gt ← get_format var s "GT";
        let '(hom_ref_cn, het_cn, hom_alt_cn) := acc in
        cn_by_genotype var gender exclude ss'
          (if String.eqb gt "0/0" then ((hom_ref_cn ++ [cn])%list, het_cn, hom_alt_cn)
           else if String.eqb gt "0/1" then (hom_ref_cn, (het_cn ++ [cn])%list, hom_alt_cn)
           else if String.eqb gt "1/1" then (hom_ref_cn, het_cn, (hom_alt_cn ++ [cn])%list)
           else acc)
  end.

Definition mad_threshold : F := float_of_Z 2.
Definition mad_quorum : F := lit (1 # 2).
Definition absolute_cn_diff : F := lit (1 # 2).

(** The residual of a copy number against the hom-ref median. *)
Definition residual (svtype : pyval) (cn_median cn : F) : F :=
  let resid := (cn - cn_median)%flt in
  if eq_str svtype "DEL" then (- resid)%flt else resid.

Definition meets_threshold (cn_mad resid : F) : bool :=
  (resid >? cn_mad * mad_threshold)%flt && (resid >? absolute_cn_diff)%flt.

(** The tally loop: [q] after the copy numbers [cns]. *)
Fixpoint tally (var : Variant) (cn_median cn_mad : F) (cns : list F) (q : nat)
  : result nat :=
  match cns with
  | [] => Ok q
  | cn :: cns' =>
      svtype ← getitem (info var) "SVTYPE";
      tally var cn_median cn_mad cns'
        (if meets_threshold cn_mad (residual svtype cn_median cn)
         then S q else q)
  end.

(** [has_low_freq_depth_support]: median and MAD of the hom-ref copy numbers,
    and a quorum of the het and hom-alt ones.  The mean and the standard
    deviation that the source also computes only go to the diagnostic file. *)
Definition has_low_freq_depth_support (var : Variant) (gender : gmap string Z)
    (exclude : list string) : result bool :=
  '(hom_ref_cn, het_cn, hom_alt_cn) ←
     cn_by_genotype var gender exclude (sample_list var) ([], [], []);
  let cn_median := Np.median hom_ref_cn in
  let cn_mad := mad hom_ref_cn in
  if (length hom_ref_cn =? 0)%nat || (length (het_cn ++ hom_alt_cn)%list =? 0)%nat
  then Ok false
  else
    q ← tally var cn_median cn_mad (het_cn ++ hom_alt_cn)%list 0%nat;
    if (float_of_nat q / float_of_nat (length (het_cn ++ hom_alt_cn)%list)
          >? mad_quorum)%flt
    then Ok true else Ok false.

End DepthTests.

(** *** Rewriting a variant as a pair of breakends *)

(** The line [var.get_var_string(fixed_gts)], kept as the state of the record
    at the call. *)
Record var_string : Type := VarString {
  vs_var : Variant;
  vs_fixed_gts : bool
}.

(** [to_bnd_strings]: the record is mutated in place and serialised twice.
    The second component is also the state in which the record is left. *)
Definition to_bnd_strings (var : Variant) (fixed_gts : bool)
  : result (var_string * var_string) :=
  old_type ← getitem (info var) "SVTYPE";
  let old_id := var_id var in
  let old_pos := pos var in
  old_end ← getitem (info var) "END";
  old_ciend ← getitem (info var) "CIEND";
  old_cipos ← getitem (info var) "CIPOS";
  old_cipos95 ← getitem (info var) "CIPOS95";
  old_ciend95 ← getitem (info var) "CIEND95";
  let var := set_info "SVTYPE" (PStr "BND") var in
  let var := set_info "EVENT" (PStr old_id) var in
  var ← del_info "SVLEN" var;
  var ← del_info "END" var;
  let var := set_var_id (old_id ++ "_1") var in
  let var := set_info "MATEID" (PStr (old_id ++ "_2")) var in
  let var :=
    if eq_str old_type "DEL"
    then set_alt ("N[" ++ chrom var ++ ":" ++ to_str old_end ++ "[") var
    else set_alt ("]" ++ chrom var ++ ":" ++ to_str old_end ++ "]N") var in
  let var1 := VarString var fixed_gts in
  let var := set_var_id (old_id ++ "_2") var in
  let var := set_info "MATEID" (PStr (old_id ++ "_1")) var in
  let var := set_info "CIPOS" old_ciend var in
  let var := set_info "CIEND" old_cipos var in
  let var := set_info "CIPOS95" old_ciend95 var in
  let var := set_info "CIEND95" old_cipos95 var in
  let var := set_pos old_end var in
  let var := set_info "SECONDARY" PTrue var in
  let var :=
    if eq_str old_type "DEL"
    then set_alt ("]" ++ chrom var ++ ":" ++ to_str old_pos ++ "]N") var
    else set_alt ("N[" ++ chrom var ++ ":" ++ to_str old_pos ++ "[") var in
  let var2 := VarString var fixed_gts in
  Ok (var1, var2).

(** *** Mobile-element annotation *)

(** A row of the annotation BED file without its chromosome:
    [[start, end, class, ...]]. *)
Record feature : Type := mkFeature {
  f_start : Z;
  f_end : Z;
  f_class : string
}.

Definition interval (f : feature) : Z * Z := (f_start f, f_end f).

Definition set_end (e : Z) (f : feature) : feature :=
  mkFeature (f_start f) e (f_class f).

Section Annotation.
Context {F : Type} `{Float F}.

(** The features of one chromosome are list objects shared between
    [ae_dict] and the lists built from it: [store] is that chromosome's list
    and a feature is named by its position in it. *)
Definition end_of (store : list feature) (i : nat) : Z :=
  default 0 (f_end <$> store !! i).

Definition start_of (store : list feature) (i : nat) : Z :=
  default 0 (f_start <$> store !! i).

Fixpoint insert_by_end (store : list feature) (i : nat) (l : list nat)
  : list nat :=
  match l with
  | [] => [i]
  | j :: l' =>
      if end_of store j <=? end_of store i
      then j :: insert_by_end store i l'
      else i :: j :: l'
  end.

(** [sorted(bed_list, key=itemgetter(1))]: a stable sort on the end
    coordinate. *)
Definition sort_by_end (store : list feature) (l : list nat) : list nat :=
  fold_left (fun acc i => insert_by_end store i acc) l [].

(** The loop of [collapse_bed_records] with [curr_rec] the feature [curr] and
    [rest] the sorted features still to load.  Merging writes the end of the
    next feature into [curr_rec], which is a feature of [ae_dict]; what is
    appended is a copy. *)
Fixpoint collapse_loop (store : list feature) (curr : nat) (rest : list nat)
    (collapsed : list feature) : list feature * list feature :=
  match rest with
  | [] => ((collapsed ++ option_list (store !! curr))%list, store)
  | next :: rest' =>
      if end_of store curr >=? start_of store next then
        collapse_loop (alter (set_end (end_of store next)) curr store)
          curr rest' collapsed
      else
        collapse_loop store next rest'
          (collapsed ++ option_list (store !! curr))%list
  end.

Definition collapse_bed_records (store : list feature) (bed_list : list nat)
  : result (list feature * list feature) :=
  match sort_by_end store bed_list with
  | [] => Raise IndexError
  | curr :: rest => Ok (collapse_loop store curr rest [])
  end.

(** [class_overlap[cls].append(i)], a new key going last. *)
Fixpoint add_to_class (cls : string) (i : nat)
    (class_overlap : list (string * list nat)) : list (string * list nat) :=
  match class_overlap with
  | [] => [(cls, [i])]
  | (c, l) :: rest =>
      if String.eqb c cls then (c, (l ++ [i])%list) :: rest
      else (c, l) :: add_to_class cls i rest
  end.

(** The scan of the chromosome's features, which stops at the first one that
    starts at or after the end of the variant. *)
Fixpoint scan_features (fs : list feature) (i : nat) (var_start var_end : Z)
    (class_overlap : list (string * list nat)) : list (string * list nat) :=
  match fs with
  | [] => class_overlap
  | f :: fs' =>
      if f_start f - 0 <? var_end then
        scan_features fs' (S i) var_start var_end
          (if f_end f + 0 >? var_start
           then add_to_class (f_class f) i class_overlap
           else class_overlap)
      else class_overlap
  end.

(** The loop over the classes: [best_frac_overlap], [best_feature] and the
    chromosome's features after the classes [classes].  The source iterates
    over a dictionary; here the classes come in the order of their first
    feature. *)
Fixpoint best_class (a : Z * Z) (classes : list (string * list nat))
    (store : list feature) (best : F * string)
  : result (F * string * list feature) :=
  match classes with
  | [] => Ok (best, store)
  | (me_class, bed_list) :: rest =>
      '(collapsed, store') ← collapse_bed_records store bed_list;
      let frac_overlap := reciprocal_overlap a (map interval collapsed) in
      best_class a rest store'
        (if (frac_overlap >? best.1)%flt then (frac_overlap, me_class) else best)
  end.

(** [annotation_intersect]: the class to report, if any, and [ae_dict] as the
    call leaves it.  [var.pos] is an integer on every record that the
    [Variant] constructor builds; on another value the comparisons of the
    scan are not modelled and [as_int] raises. *)
Definition annotation_intersect (var : Variant)
    (ae_dict : gmap string (list feature)) (threshold : F)
  : result (option string * gmap string (list feature)) :=
  match ae_dict !! chrom var with
  | Some store =>
      var_start ← as_int (pos var);
      e ← getitem (info var) "END";
      var_end ← to_int e;
      let class_overlap := scan_features store 0%nat var_start var_end [] in
      '(best_frac_overlap, best_feature, store') ←
         best_class (var_start, var_end) class_overlap store
           (float_of_Z 0, EmptyString);
      let ae_dict' := <[chrom var := store']> ae_dict in
      if (best_frac_overlap >=? threshold)%flt
      then Ok (Some best_feature, ae_dict')
      else Ok (None, ae_dict')
  | None => Ok (None, ae_dict)
  end.

End Annotation.

(** *** Copy-number records and the training-set trimming *)

#[export] Instance pyval_eq_dec : EqDecision pyval.
Proof. solve_decision. Defined.

(** The named tuple [CN_rec]. *)
Record CN_rec (F : Type) : Type := mkCN_rec {
  r_var_id : string;
  r_sample : string;
  r_svtype : pyval;
  r_svlen : F;
  r_AF : pyval;
  r_GT : string;
  r_CN : string;
  r_log_len : F;
  r_log2r : F
}.

Arguments mkCN_rec {F}.
Arguments r_var_id {F}.
Arguments r_sample {F}.
Arguments r_svtype {F}.
Arguments r_svlen {F}.
Arguments r_AF {F}.
Arguments r_GT {F}.
Arguments r_CN {F}.
Arguments r_log_len {F}.
Arguments r_log2r {F}.

Section Trimming.
Context {F : Type} `{Float F}.

Definition lowQuantile (xx : list F) : F := Np.percentile xx (25 # 10).
Definition highQuantile (xx : list F) : F := Np.percentile xx (975 # 10).

(** Two rows of one [groupby(['sample', 'svtype', 'GT'])] group. *)
Definition same_group (r r' : CN_rec F) : bool :=
  String.eqb (r_sample r) (r_sample r')
  && bool_decide (r_svtype r = r_svtype r')
  && String.eqb (r_GT r) (r_GT r').

(** The [log2r] values of the group of row [r] in [df]. *)
Definition group_log2r (df : list (CN_rec F)) (r : CN_rec F) : list F :=
  map r_log2r (List.filter (same_group r) df).

(** The columns [q_low] and [q_high] at row [r]. *)
Definition q_low (df : list (CN_rec F)) (r : CN_rec F) : F :=
  lowQuantile (group_log2r df r).
Definition q_high (df : list (CN_rec F)) (r : CN_rec F) : F :=
  highQuantile (group_log2r df r).

(** [df[(df.log2r >= df.q_low) & (df.log2r <= df.q_high)]], the trimming
    step of [calc_params]. *)
Definition quantile_trim (df : list (CN_rec F)) : list (CN_rec F) :=
  List.filter
    (fun r => (r_log2r r >=? q_low df r)%flt && (r_log2r r <=? q_high df r)%flt)
    df.

End Trimming.

(** *** The likelihood test *)

(** A fitted regression of [calc_params], through its [predict]: the
    predicted offset of a row, from its [log_len]. *)
Record ols_fit (F : Type) : Type := mkFit { predict : F -> F }.
Arguments mkFit {F}.
Arguments predict {F}.

(** A row of [params]. *)
Record param_row (F : Type) : Type := mkParam {
  p_sample : string;
  p_svtype : pyval;
  mean0 : F; mean1 : F; mean2 : F;
  sd0 : F; sd1 : F; sd2 : F
}.
Arguments mkParam {F}.
Arguments p_sample {F}.
Arguments p_svtype {F}.
Arguments mean0 {F}.
Arguments mean1 {F}.
Arguments mean2 {F}.
Arguments sd0 {F}.
Arguments sd1 {F}.
Arguments sd2 {F}.

(** [pd.merge(left, right, how='left')]: every left row in order, once per
    matching right row, and once with [missing] when none matches. *)
Definition merge_left {A B : Type} (matches : A -> B -> bool) (missing : A -> B)
    (left : list A) (right : list B) : list (A * B) :=
  flat_map
    (fun a =>
       match List.filter (matches a) right with
       | [] => [(a, missing a)]
       | bs => map (pair a) bs
       end)
    left.

Section NaiveBayes.
Context {F : Type} `{Float F} `{Libm F}.

(** [1 / sd * math.exp(-(xx-mean) * (xx-mean) / (2*sd*sd))], the two
    divisions in the order in which they are evaluated. *)
Definition lld (xx mean sd : F) : result F :=
  a ← truediv (float_of_Z 1) sd;
  b ← truediv (- (xx - mean) * (xx - mean))%flt (float_of_Z 2 * sd * sd)%flt;
  Ok (a * math_exp b)%flt.

(** A row of [mm]: a record, its adjusted ratio and the parameters of its
    sample. *)
Record mm_row : Type := mkMm {
  m_rec : CN_rec F;
  log2r_adj : F;
  m_par : param_row F
}.

(** A row of [mm] with its columns [lld0], [lld1] and [lld2]. *)
Record lld_row : Type := mkLld {
  l_mm : mm_row;
  lld0 : F;
  lld1 : F;
  lld2 : F
}.

(** [mm.apply(lambda row: lld(row["log2r_adj"], row[mean], row[sd]), axis=1)]:
    the column of the values, or the first exception. *)
Definition lld_column (mean sd : param_row F -> F) (mm : list mm_row)
  : result (list F) :=
  for_each (fun m => lld (log2r_adj m) (mean (m_par m)) (sd (m_par m))) mm.

(** The three assignments of the columns, one after the other. *)
Definition with_lld (mm : list mm_row) : result (list lld_row) :=
  c0 ← lld_column mean0 sd0 mm;
  c1 ← lld_column mean1 sd1 mm;
  c2 ← lld_column mean2 sd2 mm;
  Ok (zip_with (fun m c => mkLld m c.1.1 c.1.2 c.2) mm (zip (zip c0 c1) c2)).

(** The table [tr] of [rd_support_nb]: genotype, then [p0], [p1], [p2]. *)
Definition tr : list (string * (F * F * F)) :=
  [ ("0/0", (lit 1, lit 0, lit 0));
    ("0/1", (lit (1 # 10), lit (45 # 100), lit (45 # 100)));
    ("1/1", (lit 0, lit (1 # 2), lit (1 # 2))) ].

(** The column [p_mix] of a row joined with its line of [tr]. *)
Definition p_mix (row : lld_row * (string * (F * F * F))) : F :=
  let '(m, (_, (p0, p1, p2))) := row in
  (lld0 m * p0 + lld1 m * p1 + lld2 m * p2)%flt.

Definition rd_support_nb (temp : list lld_row) (p_cnv frac_BND : F) : bool :=
  let temp :=
    merge_left (fun m t => String.eqb (r_GT (m_rec (l_mm m))) t.1)
      (fun m => (r_GT (m_rec (l_mm m)), (nan, nan, nan))) temp tr in
  (p_cnv * Np.prod_series (map p_mix temp)
     >? (float_of_Z 1 - p_cnv)
        * Np.prod_series (map (fun row => lld0 row.1) temp))%flt.

(** The record of sample [s], the arguments of [CN_rec] being evaluated from
    left to right after [cn] and [log2r]. *)
Definition cn_rec_of (var : Variant) (epsilon : F) (s : string)
  : result (CN_rec F) :=
  cn ← get_format var s "CN";
  x ← float cn;
  log2r ← log_base ((x + epsilon) / float_of_Z 2)%flt (float_of_Z 2);
  svtype ← getitem (info var) "SVTYPE";
  l ← getitem (info var) "SVLEN";
  svlen ← to_float l;
  af ← getitem (info var) "AF";
  gt ← get_format var s "GT";
  l' ← getitem (info var) "SVLEN";
  svlen' ← to_float l';
  log_len ← log (fabs svlen');
  Ok (mkCN_rec (var_id var) s svtype (fabs svlen) af gt cn log_len log2r).

(** The loop that fills [test_set]. *)
Fixpoint test_set_of (var : Variant) (exclude : list string) (epsilon : F)
    (ss : list string) : result (list (CN_rec F)) :=
  match ss with
  | [] => Ok []
  | s :: ss' =>
      if contains exclude s then test_set_of var exclude epsilon ss'
      else
        r ← cn_rec_of var epsilon s;
        rs ← test_set_of var exclude epsilon ss';
        Ok (r :: rs)
  end.

Definition is_small_del (gt : string) (r : CN_rec F) : bool :=
  eq_str (r_svtype r) "DEL" && String.eqb (r_GT r) gt
  && (r_svlen r <? float_of_Z 1000)%flt.

Definition not_small_del (r : CN_rec F) : bool :=
  negb (eq_str (r_svtype r) "DEL") || String.eqb (r_GT r) "0/0"
  || (r_svlen r >=? float_of_Z 1000)%flt.

(** A row with the prediction of [fit] subtracted from its [log2r]. *)
Definition adjust (fit : ols_fit F) (r : CN_rec F) : CN_rec F * F :=
  (r, (r_log2r r - predict fit (r_log_len r))%flt).

Definition missing_params (d : CN_rec F * F) : param_row F :=
  mkParam (r_sample d.1) (r_svtype d.1) nan nan nan nan nan nan.

(** The frame [mm] of [has_cn_support_by_nb], from [test_set]. *)
Definition mm_of (test_set : list (CN_rec F)) (het_del_fit hom_del_fit : ols_fit F)
    (params : list (param_row F)) : list mm_row :=
  let shomd := List.filter (is_small_del "1/1") test_set in
  let shetd := List.filter (is_small_del "0/1") test_set in
  let small_dels := (map (adjust hom_del_fit) shomd ++ map (adjust het_del_fit) shetd)%list in
  let df1 := List.filter not_small_del test_set in
  let df1 := map (fun r => (r, r_log2r r)) df1 in
  let df1 := (df1 ++ small_dels)%list in
  let df1 := List.filter (fun d => negb (String.eqb (r_GT d.1) "0/0")) df1 in
  map (fun dp => mkMm dp.1.1 dp.1.2 dp.2)
    (merge_left
       (fun d p => String.eqb (r_sample d.1) (p_sample p)
                   && bool_decide (r_svtype d.1 = p_svtype p))
       missing_params df1 params).

Definition has_cn_support_by_nb (var : Variant) (gender : gmap string Z)
    (exclude : list string) (het_del_fit hom_del_fit : ols_fit F)
    (params : list (param_row F)) (frac_BND p_cnv epsilon : F) : result bool :=
  test_set ← test_set_of var exclude epsilon (sample_list var);
  mm ← with_lld (mm_of test_set het_del_fit hom_del_fit params);
  Ok (rd_support_nb mm p_cnv frac_BND).

(** The default values of [frac_BND], [p_cnv] and [epsilon]. *)
Definition default_frac_BND : F := lit (25 # 100).
Definition default_p_cnv : F := lit (1 # 2).
Definition default_epsilon : F := lit (1 # 10).

End NaiveBayes.

(** *** The reclassification driver *)

(** What [sv_classify] writes to [vcf_out]: an input line as it was read, the
    header, or a serialised record followed by a newline. *)
Inductive written : Type :=
| WLine (line : string)
| WHeader (header : list string)
| WVar (v : var_string).

(** A line of the diagnostic file. *)
Record diag_row : Type := mkDiag {
  d_var_id : string;
  d_svtype : string;
  d_num_pos_samps : nat;
  d_nb_support : bool;
  d_high_freq_support : bool;
  d_low_freq_support : bool
}.

(** The effect of one data line: what is written to [vcf_out], the line for
    the diagnostic file if the line gets one, and the annotation index as
    it is left. *)
Record outcome : Type := mkOutcome {
  out : list written;
  diag : option diag_row;
  ae_after : option (gmap string (list feature))
}.

Definition min_pos_samps_for_regression : nat := 10.

(** The pre-check of a line: the value of the first [SVTYPE=] entry of its
    INFO column. *)
Definition svtype_of_line (line : string) : result (option string) :=
  let v := split_on "009" (rstrip line) in
  info_col ← index v 7;
  match List.filter (fun x => startswith x "SVTYPE=") (split_on ";" info_col) with
  | [] => Ok None
  | x :: _ => t ← index (split_on "=" x) 1; Ok (Some t)
  end.

(** The count of positively genotyped samples, from [n]. *)
Fixpoint count_pos_samps (var : Variant) (exclude : list string)
    (ss : list string) (n : nat) : result nat :=
  match ss with
  | [] => Ok n
  | s :: ss' =>
      if contains exclude s then count_pos_samps var exclude ss' n
      else
        gt ← get_format var s "GT";
        count_pos_samps var exclude ss'
          (if contains ["./."; "0/0"] gt then n else S n)
  end.

Section Classify.
Context {F : Type} `{Float F} `{Libm F} `{Regression F}.

Variables (gender : gmap string Z) (exclude : list string).
Variables (f_overlap slope_threshold rsquared_threshold : F).
Variables (het_del_fit hom_del_fit : ols_fit F) (params : list (param_row F)).

(** The check against the mobile elements: for a DEL and an annotation
    index, the class found by [annotation_intersect]. *)
Definition mei_check (var : Variant)
    (ae_dict : option (gmap string (list feature)))
  : result (option string * option (gmap string (list feature))) :=
  match ae_dict with
  | Some d =>
      t ← getitem (info var) "SVTYPE";
      if eq_str t "DEL" then
        '(ae, d') ← annotation_intersect var d f_overlap;
        Ok (ae, Some d')
      else Ok (None, Some d)
  | None => Ok (None, None)
  end.

(** The record rewritten as a mobile-element deletion of class [ae]. *)
Definition to_mei (var : Variant) (ae : string) : result Variant :=
  is_me ←
    (if startswith ae "SINE" || startswith ae "LINE" then Ok true
     else part ← index (split_on "|" ae) 2; Ok (startswith part "SVA"));
  let ae := if (is_me : bool) then "ME:" ++ ae else ae in
  Ok (set_info "SVTYPE" (PStr "MEI") (set_alt ("<DEL:" ++ ae ++ ">") var)).

(** The two lines that replace a variant without read-depth support, and
    the record as [to_bnd_strings] leaves it. *)
Definition write_bnd (var : Variant) : result (list written * Variant) :=
  '(var1, var2) ← to_bnd_strings var true;
  Ok ([WVar var1; WVar var2], vs_var var2).

(** The body of the loop of [sv_classify] from the sex-chromosome test on. *)
Definition depth_classify (line svtype : string) (var : Variant)
  : result (list written * option diag_row) :=
  if on_sex_chrom var then Ok ([WLine line], None)
  else
    num_pos_samps ← count_pos_samps var exclude (sample_list var) 0%nat;
    if (num_pos_samps =? 0)%nat then
      Ok ([WLine line],
          Some (mkDiag (var_id var) svtype num_pos_samps false false false))
    else
      nb_support ←
        has_cn_support_by_nb var gender exclude het_del_fit hom_del_fit params
          default_frac_BND default_p_cnv default_epsilon;
      if (num_pos_samps <? min_pos_samps_for_regression)%nat then
        low_freq_support ← has_low_freq_depth_support var gender exclude;
        if (low_freq_support : bool) then
          Ok ([WLine line],
              Some (mkDiag (var_id var) svtype num_pos_samps nb_support false true))
        else
          '(lines, var') ← write_bnd var;
          Ok (lines,
              Some (mkDiag (var_id var') svtype num_pos_samps nb_support false false))
      else
        high_freq_support ←
          has_high_freq_depth_support var gender exclude slope_threshold
            rsquared_threshold;
        if (high_freq_support : bool) then
          Ok ([WLine line],
              Some (mkDiag (var_id var) svtype num_pos_samps nb_support true false))
        else
          '(lines, var') ← write_bnd var;
          Ok (lines,
              Some (mkDiag (var_id var') svtype num_pos_samps nb_support false false)).

(** The body of the loop for a parsed DEL or DUP line. *)
Definition classify_record (line svtype : string) (var : Variant)
    (ae_dict : option (gmap string (list feature))) : result outcome :=
  '(ae, ae_dict') ← mei_check var ae_dict;
  match ae with
  | Some ae =>
      var' ← to_mei var ae;
      Ok (mkOutcome [WVar (VarString var' true)] None ae_dict')
  | None =>
      '(lines, d) ← depth_classify line svtype var;
      Ok (mkOutcome lines d ae_dict')
  end.

(** [Variant(v, vcf, True)], the constructor of the record from the columns
    of a line. *)
Variable Variant_new : list string -> result Variant.

(** The body of the loop for a line after the header. *)
Definition classify_line (line : string)
    (ae_dict : option (gmap string (list feature))) : result outcome :=
  svtype ← svtype_of_line line;
  match svtype with
  | Some t =>
      if contains ["DEL"; "DUP"] t then
        var ← Variant_new (split_on "009" (rstrip line));
        classify_record line t var ae_dict
      else Ok (mkOutcome [WLine line] None ae_dict)
  | None => Ok (mkOutcome [WLine line] None ae_dict)
  end.

(** The state of the loop of [sv_classify]. *)
Record loop_state : Type := mkLoop {
  in_header : bool;
  header : list string;
  ae_dict : option (gmap string (list feature));
  vcf_out : list written;
  outf : list diag_row
}.

Definition step (st : loop_state) (line : string) : result loop_state :=
  if in_header st && startswith line "#" then
    Ok (mkLoop true (header st ++ [line])%list (ae_dict st) (vcf_out st) (outf st))
  else
    let vcf_out0 :=
      if in_header st then (vcf_out st ++ [WHeader (header st)])%list
      else vcf_out st in
    o ← classify_line line (ae_dict st);
    Ok (mkLoop false (header st) (ae_after o) (vcf_out0 ++ out o)%list
          (outf st ++ option_list (diag o))%list).

Fixpoint run (st : loop_state) (lines : list string) : result loop_state :=
  match lines with
  | [] => Ok st
  | line :: lines' => st' ← step st line; run st' lines'
  end.

Definition sv_classify (vcf_in : list string)
    (ae_dict : option (gmap string (list feature))) : result loop_state :=
  run (mkLoop true [] ae_dict [] []) vcf_in.

End Classify.

(** *** Reading the side files *)

(** The loop of [sv_classify] over [gender_file]: [gender[v[0]] = int(v[1])]
    for every line, the right-hand side being evaluated first. *)
Fixpoint read_gender (gender_file : list string) (gender : gmap string Z)
  : result (gmap string Z) :=
  match gender_file with
  | [] => Ok gender
  | line :: rest =>
      let v := split_on "009" (rstrip line) in
      x ← index v 1;
      g ← int x;
      s ← index v 0;
      read_gender rest (<[s := g]> gender)
  end.

(** The loop of [main] over the annotation file: a line of fewer than four
    columns is skipped, and the columns after the chromosome are appended
    to the list of that chromosome, start and end as integers. *)
Fixpoint load_annotations (ae_bedfile : list string)
    (ae_dict : gmap string (list feature))
  : result (gmap string (list feature)) :=
  match ae_bedfile with
  | [] => Ok ae_dict
  | line :: rest =>
      let v := split_on "009" (rstrip line) in
      if (length v <? 4)%nat then load_annotations rest ae_dict
      else
        x1 ← index v 1;
        v1 ← int x1;
        x2 ← index v 2;
        v2 ← int x2;
        c ← index v 0;
        cls ← index v 3;
        let f := mkFeature v1 v2 cls in
        load_annotations rest
          (match ae_dict !! c with
           | Some fs => <[c := (fs ++ [f])%list]> ae_dict
           | None => <[c := [f]]> ae_dict
           end)
  end.

(** *** The training set of [calc_params] *)

(** [s[i]] on a string. *)
Definition char_at (s : string) (i : nat) : result ascii :=
  match String.get i s with
  | Some a => Ok a
  | None => Raise IndexError
  end.

Section Training.
Context {F : Type} `{Float F} `{Libm F}.

(** The rows that one record adds to [tSet]: one for each sample whose
    genotype is not [./.], with the fields of the rows of
    [has_cn_support_by_nb], evaluated in the same order. *)
Fixpoint training_rows (var : Variant) (epsilon : F) (vcf_samples : list string)
  : result (list (CN_rec F)) :=
  match vcf_samples with
  | [] => Ok []
  | sample :: rest =>
      gt ← get_format var sample "GT";
      if String.eqb gt "./." then training_rows var epsilon rest
      else
        r ← cn_rec_of var epsilon sample;
        rs ← training_rows var epsilon rest;
        Ok (r :: rs)
  end.

(** [Variant(v, vcf)], the header being complete when the first record is
    built. *)
Variable Variant_new : list string -> result Variant.

(** The state of the loop of [calc_params]. *)
Record training_state : Type := mkTraining {
  t_in_header : bool;
  t_header : list string;
  t_vcf_samples : list string;
  tSet : list (CN_rec F)
}.

(** The body of the loop.  In the header, a line that does not start with
    [#] falls through both branches; after it, the pre-check of the type
    comes before the test of the chromosome. *)
Definition training_step (epsilon : F) (st : training_state) (line : string)
  : result training_state :=
  if t_in_header st then
    c0 ← char_at line 0;
    if Ascii.eqb c0 "#" then
      let header := (t_header st ++ [line])%list in
      c1 ← char_at line 1;
      if negb (Ascii.eqb c1 "#") then
        Ok (mkTraining false header (drop 9 (split_on "009" (rstrip line)))
              (tSet st))
      else Ok (mkTraining true header (t_vcf_samples st) (tSet st))
    else Ok st
  else
    let v := split_on "009" (rstrip line) in
    svtype ← svtype_of_line line;
    match svtype with
    | Some t =>
        if contains ["DEL"; "DUP"] t then
          c ← index v 0;
          if String.eqb c "X" || String.eqb c "Y" then Ok st
          else
            var ← Variant_new v;
            rows ← training_rows var epsilon (t_vcf_samples st);
            Ok (mkTraining false (t_header st) (t_vcf_samples st)
                  (tSet st ++ rows)%list)
        else Ok st
    | None => Ok st
    end.

Fixpoint training_loop (epsilon : F) (st : training_state) (lines : list string)
  : result training_state :=
  match lines with
  | [] => Ok st
  | line :: lines' =>
      st' ← training_step epsilon st line; training_loop epsilon st' lines'
  end.

(** The list [tSet] of [calc_params] at the end of its loop. *)
Definition training_set (vcf_file : list string) : result (list (CN_rec F)) :=
  st ← training_loop (lit (1 # 10)) (mkTraining true [] [] []) vcf_file;
  Ok (tSet st).

End Training.

Arguments mkTraining {F}.
Arguments t_in_header {F}.
Arguments t_header {F}.
Arguments t_vcf_samples {F}.
Arguments tSet {F}.

End Reclass.

(** ** svtools/vcftobedpeconverter.py *)

Module VcfToBedpeConverter.

Definition is_bracket (a : ascii) : bool :=
  Ascii.eqb a "[" || Ascii.eqb a "]".

Definition is_newline (a : ascii) : bool := Ascii.eqb a "010".

(** The lazy group [(.+?)] once its first character is taken: the shortest
    run up to a bracket, without a newline in it. *)
Fixpoint lazy_tail (s : string) : option (string * ascii) :=
  match s with
  | EmptyString => None
  | String a s' =>
      if is_bracket a then Some (EmptyString, a)
      else if is_newline a then None
      else '(t, sep) ← lazy_tail s'; Some (String a t, sep)
  end.

(** A match of [([][])(.+?)([][])] that starts at the head of [s]. *)
Definition match_here (s : string) : option (string * string * string) :=
  match s with
  | String a (String b s') =>
      if is_bracket a && negb (is_newline b) then
        '(t, sep) ← lazy_tail s';
        Some (String a EmptyString, String b t, String sep EmptyString)
      else None
  | _ => None
  end.

(** The first element of [r.findall(alt_string)]. *)
Fixpoint first_match (s : string) : option (string * string * string) :=
  match match_here s with
  | Some m => Some m
  | None =>
      match s with
      | EmptyString => None
      | String _ s' => first_match s'
      end
  end.

Definition parse_bnd_alt_string (alt_string : string)
  : result (string * string * Z) :=
  match first_match alt_string with
  | None => Raise AssertionError
  | Some (sep1, region, sep2) =>
      if String.eqb sep1 sep2 then
        match split_on ":" region with
        | [chrom2; breakpoint2] =>
            breakpoint2 ← int breakpoint2; Ok (sep1, chrom2, breakpoint2)
        | _ => Raise (ValueError "wrong number of values to unpack")
        end
      else Raise AssertionError
  end.

(** The tuple that the two parsers return. *)
Record breakpoints : Type := mkBreakpoints {
  bp_c1 : string; bp_s1 : pyval; bp_e1 : pyval;
  bp_c2 : string; bp_s2 : pyval; bp_e2 : pyval;
  bp_o1 : string; bp_o2 : string
}.

(** [bnd_breakpoints]: the tuple, and the variant with the [END] that the
    call stores in it. *)
Definition bnd_breakpoints (vcf_variant : Variant)
  : result (breakpoints * Variant) :=
  let chrom1 := chrom vcf_variant in
  let breakpoint1 := pos vcf_variant in
  '(sep, chrom2, breakpoint2) ← parse_bnd_alt_string (alt vcf_variant);
  '(orientation1, breakpoint1) ←
     (if startswith (alt vcf_variant) sep
      then b ← add_int breakpoint1 (-1); Ok ("-", b)
      else Ok ("+", breakpoint1));
  let '(orientation2, breakpoint2) :=
    if String.eqb sep "[" then ("-", breakpoint2 - 1) else ("+", breakpoint2) in
  let vcf_variant := set_info "END" (PInt breakpoint2) vcf_variant in
  Ok (mkBreakpoints chrom1 breakpoint1 breakpoint1
        chrom2 (PInt breakpoint2) (PInt breakpoint2)
        orientation1 orientation2,
      vcf_variant).

(** [strands[:2]] unpacked into two orientations. *)
Definition strands_orientations (strands : pyval) : result (string * string) :=
  match strands with
  | PStr (String a (String b _)) =>
      Ok (String a EmptyString, String b EmptyString)
  | PStr _ => Raise (ValueError "wrong number of values to unpack")
  | _ => Raise TypeError
  end.

Definition simple_breakpoints (vcf_variant : Variant)
  : result (breakpoints * Variant) :=
  let breakpoint1 := pos vcf_variant in
  breakpoint2 ←
    match info vcf_variant !! "END" with
    | Some e => to_int e
    | None => Raise (ValueError "END entry in VCF required for conversion to BEDPE")
    end;
  '(orientation1, orientation2) ←
     match info vcf_variant !! "STRANDS" with
     | Some strands => strands_orientations strands
     | None => Ok ("+", "+")
     end;
  Ok (mkBreakpoints (chrom vcf_variant) breakpoint1 breakpoint1
        (chrom vcf_variant) (PInt breakpoint2) (PInt breakpoint2)
        orientation1 orientation2,
      vcf_variant).

(** [v.split(',')] of an INFO value. *)
Definition split_commas (v : pyval) : result (list string) :=
  match v with
  | PStr s => Ok (split_on "," s)
  | _ => Raise AttributeError
  end.

Definition adjust_coordinate (vcf_variant : Variant) (info_tag : string)
    (start end_ : pyval) : result (pyval * pyval) :=
  match info vcf_variant !! info_tag with
  | Some v =>
      parts ← split_commas v;
      span ← for_each int parts;
      span0 ← index span 0;
      start' ← add_int start span0;
      span1 ← index span 1;
      end' ← add_int end_ span1;
      Ok (start', end')
  | None => Ok (start, end_)
  end.

(** An INFO column of the BEDPE line: [get_info_string()] of a variant, or
    one of the two fixed texts. *)
Inductive info_text : Type :=
| InfoString (v : Variant)
| Missing
| Dot.

(** The list from which [convert] builds the [Bedpe] object, before [str] is
    mapped over it; the last field stands for the FORMAT and genotype
    strings of that variant. *)
Record bedpe_fields : Type := mkBedpe {
  c1 : string; s1 : pyval; e1 : pyval;
  c2 : string; s2 : pyval; e2 : pyval;
  name : pyval;
  b_qual : string;
  o1 : string; o2 : string;
  sv_type : pyval;
  b_filter : string;
  info_a : info_text;
  info_b : info_text;
  formats_of : Variant
}.

Definition convert (primary_variant secondary_variant : option Variant)
  : result bedpe_fields :=
  vcf_variant ←
    match primary_variant, secondary_variant with
    | Some v, _ => Ok v
    | None, Some v => Ok v
    | None, None => Raise AttributeError
    end;
  sv_type ←
    match info vcf_variant !! "SVTYPE" with
    | Some t => Ok t
    | None => Raise (ValueError "SVTYPE field required for conversion to BEDPE")
    end;
  '(bp, vcf_variant) ←
     (if eq_str sv_type "BND" then bnd_breakpoints vcf_variant
      else simple_breakpoints vcf_variant);
  '(s1, e1) ← adjust_coordinate vcf_variant "CIPOS" (bp_s1 bp) (bp_e1 bp);
  '(s2, e2) ← adjust_coordinate vcf_variant "CIEND" (bp_s2 bp) (bp_e2 bp);
  let '(info_a, (c1, s1, e1, o1), (c2, s2, e2, o2)) :=
    match primary_variant with
    | None => (Missing, (bp_c2 bp, s2, e2, bp_o2 bp), (bp_c1 bp, s1, e1, bp_o1 bp))
    | Some _ =>
        (InfoString vcf_variant, (bp_c1 bp, s1, e1, bp_o1 bp),
         (bp_c2 bp, s2, e2, bp_o2 bp))
    end in
  let info_b :=
    if eq_str sv_type "BND" then
      match primary_variant, secondary_variant with
      | _, None => Missing
      | Some _, Some v2 => InfoString v2
      | None, Some _ => InfoString vcf_variant
      end
    else Dot in
  let name :=
    match info vcf_variant !! "EVENT" with
    | Some ev => ev
    | None => PStr (var_id vcf_variant)
    end in
  Ok (mkBedpe c1 (max0 s1) (max0 e1) c2 (max0 s2) (max0 e2) name
        (qual vcf_variant) o1 o2 sv_type (filter vcf_variant)
        info_a info_b vcf_variant).

End VcfToBedpeConverter.

(** * Reference notions and sample inputs *)

Import Reclass Binary64 VcfToBedpeConverter.

(** The aggregate width of a list of features. *)
Definition aggregate_width (bs : list (Z * Z)) : Z :=
  fold_right (fun b acc => (b.2 - b.1) + acc) 0 bs.

Definition END_required : exn :=
  ValueError "END entry in VCF required for conversion to BEDPE".

(** The variant that [convert] works on: the primary one, or the secondary
    one when there is no primary. *)
Definition converted (primary secondary : option Variant) : option Variant :=
  match primary with
  | Some v => Some v
  | None => secondary
  end.

(** A simple SV with its [END] entry, for the examples. *)
Definition simple_del : Variant :=
  mkVariant "1" (PInt 100) "7" "<DEL>" "." "."
    {[ "SVTYPE" := PStr "DEL"; "END" := PStr "200"; "CIPOS" := PStr "-150,10";
       "CIEND" := PStr "-5,5" ]}
    [] [] ∅.

(** A record whose CIPOS has a blank after the comma, and whose CIEND has
    one between the sign and the digits. *)
Definition spaced_interval : Variant :=
  mkVariant "1" (PInt 100) "7" "<DEL>" "." "."
    {[ "SVTYPE" := PStr "DEL"; "END" := PStr "200"; "CIPOS" := PStr "-10, 10";
       "CIEND" := PStr "- 5,5" ]}
    [] [] ∅.

(** [max(coordinate, 0)] of an integer coordinate. *)
Definition clamped (coordinate : Z) : pyval := PInt (Z.max coordinate 0).

(** An integer coordinate that is not negative. *)
Definition nonneg (v : pyval) : bool :=
  match v with
  | PInt n => 0 <=? n
  | _ => false
  end.

Definition is_int (v : pyval) : Prop := exists n, v = PInt n.

(** A deletion at position 100 with [END=200] and its four confidence
    intervals, and the same record without [SVLEN] or with a [SECONDARY]
    flag of its own. *)
Definition del_100_200 : Variant :=
  mkVariant "1" (PInt 100) "7" "<DEL>" "." "."
    {[ "SVTYPE" := PStr "DEL"; "SVLEN" := PStr "-100"; "END" := PStr "200";
       "CIPOS" := PStr "-10,10"; "CIEND" := PStr "-5,5";
       "CIPOS95" := PStr "-2,2"; "CIEND95" := PStr "-1,1" ]}
    [] [] ∅.

Definition del_100_200_no_SVLEN : Variant :=
  set_info_dict (delete "SVLEN" (info del_100_200)) del_100_200.

Definition del_100_200_secondary : Variant :=
  set_info "SECONDARY" PTrue del_100_200.

(** The two ALT strings of a breakend pair towards [chrom]:[p]. *)
Definition alt_after (chrom p : string) : string := "N[" ++ chrom ++ ":" ++ p ++ "[".
Definition alt_before (chrom p : string) : string := "]" ++ chrom ++ ":" ++ p ++ "]N".

(** The FORMAT fields of one sample. *)
Definition fields (gt cn ab : string) : gmap string string :=
  {[ "GT" := gt; "CN" := cn; "AB" := ab ]}.

Definition sv_info (svtype : string) : gmap string pyval :=
  {[ "SVTYPE" := PStr svtype; "SVLEN" := PStr "-100"; "END" := PStr "200";
     "AF" := PStr "0.25";
     "CIPOS" := PStr "-10,10"; "CIEND" := PStr "-5,5";
     "CIPOS95" := PStr "-2,2"; "CIEND95" := PStr "-1,1" ]}.

(** A deletion on X carried by one sample, and an annotation index with one
    SINE element over the same interval. *)
Definition del_on_X : Variant :=
  mkVariant "X" (PInt 100) "9" "<DEL>" "." "." (sv_info "DEL")
    ["NA1"] ["GT"; "CN"; "AB"] {[ "NA1" := fields "0/1" "1.0" "0.5" ]}.

Definition sine_index : gmap string (list feature) :=
  {[ "X" := [mkFeature 100 200 "SINE"] ]}.

(** A deletion on chromosome 1 with one carrier whose copy number is that of
    the two hom-ref samples. *)
Definition flat_del : Variant :=
  mkVariant "1" (PInt 100) "7" "<DEL>" "." "." (sv_info "DEL")
    ["NA1"; "NA2"; "NA3"] ["GT"; "CN"; "AB"]
    {[ "NA1" := fields "0/1" "2.0" "0.5";
       "NA2" := fields "0/0" "2.0" "0";
       "NA3" := fields "0/0" "2.0" "0" ]}.

(** The text of a data line, of which the driver only keeps a copy. *)
Definition some_line : string := "1" ++ String "009" "100" ++ String "009" "7".

(** The default thresholds of the command line, a regression that predicts
    no offset, and an empty table of parameters. *)
Definition f_overlap_default : PrimFloat.float := lit (9 # 10).
Definition slope_threshold_default : PrimFloat.float := lit 1.
Definition rsquared_threshold_default : PrimFloat.float := lit (2 # 10).
Definition no_offset : ols_fit PrimFloat.float := mkFit (fun _ => lit 0).

(** [var.genotype(s).get_format('GT')] where it is defined. *)
Definition genotype_of (var : Variant) (s : string) : option string :=
  g ← gts var !! s; g !! "GT".


(** The samples that a test looks at: those not named in [exclude]. *)
Definition included (exclude ss : list string) : list string :=
  List.filter (fun s => negb (contains exclude s)) ss.

Section LowFrequencyNotions.
Context {F : Type} `{Float F}.

(** What [has_low_freq_depth_support] reads of a sample: its copy number,
    doubled for a male sample on X or Y, and its genotype. *)
Definition sample_view (var : Variant) (gender : gmap string Z) (s : string)
  : result (F * string) :=
  cn ← sample_cn var gender s; gt ← get_format var s "GT"; Ok (cn, gt).

(** The copy numbers of the samples whose genotype satisfies [p]. *)
Definition cn_with (p : string -> bool) (views : list (F * string)) : list F :=
  map fst (List.filter (fun v => p v.2) views).

Definition is_hom_ref (gt : string) : bool := String.eqb gt "0/0".
Definition is_het (gt : string) : bool := String.eqb gt "0/1".
Definition is_hom_alt (gt : string) : bool := String.eqb gt "1/1".
Definition is_non_ref (gt : string) : bool := is_het gt || is_hom_alt gt.

(** The median absolute deviation of the data: the median of their
    distances to their median. *)
Definition median_absolute_deviation (data : list F) : F :=
  let centre := Np.median data in
  Np.median (map (fun x => fabs (x - centre)%flt) data).

(** The residual of [cn], its difference to the hom-ref median with the
    sign changed for a DEL, is greater than twice the hom-ref MAD and than
    0.5. *)
Definition deviates (svtype : pyval) (hom_ref : list F) (cn : F) : bool :=
  let resid := (cn - Np.median hom_ref)%flt in
  let resid := if eq_str svtype "DEL" then (- resid)%flt else resid in
  (resid >? median_absolute_deviation hom_ref * lit 2)%flt
  && (resid >? lit (1 # 2))%flt.

End LowFrequencyNotions.

(** A deletion whose one carrier has lost a copy against two hom-ref
    samples. *)
Definition supported_del : Variant :=
  mkVariant "1" (PInt 100) "8" "<DEL>" "." "." (sv_info "DEL")
    ["NA1"; "NA2"; "NA3"] ["GT"; "CN"; "AB"]
    {[ "NA1" := fields "0/1" "1.0" "0.5";
       "NA2" := fields "0/0" "2.0" "0";
       "NA3" := fields "0/0" "2.1" "0" ]}.

(** A deletion whose one carrier is 1.5 copies below the median of three
    hom-ref samples that are themselves one copy apart: the MAD is 1. *)
Definition spread_del : Variant :=
  mkVariant "1" (PInt 100) "8" "<DEL>" "." "." (sv_info "DEL")
    ["NA1"; "NA2"; "NA3"; "NA4"] ["GT"; "CN"; "AB"]
    {[ "NA1" := fields "0/1" "0.5" "0.5";
       "NA2" := fields "0/0" "1.0" "0";
       "NA3" := fields "0/0" "2.0" "0";
       "NA4" := fields "0/0" "3.0" "0" ]}.

(** Two records that differ in nothing but the FORMAT fields of samples
    named in [exclude]. *)
Definition same_but_excluded (exclude : list string) (v1 v2 : Variant) : Prop :=
  chrom v1 = chrom v2 /\ pos v1 = pos v2 /\ var_id v1 = var_id v2
  /\ alt v1 = alt v2 /\ qual v1 = qual v2 /\ filter v1 = filter v2
  /\ info v1 = info v2 /\ sample_list v1 = sample_list v2
  /\ active_formats v1 = active_formats v2
  /\ forall s, contains exclude s = false -> gts v1 !! s = gts v2 !! s.

(** A deletion with one carrier and one hom-ref sample, and the same record
    with other values for the hom-ref sample. *)
Definition two_sample_del (ab cn : string) : Variant :=
  mkVariant "1" (PInt 100) "5" "<DEL>" "." "." (sv_info "DEL")
    ["NA1"; "NA2"] ["GT"; "CN"; "AB"]
    {[ "NA1" := fields "0/1" "1" "0.5"; "NA2" := fields "0/0" cn ab ]}.

(** A training record of sample NA1, a heterozygous DEL, with the
    log2-ratio [x]; and a group of four of them. *)
Definition training_rec {F} `{Float F} (x : Q) : CN_rec F :=
  mkCN_rec "v" "NA1" (PStr "DEL") (lit 5000) (PStr "0.25") "0/1" "2" (lit 8)
    (lit x).

Definition four_values : list (CN_rec PrimFloat.float) :=
  map training_rec [0%Q; 1%Q; 2%Q; 3%Q].

(** A training record of the same sample with genotype 1/1. *)
Definition hom_alt_rec {F} `{Float F} (x : Q) : CN_rec F :=
  mkCN_rec "v" "NA1" (PStr "DEL") (lit 5000) (PStr "0.25") "1/1" "0" (lit 8)
    (lit x).

(** A float that is a number and not infinite: it compares with itself
    and its difference to itself is zero. *)
Definition finite {F} `{Float F} (x : F) : bool :=
  (x <=? x)%flt && (x - x =? lit 0)%flt.

(** Every row of the frame is the only one of its group and has a finite
    [log2r]. *)
Definition alone_in_group {F} `{Float F} (df : list (CN_rec F)) : Prop :=
  forall r, In r df ->
    group_log2r df r = [r_log2r r] /\ finite (r_log2r r) = true.

Section LikelihoodNotions.
Context {F : Type} `{Float F} `{Libm F}.







Definition hom_ref (r : CN_rec F) : bool := String.eqb (r_GT r) "0/0".







End LikelihoodNotions.




(** The INFO keys that [to_bnd_strings] needs, and those it writes or
    deletes in either mate. *)
Definition bnd_required : list string :=
  ["SVTYPE"; "END"; "CIEND"; "CIPOS"; "CIPOS95"; "CIEND95"; "SVLEN"].

Definition bnd_touched : list string :=
  ["SVTYPE"; "EVENT"; "SVLEN"; "END"; "MATEID"; "CIPOS"; "CIEND"; "CIPOS95";
   "CIEND95"; "SECONDARY"].

(** Two records with the same chromosome, quality, filter, samples and
    genotypes. *)
Definition same_fixed_columns (v w : Variant) : Prop :=
  chrom v = chrom w /\ qual v = qual w /\ filter v = filter w
  /\ sample_list v = sample_list w /\ active_formats v = active_formats w
  /\ gts v = gts w.

(** Every character of a string satisfies [p]. *)
Fixpoint all_chars (p : ascii -> bool) (s : string) : bool :=
  match s with
  | EmptyString => true
  | String a s' => p a && all_chars p s'
  end.

(** A character that is neither a bracket nor a newline, and one that is
    not a colon either: the characters of a chromosome name. *)
Definition region_char (a : ascii) : bool :=
  negb (is_bracket a) && negb (is_newline a).

Definition name_char (a : ascii) : bool :=
  region_char a && negb (Ascii.eqb a ":").

(** The two offsets of a confidence interval of the INFO column: (0, 0) for
    an absent tag, the first two of the comma-separated integers otherwise,
    and nothing for a flag, for a field that is not an integer or for fewer
    than two fields. *)
Definition ci_span (v : Variant) (tag : string) : option (Z * Z) :=
  match info v !! tag with
  | None => Some (0, 0)
  | Some (PStr s) =>
      match for_each int (split_on "," s) with
      | Ok (a :: b :: _) => Some (a, b)
      | _ => None
      end
  | Some _ => None
  end.

(** A string without a newline. *)
Definition one_line (s : string) : bool :=
  all_chars (fun a => negb (is_newline a)) s.

(** A result that is not a [KeyError]. *)
Definition no_key_error {A : Type} (r : result A) : Prop :=
  forall k, r <> Raise (KeyError k).

(** A line that the pre-check of [sv_classify] passes on: its INFO column
    can be read and names no [SVTYPE], or one other than DEL and DUP. *)
Definition not_a_candidate (line : string) : bool :=
  match svtype_of_line line with
  | Ok None => true
  | Ok (Some t) => negb (contains ["DEL"; "DUP"] t)
  | Raise _ => false
  end.

(** A header line and two data lines that are no candidates. *)
Definition header_line : string := "#CHROM" ++ String "009" "POS".

Definition bnd_line : string :=
  "1" ++ String "009" "100" ++ String "009" "7" ++ String "009" "N"
  ++ String "009" "N[1:200[" ++ String "009" "." ++ String "009" "."
  ++ String "009" "SVTYPE=BND;END=200".

Definition inv_line : string :=
  "#1" ++ String "009" "100" ++ String "009" "8" ++ String "009" "N"
  ++ String "009" "<INV>" ++ String "009" "." ++ String "009" "."
  ++ String "009" "IMPRECISE".


(** An annotation index whose only element has a class name with no [|]. *)
Definition dna_index : gmap string (list feature) :=
  {[ "X" := [mkFeature 100 200 "DNA"] ]}.


(** A feature of the annotation index as a later call finds it: its end can
    have moved, to the right only. *)
Definition grown (f f' : feature) : Prop :=
  f_start f' = f_start f /\ f_class f' = f_class f /\ f_end f <= f_end f'.

(** Records in increasing order, each ending before the next one starts. *)
Fixpoint separated (l : list feature) : Prop :=
  match l with
  | a :: (b :: _) as l' => f_end a < f_start b /\ separated l'
  | _ => True
  end.

(** The feature at position [i] is listed under the class [cls]. *)
Definition listed (class_overlap : list (string * list nat)) (cls : string)
    (i : nat) : Prop :=
  exists idxs, In (cls, idxs) class_overlap /\ In i idxs.

(** Positions in the order of the ends of their features. *)
Fixpoint sorted_by_end (store : list feature) (l : list nat) : Prop :=
  match l with
  | [] => True
  | i :: l' =>
      Forall (fun j => end_of store i <= end_of store j) l'
      /\ sorted_by_end store l'
  end.

(** Two SINE elements that touch and a third one further on. *)
Definition three_sines : list feature :=
  [mkFeature 100 150 "SINE"; mkFeature 150 200 "SINE"; mkFeature 300 400 "SINE"].


(** The row of a line of the annotation file: its chromosome and its
    feature, when the line has four columns or more with an integer start
    and end. *)
Definition bed_row (line : string) : option (string * feature) :=
  match split_on "009" (rstrip line) with
  | c :: s :: e :: cls :: _ =>
      match int_of_string s, int_of_string e with
      | Some s', Some e' => Some (c, mkFeature s' e' cls)
      | _, _ => None
      end
  | _ => None
  end.

(** The features of the chromosome [c] in a file, in the order of the
    lines. *)
Definition features_on (c : string) (ae_bedfile : list string) : list feature :=
  omap (fun line =>
          match bed_row line with
          | Some (c', f) => if String.eqb c' c then Some f else None
          | None => None
          end) ae_bedfile.

(** The sample and the value of a line of the gender file. *)
Definition gender_row (line : string) : option (string * Z) :=
  match split_on "009" (rstrip line) with
  | s :: x :: _ => n ← int_of_string x; Some (s, n)
  | _ => None
  end.

(** Lines of an annotation file and of a gender file. *)
Definition bed_line (c s e cls : string) : string :=
  c ++ String "009" s ++ String "009" e ++ String "009" cls ++ String "010" "".

Definition gender_line (s x : string) : string :=
  s ++ String "009" x ++ String "010" "".


(** The samples of a record with a genotype call. *)
Definition called (var : Variant) (ss : list string) : list string :=
  List.filter (fun s => negb (bool_decide (genotype_of var s = Some "./."))) ss.

(** A line of the head of a VCF file that is not the line of the column
    names: it is not empty, and if it starts with [#] it starts with [##]. *)
Definition before_column_names (line : string) : Prop :=
  exists c0, char_at line 0 = Ok c0
             /\ (c0 = "#"%char -> char_at line 1 = Ok "#"%char).


(** * Properties *)

(** ** Exceptions *)

Lemma bind_Ok {A B : Type} (m : result A) (k : A -> result B) (b : B) :
  m ≫= k = Ok b -> exists a, m = Ok a /\ k a = Ok b.
Proof.
  destruct m as [a|e]; simpl; intros Hb.
  - exists a. split; [reflexivity|exact Hb].
  - discriminate.
Qed.

(** Decompose a hypothesis saying that a sequence of steps succeeded. *)
Ltac bind_inv H :=
  let a := fresh "a" in
  let Ha := fresh "Ha" in
  apply bind_Ok in H; destruct H as (a & Ha & H).

Ltac bind_as H a Ha :=
  apply bind_Ok in H; destruct H as (a & Ha & H).

(** ** Reciprocal overlap *)

Lemma overlap_loop_aggregate {F} `{Float F} (a : Z * Z) (bs : list (Z * Z))
    (agg : Z) (ov : F) :
  (overlap_loop a bs agg ov).1 = agg + aggregate_width bs.
Proof.
  revert agg ov. induction bs as [|b bs IH]; intros agg ov; simpl.
  - lia.
  - rewrite IH. lia.
Qed.

Lemma reciprocal_overlap_zero_width {F} `{Float F} (a : Z * Z) (bs : list (Z * Z)) :
  a.2 = a.1 -> reciprocal_overlap a bs = float_of_Z 0.
Proof.
  intros Ha. unfold reciprocal_overlap. rewrite Ha, Z.eqb_refl. reflexivity.
Qed.

Lemma reciprocal_overlap_zero_aggregate {F} `{Float F} (a : Z * Z)
    (bs : list (Z * Z)) :
  aggregate_width bs = 0 -> reciprocal_overlap a bs = float_of_Z 0.
Proof.
  intros Hb. unfold reciprocal_overlap.
  destruct (a.2 =? a.1); [reflexivity|].
  pose proof (overlap_loop_aggregate a bs 0 (float_of_Z 0)) as Hagg.
  destruct (overlap_loop a bs 0 (float_of_Z 0)) as [agg ov]. simpl in Hagg.
  replace agg with 0 by lia. reflexivity.
Qed.

(** C8 (as the code has it).  On doubles, [reciprocal_overlap([0,10],
    [[0,10]])] is 1.0, [reciprocal_overlap([0,10], [[20,30]])] is -1.0 (a
    disjoint feature contributes a negative overlap, which is not clipped)
    and [reciprocal_overlap([0,10], [[5,5]])] is 0; and whenever the query has
    zero width or the aggregate width of the features is zero the result is
    0, no division being made. *)
Theorem reciprocal_overlap_cases :
  reciprocal_overlap (F := PrimFloat.float) (0, 10) [(0, 10)] = lit 1
  /\ reciprocal_overlap (F := PrimFloat.float) (0, 10) [(20, 30)] = lit (-1)
  /\ reciprocal_overlap (F := PrimFloat.float) (0, 10) [(5, 5)] = lit 0
  /\ forall (F : Type) (HF : Float F) (a : Z * Z) (bs : list (Z * Z)),
       a.2 = a.1 \/ aggregate_width bs = 0 ->
       reciprocal_overlap a bs = float_of_Z 0.
Proof.
  split; [vm_compute; reflexivity|].
  split; [vm_compute; reflexivity|].
  split; [vm_compute; reflexivity|].
  intros F HF a bs [Ha|Hb].
  - apply reciprocal_overlap_zero_width, Ha.
  - apply reciprocal_overlap_zero_aggregate, Hb.
Qed.

Lemma reciprocal_overlap_cases_witness :
  reciprocal_overlap (F := PrimFloat.float) (3, 3) [(0, 10)] = float_of_Z 0.
Proof.
  destruct reciprocal_overlap_cases as (_ & _ & _ & Hguard).
  apply Hguard. left. reflexivity.
Defined.

(** C8 as stated fails on the disjoint pair: the result there is -1.0, which
    is not equal to 0.0. *)
Lemma reciprocal_overlap_disjoint_not_zero :
  reciprocal_overlap (F := PrimFloat.float) (0, 10) [(20, 30)] = lit (-1)
  /\ (reciprocal_overlap (F := PrimFloat.float) (0, 10) [(20, 30)] =? lit 0)%flt
     = false.
Proof. split; vm_compute; reflexivity. Qed.

(** ** Conversion to BEDPE *)

Lemma int_not_END_required (s : string) : int s <> Raise END_required.
Proof. unfold int. destruct (int_of_string s); discriminate. Qed.

Lemma to_int_not_END_required (v : pyval) : to_int v <> Raise END_required.
Proof. destruct v; simpl; try discriminate. apply int_not_END_required. Qed.

Lemma strands_not_END_required (v : pyval) :
  strands_orientations v <> Raise END_required.
Proof.
  destruct v as [n|s|]; simpl; try discriminate.
  destruct s as [|a [|b s]]; discriminate.
Qed.

Lemma simple_breakpoints_END (v : Variant) :
  simple_breakpoints v = Raise END_required <-> info v !! "END" = None.
Proof.
  unfold simple_breakpoints. split.
  - destruct (info v !! "END") as [e|] eqn:He; [|reflexivity].
    intros Hr. exfalso.
    pose proof (to_int_not_END_required e) as Hint.
    destruct (to_int e) as [n|x]; simpl in Hr.
    + destruct (info v !! "STRANDS") as [st|]; simpl in Hr.
      * pose proof (strands_not_END_required st) as Hst.
        destruct (strands_orientations st) as [[a b]|y]; simpl in Hr.
        -- discriminate.
        -- injection Hr as ->. apply Hst. reflexivity.
      * discriminate.
    + injection Hr as ->. apply Hint. reflexivity.
  - intros ->. reflexivity.
Qed.

(** C9.  Converting a simple (non-BND) SV whose INFO has no [END] entry
    raises the [ValueError] "END entry in VCF required for conversion to
    BEDPE" to the caller of [convert]; and [simple_breakpoints] raises that
    error only when [END] is missing, so that with [END] present no such
    error arises. *)
Theorem missing_END_is_a_value_error (primary secondary : option Variant)
    (v : Variant) (t : pyval) :
  converted primary secondary = Some v ->
  info v !! "SVTYPE" = Some t ->
  eq_str t "BND" = false ->
  (info v !! "END" = None -> convert primary secondary = Raise END_required)
  /\ (simple_breakpoints v = Raise END_required <-> info v !! "END" = None).
Proof.
  intros Hv Ht Hbnd. split; [|apply simple_breakpoints_END].
  intros Hend. unfold convert.
  assert (Hsel : match primary, secondary with
                 | Some v, _ => Ok v
                 | None, Some v => Ok v
                 | None, None => Raise AttributeError
                 end = Ok v).
  { destruct primary as [p|]; simpl in Hv.
    - congruence.
    - destruct secondary; congruence. }
  rewrite Hsel. simpl. rewrite Ht. simpl. rewrite Hbnd.
  unfold simple_breakpoints. rewrite Hend. reflexivity.
Qed.

Lemma missing_END_is_a_value_error_witness :
  convert (Some (set_info_dict (delete "END" (info simple_del)) simple_del)) None
  = Raise END_required.
Proof.
  refine (proj1 (missing_END_is_a_value_error
                   (Some (set_info_dict (delete "END" (info simple_del)) simple_del))
                   None _ (PStr "DEL") _ _ _) _);
    vm_compute; reflexivity.
Defined.

Lemma add_int_is_int (v : pyval) (n : Z) (w : pyval) :
  add_int v n = Ok w -> is_int w.
Proof.
  destruct v as [a|s|]; simpl; intros Hw; try discriminate;
    injection Hw as <-; eexists; reflexivity.
Qed.

Lemma adjust_coordinate_is_int (v : Variant) (tag : string)
    (start end_ start' end' : pyval) :
  is_int start -> is_int end_ ->
  adjust_coordinate v tag start end_ = Ok (start', end') ->
  is_int start' /\ is_int end'.
Proof.
  intros Hs He. unfold adjust_coordinate.
  destruct (info v !! tag) as [x|].
  - intros H. do 3 bind_inv H. bind_inv H. bind_inv H. bind_inv H.
    injection H as <- <-. eauto using add_int_is_int.
  - intros H. injection H as <- <-. auto.
Qed.

Lemma simple_breakpoints_is_int (v v' : Variant) (bp : breakpoints) :
  is_int (pos v) -> simple_breakpoints v = Ok (bp, v') ->
  is_int (bp_s1 bp) /\ is_int (bp_e1 bp) /\ is_int (bp_s2 bp) /\ is_int (bp_e2 bp).
Proof.
  intros Hp. unfold simple_breakpoints. intros H.
  bind_inv H. bind_inv H. destruct a0 as [oa ob].
  injection H as <- <-. simpl. repeat split; try exact Hp; eexists; reflexivity.
Qed.

Lemma bnd_breakpoints_is_int (v v' : Variant) (bp : breakpoints) :
  is_int (pos v) -> bnd_breakpoints v = Ok (bp, v') ->
  is_int (bp_s1 bp) /\ is_int (bp_e1 bp) /\ is_int (bp_s2 bp) /\ is_int (bp_e2 bp).
Proof.
  intros Hp. unfold bnd_breakpoints. intros H.
  bind_inv H. destruct a as [[sep chrom2] breakpoint2].
  bind_inv H. destruct a as [o1 b1].
  assert (Hb1 : is_int b1).
  { destruct (startswith (alt v) sep).
    - bind_inv Ha0. injection Ha0 as <- <-. eauto using add_int_is_int.
    - injection Ha0 as <- <-. exact Hp. }
  destruct (String.eqb sep "["); injection H as <- <-; simpl;
    repeat split; try exact Hb1; eexists; reflexivity.
Qed.

(** C10.  Whenever [convert] succeeds on a variant (whose [pos] is an
    integer, as for every record built by [Variant]), the CIPOS adjustment
    of the first end and the CIEND adjustment of the second end have given
    integer coordinates, and the fields [start1], [end1], [start2] and
    [end2] of the BEDPE record are [max(coordinate, 0)] of these, the two
    ends exchanged when the variant is the secondary one; so none of the
    four is negative. *)
Theorem convert_coordinates_nonnegative (primary secondary : option Variant)
    (v : Variant) (b : bedpe_fields) :
  converted primary secondary = Some v ->
  is_int (pos v) ->
  convert primary secondary = Ok b ->
  (exists (t : pyval) (bp : breakpoints) (v' : Variant) (x1 y1 x2 y2 : Z),
      info v !! "SVTYPE" = Some t
      /\ (if eq_str t "BND" then bnd_breakpoints v else simple_breakpoints v)
         = Ok (bp, v')
      /\ adjust_coordinate v' "CIPOS" (bp_s1 bp) (bp_e1 bp)
         = Ok (PInt x1, PInt y1)
      /\ adjust_coordinate v' "CIEND" (bp_s2 bp) (bp_e2 bp)
         = Ok (PInt x2, PInt y2)
      /\ (s1 b, e1 b, s2 b, e2 b)
         = match primary with
           | Some _ => (clamped x1, clamped y1, clamped x2, clamped y2)
           | None => (clamped x2, clamped y2, clamped x1, clamped y1)
           end)
  /\ nonneg (s1 b) = true /\ nonneg (e1 b) = true
  /\ nonneg (s2 b) = true /\ nonneg (e2 b) = true.
Proof.
  intros Hv Hp. unfold convert. intros H.
  bind_inv H.
  assert (a = v) as ->.
  { destruct primary as [p|]; simpl in Hv.
    - congruence.
    - destruct secondary; congruence. }
  clear Ha. bind_inv H.
  assert (Ht : info v !! "SVTYPE" = Some a).
  { destruct (info v !! "SVTYPE"); [congruence|discriminate]. }
  bind_inv H. destruct a0 as [bp v'].
  assert (Hbp : is_int (bp_s1 bp) /\ is_int (bp_e1 bp)
                /\ is_int (bp_s2 bp) /\ is_int (bp_e2 bp)).
  { destruct (eq_str a "BND").
    - eapply bnd_breakpoints_is_int; eassumption.
    - eapply simple_breakpoints_is_int; eassumption. }
  destruct Hbp as (H1 & H2 & H3 & H4).
  bind_inv H. destruct a0 as [x1 y1].
  bind_inv H. destruct a0 as [x2 y2].
  destruct (adjust_coordinate_is_int _ _ _ _ _ _ H1 H2 Ha1) as [[n1 ->] [m1 ->]].
  destruct (adjust_coordinate_is_int _ _ _ _ _ _ H3 H4 Ha2) as [[n2 ->] [m2 ->]].
  split.
  - exists a, bp, v', n1, m1, n2, m2.
    repeat (split; [assumption|]).
    destruct primary; injection H as <-; reflexivity.
  - destruct primary; injection H as <-; simpl;
      repeat split; apply Z.leb_le; lia.
Qed.

Lemma convert_coordinates_nonnegative_witness :
  exists b : bedpe_fields,
    convert (Some simple_del) None = Ok b
    /\ (s1 b, e1 b, s2 b, e2 b) = (PInt 0, PInt 110, PInt 195, PInt 205)
    /\ adjust_coordinate simple_del "CIPOS" (PInt 100) (PInt 100)
       = Ok (PInt (-50), PInt 110)
    /\ (nonneg (s1 b) = true /\ nonneg (e1 b) = true
        /\ nonneg (s2 b) = true /\ nonneg (e2 b) = true).
Proof.
  destruct (convert (Some simple_del) None) as [b|e] eqn:Hb;
    [|vm_compute in Hb; discriminate].
  exists b. split; [reflexivity|].
  destruct (convert_coordinates_nonnegative (Some simple_del) None simple_del b
              eq_refl (ex_intro _ 100 eq_refl) Hb)
    as [(t & bp & v' & x1 & y1 & x2 & y2 & Ht & Hbp & Hs & He & Hf) Hn].
  split; [|split; [reflexivity|exact Hn]].
  rewrite Hf. vm_compute in Ht. injection Ht as <-.
  vm_compute in Hbp. injection Hbp as <- <-.
  vm_compute in Hs. injection Hs as <- <-.
  vm_compute in He. injection He as <- <-. reflexivity.
Defined.

(** ** Breakend pairs *)

Lemma getitem_Some {V : Type} (d : gmap string V) (k : string) (x : V) :
  d !! k = Some x -> getitem d k = Ok x.
Proof. unfold getitem. intros ->. reflexivity. Qed.

Lemma del_info_Some (k : string) (v : Variant) :
  is_Some (info v !! k) ->
  del_info k v = Ok (set_info_dict (delete k (info v)) v).
Proof. intros [x Hx]. unfold del_info, delitem. rewrite Hx. reflexivity. Qed.

(** C7 (as the code has it).  For a variant that carries [SVTYPE], [END],
    [SVLEN] and the four confidence intervals, and no [SECONDARY] flag of its
    own, [to_bnd_strings] serialises two records: mate 1 with id [<id>_1],
    MATEID [<id>_2] and ALT [N[chrom:END[] for a DEL; mate 2 with id [<id>_2],
    MATEID [<id>_1] and ALT []chrom:pos]N] for a DEL, the two ALT forms being
    exchanged for any other type; mate 2 alone is marked SECONDARY; both have
    SVTYPE=BND and EVENT equal to the original id, and neither has SVLEN or
    END; mate 2's CIPOS and CIPOS95 are the original CIEND and CIEND95, and
    its CIEND and CIEND95 the original CIPOS and CIPOS95. *)
Theorem to_bnd_strings_pair (var : Variant) (fixed_gts : bool)
    (t e ciend cipos cipos95 ciend95 : pyval) :
  info var !! "SVTYPE" = Some t ->
  info var !! "END" = Some e ->
  info var !! "CIEND" = Some ciend ->
  info var !! "CIPOS" = Some cipos ->
  info var !! "CIPOS95" = Some cipos95 ->
  info var !! "CIEND95" = Some ciend95 ->
  is_Some (info var !! "SVLEN") ->
  info var !! "SECONDARY" = None ->
  exists m1 m2 : Variant,
    to_bnd_strings var fixed_gts
    = Ok (VarString m1 fixed_gts, VarString m2 fixed_gts)
    /\ var_id m1 = var_id var ++ "_1"
    /\ info m1 !! "MATEID" = Some (PStr (var_id var ++ "_2"))
    /\ alt m1 = (if eq_str t "DEL" then alt_after (chrom var) (to_str e)
                 else alt_before (chrom var) (to_str e))
    /\ var_id m2 = var_id var ++ "_2"
    /\ info m2 !! "MATEID" = Some (PStr (var_id var ++ "_1"))
    /\ alt m2 = (if eq_str t "DEL" then alt_before (chrom var) (to_str (pos var))
                 else alt_after (chrom var) (to_str (pos var)))
    /\ info m1 !! "SECONDARY" = None
    /\ info m2 !! "SECONDARY" = Some PTrue
    /\ (forall m, m = m1 \/ m = m2 ->
          info m !! "SVTYPE" = Some (PStr "BND")
          /\ info m !! "EVENT" = Some (PStr (var_id var))
          /\ info m !! "SVLEN" = None
          /\ info m !! "END" = None)
    /\ info m2 !! "CIPOS" = Some ciend
    /\ info m2 !! "CIPOS95" = Some ciend95
    /\ info m2 !! "CIEND" = Some cipos
    /\ info m2 !! "CIEND95" = Some cipos95.
Proof.
  intros Ht He Hciend Hcipos Hcipos95 Hciend95 Hsvlen Hsec.
  unfold to_bnd_strings.
  rewrite (getitem_Some _ _ _ Ht), (getitem_Some _ _ _ He),
    (getitem_Some _ _ _ Hciend), (getitem_Some _ _ _ Hcipos),
    (getitem_Some _ _ _ Hcipos95), (getitem_Some _ _ _ Hciend95).
  simpl.
  rewrite del_info_Some by (simpl; rewrite !lookup_insert_ne by done; exact Hsvlen).
  simpl.
  rewrite del_info_Some
    by (simpl; rewrite lookup_delete_ne, !lookup_insert_ne by done;
        rewrite He; eauto).
  simpl.
  destruct (eq_str t "DEL"); simpl;
    (eexists; eexists; split; [reflexivity|]);
    simpl; unfold alt_after, alt_before.
  all: repeat match goal with |- _ /\ _ => split end.
  all: try (intros m [-> | ->]; simpl; repeat split).
  all: simplify_map_eq; try reflexivity; try done.
Qed.

Lemma to_bnd_strings_pair_witness :
  exists m1 m2 : Variant,
    to_bnd_strings del_100_200 true = Ok (VarString m1 true, VarString m2 true)
    /\ alt m1 = "N[1:200[" /\ alt m2 = "]1:100]N".
Proof.
  destruct (to_bnd_strings_pair del_100_200 true (PStr "DEL") (PStr "200")
              (PStr "-5,5") (PStr "-10,10") (PStr "-2,2") (PStr "-1,1"))
    as (m1 & m2 & Hpair & _ & _ & Halt1 & _ & _ & Halt2 & _);
    try (vm_compute; reflexivity).
  - exists (PStr "-100"). vm_compute. reflexivity.
  - exists m1, m2. split; [exact Hpair|]. split.
    + rewrite Halt1. reflexivity.
    + rewrite Halt2. reflexivity.
Defined.

(** C7 as stated fails twice: with the four confidence intervals present but
    no [SVLEN], [to_bnd_strings] raises [KeyError] and produces no record;
    and on a variant that carries [SECONDARY] already, mate 1 is marked
    SECONDARY as well. *)
Lemma to_bnd_strings_needs_SVLEN :
  to_bnd_strings del_100_200_no_SVLEN true = Raise (KeyError "SVLEN")
  /\ exists m1 m2 : var_string,
       to_bnd_strings del_100_200_secondary true = Ok (m1, m2)
       /\ info (vs_var m1) !! "SECONDARY" = Some PTrue.
Proof.
  split; [vm_compute; reflexivity|].
  destruct (to_bnd_strings del_100_200_secondary true) as [[m1 m2]|x] eqn:Hb;
    [|vm_compute in Hb; discriminate].
  exists m1, m2. split; [reflexivity|].
  vm_compute in Hb. injection Hb as <- <-. vm_compute. reflexivity.
Qed.

(** ** The reclassification driver *)

Lemma get_format_genotype (var : Variant) (s gt : string) :
  genotype_of var s = Some gt -> get_format var s "GT" = Ok gt.
Proof.
  unfold genotype_of, get_format, getitem.
  destruct (gts var !! s) as [g|]; simpl; [|discriminate].
  intros ->. reflexivity.
Qed.


Section Driver.
Context {F : Type} `{Float F} `{Libm F} `{Regression F}.
Variables (gender : gmap string Z) (exclude : list string).
Variables (f_overlap slope_threshold rsquared_threshold : F).
Variables (het_del_fit hom_del_fit : ols_fit F) (params : list (param_row F)).





End Driver.




(** ** The low-frequency test *)

Section LowFrequency.
Context {F : Type} `{Float F}.
Variables (var : Variant) (gender : gmap string Z) (exclude : list string).

Lemma cn_by_genotype_views (ss : list string) (views : list (F * string))
    (a b c : list F) :
  for_each (sample_view var gender) (included exclude ss) = Ok views ->
  cn_by_genotype var gender exclude ss (a, b, c)
  = Ok ((a ++ cn_with is_hom_ref views)%list,
        (b ++ cn_with is_het views)%list,
        (c ++ cn_with is_hom_alt views)%list).
Proof.
  revert views a b c. induction ss as [|s ss IH]; intros views a b c; simpl.
  - intros Hv. injection Hv as <-. unfold cn_with. simpl.
    rewrite !app_nil_r. reflexivity.
  - destruct (contains exclude s) eqn:Hex; simpl; [apply IH|].
    intros Hv. bind_as Hv v Hview. bind_as Hv vs Hrest.
    injection Hv as <-.
    unfold sample_view in Hview. bind_as Hview cn Hcn.
    bind_as Hview g Hg. injection Hview as <-.
    rewrite Hcn, Hg. simpl.
    unfold cn_with, is_hom_ref, is_het, is_hom_alt. simpl.
    destruct (String.eqb_spec g "0/0") as [->|H00]; simpl.
    { rewrite (IH vs _ _ _ Hrest). unfold cn_with, is_hom_ref, is_het, is_hom_alt.
      rewrite <- app_assoc. reflexivity. }
    destruct (String.eqb_spec g "0/1") as [->|H01]; simpl.
    { rewrite (IH vs _ _ _ Hrest). unfold cn_with, is_hom_ref, is_het, is_hom_alt.
      rewrite <- app_assoc. reflexivity. }
    destruct (String.eqb_spec g "1/1") as [->|H11]; simpl.
    { rewrite (IH vs _ _ _ Hrest). unfold cn_with, is_hom_ref, is_het, is_hom_alt.
      rewrite <- app_assoc. reflexivity. }
    rewrite (IH vs _ _ _ Hrest). reflexivity.
Qed.

Lemma tally_count (t : pyval) (cn_median cn_mad : F) (cns : list F) (q : nat) :
  info var !! "SVTYPE" = Some t ->
  tally var cn_median cn_mad cns q
  = Ok (q + length (List.filter
                      (fun cn => meets_threshold cn_mad (residual t cn_median cn))
                      cns))%nat.
Proof.
  intros Ht. revert q. induction cns as [|cn cns IH]; intros q; simpl.
  - f_equal. lia.
  - rewrite (getitem_Some _ _ _ Ht). simpl. rewrite IH.
    destruct (meets_threshold cn_mad (residual t cn_median cn)); simpl;
      f_equal; lia.
Qed.

Lemma meets_threshold_deviates (t : pyval) (hom_ref : list F) (cn : F) :
  meets_threshold (mad hom_ref) (residual t (Np.median hom_ref) cn)
  = deviates t hom_ref cn.
Proof.
  unfold meets_threshold, residual, deviates, mad_threshold, absolute_cn_diff,
    float_of_Z.
  destruct (eq_str t "DEL"); reflexivity.
Qed.

(** Counting over the het copy numbers followed by the hom-alt ones, as the
    code does, or over the non-ref samples in the order of the record. *)
Lemma count_non_ref (p : F -> bool) (views : list (F * string)) :
  length (List.filter p (cn_with is_het views ++ cn_with is_hom_alt views))
  = length (List.filter p (cn_with is_non_ref views))
  /\ length (cn_with is_het views ++ cn_with is_hom_alt views)
     = length (cn_with is_non_ref views).
Proof.
  rewrite List.filter_app, !length_app. unfold cn_with, is_non_ref.
  induction views as [|[cn gt] views [IH1 IH2]]; simpl; [split; reflexivity|].
  unfold is_het, is_hom_alt in *.
  destruct (String.eqb_spec gt "0/1") as [->|H01]; simpl.
  - destruct (p cn); simpl; lia.
  - destruct (String.eqb gt "1/1"); simpl; [|lia].
    destruct (p cn); simpl; lia.
Qed.

(** C3.  With [hom_ref] the copy numbers of the non-excluded 0/0 samples and
    [non_ref] those of the non-excluded 0/1 and 1/1 samples:
    [has_low_freq_depth_support] returns false when either list is empty,
    and otherwise returns true exactly when the fraction of the non-ref
    samples whose residual exceeds both twice the hom-ref MAD and 0.5 is
    itself greater than 0.5. *)
Theorem low_freq_quorum (views : list (F * string)) :
  for_each (sample_view var gender) (included exclude (sample_list var))
  = Ok views ->
  let hom_ref := cn_with is_hom_ref views in
  let non_ref := cn_with is_non_ref views in
  (hom_ref = [] \/ non_ref = [] ->
   has_low_freq_depth_support var gender exclude = Ok false)
  /\ (hom_ref <> [] -> non_ref <> [] ->
      forall t, info var !! "SVTYPE" = Some t ->
        has_low_freq_depth_support var gender exclude
        = Ok (float_of_nat (length (List.filter (deviates t hom_ref) non_ref))
              / float_of_nat (length non_ref) >? lit (1 # 2))%flt).
Proof.
  intros Hv hom_ref non_ref.
  unfold has_low_freq_depth_support.
  rewrite (cn_by_genotype_views _ _ [] [] [] Hv). simpl.
  fold hom_ref.
  destruct (count_non_ref (fun _ => true) views) as [_ Hlen].
  split.
  - intros [Hr|Hn].
    + rewrite Hr. reflexivity.
    + rewrite Hlen. fold non_ref. rewrite Hn. simpl.
      rewrite orb_true_r. reflexivity.
  - intros Hr Hn t Ht.
    rewrite Hlen. fold non_ref.
    destruct hom_ref as [|h hs] eqn:Ehr; [contradiction|]. rewrite <- Ehr.
    destruct non_ref as [|x xs] eqn:Enr; [contradiction|]. rewrite <- Enr.
    replace (length hom_ref =? 0)%nat with false by (rewrite Ehr; reflexivity).
    replace (length non_ref =? 0)%nat with false by (rewrite Enr; reflexivity).
    simpl. rewrite (tally_count t _ _ _ _ Ht). simpl.
    rewrite (List.filter_ext _ _ (meets_threshold_deviates t hom_ref)).
    destruct (count_non_ref (deviates t hom_ref) views) as [Hq _].
    rewrite Hq. fold non_ref. rewrite Enr.
    unfold mad_quorum.
    destruct (_ <? _)%flt; reflexivity.
Qed.

End LowFrequency.

Lemma low_freq_quorum_witness :
  has_low_freq_depth_support (F := PrimFloat.float) supported_del ∅ [] = Ok true
  /\ has_low_freq_depth_support (F := PrimFloat.float) spread_del ∅ []
     = Ok false
  /\ median_absolute_deviation (F := PrimFloat.float) [lit 1; lit 2; lit 3]
     = lit 1.
Proof.
  split; [|split; [|vm_compute; reflexivity]].
  - destruct (for_each (sample_view (F := PrimFloat.float) supported_del ∅)
                (included [] (sample_list supported_del))) as [views|e] eqn:Hv;
      [|vm_compute in Hv; discriminate].
    destruct (low_freq_quorum supported_del ∅ [] views Hv) as [_ Hq].
    rewrite (Hq ltac:(vm_compute in Hv; injection Hv as <-; vm_compute; discriminate)
                ltac:(vm_compute in Hv; injection Hv as <-; vm_compute; discriminate)
                (PStr "DEL") eq_refl).
    vm_compute in Hv. injection Hv as <-. vm_compute. reflexivity.
  - destruct (for_each (sample_view (F := PrimFloat.float) spread_del ∅)
                (included [] (sample_list spread_del))) as [views|e] eqn:Hv;
      [|vm_compute in Hv; discriminate].
    destruct (low_freq_quorum spread_del ∅ [] views Hv) as [_ Hq].
    rewrite (Hq ltac:(vm_compute in Hv; injection Hv as <-; vm_compute; discriminate)
                ltac:(vm_compute in Hv; injection Hv as <-; vm_compute; discriminate)
                (PStr "DEL") eq_refl).
    vm_compute in Hv. injection Hv as <-. vm_compute. reflexivity.
Defined.

(** ** Excluded samples *)

Section Excluded.
Context {F : Type} `{Float F} `{Libm F}.
Variables (gender : gmap string Z) (exclude : list string) (v1 v2 : Variant).
Hypothesis Hsame : same_but_excluded exclude v1 v2.

Lemma get_format_same (s field : string) :
  contains exclude s = false -> get_format v1 s field = get_format v2 s field.
Proof.
  intros Hs. unfold get_format, getitem.
  destruct Hsame as (_ & _ & _ & _ & _ & _ & _ & _ & _ & Hg).
  rewrite (Hg s Hs). reflexivity.
Qed.

Lemma sample_cn_same (s : string) :
  contains exclude s = false ->
  sample_cn (F := F) v1 gender s = sample_cn v2 gender s.
Proof.
  intros Hs. unfold sample_cn, on_sex_chrom.
  rewrite (get_format_same s "CN" Hs).
  destruct Hsame as (-> & _). reflexivity.
Qed.

Lemma cn_by_genotype_same (ss : list string) (acc : list F * list F * list F) :
  cn_by_genotype v1 gender exclude ss acc = cn_by_genotype v2 gender exclude ss acc.
Proof.
  revert acc. induction ss as [|s ss IH]; intros acc; simpl; [reflexivity|].
  destruct (contains exclude s) eqn:Hs; [apply IH|].
  rewrite (sample_cn_same s Hs), (get_format_same s "GT" Hs).
  destruct (sample_cn v2 gender s) as [cn|e]; simpl; [|reflexivity].
  destruct (get_format v2 s "GT") as [g|e]; simpl; [|reflexivity].
  destruct acc as [[a b] c]. apply IH.
Qed.

Lemma tally_same (cn_median cn_mad : F) (cns : list F) (q : nat) :
  tally v1 cn_median cn_mad cns q = tally v2 cn_median cn_mad cns q.
Proof.
  destruct Hsame as (_ & _ & _ & _ & _ & _ & Hinfo & _).
  revert q. induction cns as [|cn cns IH]; intros q; simpl; [reflexivity|].
  rewrite Hinfo. destruct (getitem (info v2) "SVTYPE"); simpl; [apply IH|reflexivity].
Qed.

Lemma cn_rec_of_same (epsilon : F) (s : string) :
  contains exclude s = false -> cn_rec_of v1 epsilon s = cn_rec_of v2 epsilon s.
Proof.
  intros Hs. unfold cn_rec_of.
  rewrite (get_format_same s "CN" Hs), (get_format_same s "GT" Hs).
  destruct Hsame as (_ & _ & -> & _ & _ & _ & -> & _). reflexivity.
Qed.

Lemma test_set_of_same (epsilon : F) (ss : list string) :
  test_set_of v1 exclude epsilon ss = test_set_of v2 exclude epsilon ss.
Proof.
  induction ss as [|s ss IH]; simpl; [reflexivity|].
  destruct (contains exclude s) eqn:Hs; [exact IH|].
  rewrite (cn_rec_of_same epsilon s Hs), IH. reflexivity.
Qed.

(** C4 (as the code has it).  Two records that differ only in the FORMAT
    fields (AB, CN, GT) of excluded samples get the same result, or the same
    exception, from [has_low_freq_depth_support] and from
    [has_cn_support_by_nb]: both skip a sample named in [exclude] before
    reading anything of it. *)
Theorem excluded_samples_are_not_read :
  has_low_freq_depth_support (F := F) v1 gender exclude
  = has_low_freq_depth_support v2 gender exclude
  /\ forall (het_del_fit hom_del_fit : ols_fit F) (params : list (param_row F))
            (frac_BND p_cnv epsilon : F),
       has_cn_support_by_nb v1 gender exclude het_del_fit hom_del_fit params
         frac_BND p_cnv epsilon
       = has_cn_support_by_nb v2 gender exclude het_del_fit hom_del_fit params
           frac_BND p_cnv epsilon.
Proof.
  pose proof Hsame as (_ & _ & _ & _ & _ & _ & _ & Hss & _).
  split.
  - unfold has_low_freq_depth_support. rewrite Hss, cn_by_genotype_same.
    destruct (cn_by_genotype v2 gender exclude (sample_list v2) ([], [], []))
      as [[[a b] c]|e]; simpl; [|reflexivity].
    rewrite tally_same. reflexivity.
  - intros het_del_fit hom_del_fit params frac_BND p_cnv epsilon.
    unfold has_cn_support_by_nb. rewrite Hss, test_set_of_same. reflexivity.
Qed.

End Excluded.

Lemma two_sample_del_same (ab cn ab' cn' : string) :
  same_but_excluded ["NA2"] (two_sample_del ab cn) (two_sample_del ab' cn').
Proof.
  unfold same_but_excluded. simpl. repeat split.
  intros s Hs. unfold contains in Hs. apply bool_decide_eq_false in Hs.
  assert (s <> "NA2") by (intros ->; apply Hs; left).
  destruct (decide (s = "NA1")) as [->|Hne].
  - rewrite !lookup_insert_eq. reflexivity.
  - rewrite !lookup_insert_ne by done.
    rewrite !lookup_singleton_ne by done. reflexivity.
Qed.

Lemma excluded_samples_are_not_read_witness :
  has_low_freq_depth_support (F := PrimFloat.float) (two_sample_del "0" "2") ∅ ["NA2"]
  = has_low_freq_depth_support (two_sample_del "0.5" "1") ∅ ["NA2"].
Proof.
  exact (proj1 (excluded_samples_are_not_read (F := PrimFloat.float) ∅ ["NA2"]
                  (two_sample_del "0" "2") (two_sample_del "0.5" "1")
                  (two_sample_del_same "0" "2" "0.5" "1"))).
Defined.

(** C4 as stated fails for [has_high_freq_depth_support], which reads AB and
    CN of every sample: with NA2 excluded, the deletion is supported when
    NA2 has AB 0 and CN 2, and is not when NA2 has the AB and CN of the
    carrier. *)
Lemma excluded_sample_changes_high_freq :
  same_but_excluded ["NA2"] (two_sample_del "0" "2") (two_sample_del "0.5" "1")
  /\ has_high_freq_depth_support (F := PrimFloat.float) (two_sample_del "0" "2")
       ∅ ["NA2"] slope_threshold_default rsquared_threshold_default = Ok true
  /\ has_high_freq_depth_support (F := PrimFloat.float) (two_sample_del "0.5" "1")
       ∅ ["NA2"] slope_threshold_default rsquared_threshold_default = Ok false.
Proof.
  split; [apply two_sample_del_same|].
  split; vm_compute; reflexivity.
Qed.

(** ** Quantile trimming *)

Lemma filter_sublist {A : Type} (p : A -> bool) (l : list A) :
  sublist (List.filter p l) l.
Proof.
  induction l as [|x l IH]; simpl; [constructor|].
  destruct (p x); [apply sublist_skip|apply sublist_cons]; exact IH.
Qed.

Lemma filter_all {A : Type} (p : A -> bool) (l : list A) :
  (forall x, In x l -> p x = true) -> List.filter p l = l.
Proof.
  induction l as [|x l IH]; simpl; intros Hp; [reflexivity|].
  rewrite (Hp x (or_introl eq_refl)). f_equal. apply IH.
  intros y Hy. apply Hp. right. exact Hy.
Qed.

(** Both percentiles of a single value are that value. *)
Lemma percentile_alone {F : Type} `{Float F} (x : F) :
  lowQuantile [x] = x /\ highQuantile [x] = x.
Proof. split; reflexivity. Qed.

(** C5 (as the code has it).  The trimming keeps the rows whose [log2r]
    lies between the 2.5th and the 97.5th percentile of their group.  It is
    not idempotent in general: the percentiles are computed anew and
    interpolate between the rows that are left.  Applied to a frame that
    was trimmed already, it adds no row; and it removes none from a frame
    in which every row is the only one of its group and has a finite
    [log2r], whatever the float arithmetic. *)
Theorem quantile_trim_again :
  (forall (F : Type) (HF : Float F) (df : list (CN_rec F)),
      sublist (quantile_trim (quantile_trim df)) (quantile_trim df))
  /\ (forall (F : Type) (HF : Float F) (df : list (CN_rec F)),
        alone_in_group df -> quantile_trim df = df).
Proof.
  split.
  - intros F HF df. apply filter_sublist.
  - intros F HF df Halone. apply filter_all.
    intros r Hr. destruct (Halone r Hr) as [Hg Hfin].
    unfold q_low, q_high. rewrite Hg.
    destruct (percentile_alone (r_log2r r)) as [-> ->].
    unfold finite in Hfin. apply andb_prop in Hfin. destruct Hfin as [Hle _].
    rewrite Hle. reflexivity.
Qed.

Lemma quantile_trim_again_witness :
  quantile_trim (F := PrimFloat.float) [training_rec 1; hom_alt_rec 2]
  = [training_rec 1; hom_alt_rec 2].
Proof.
  apply (proj2 quantile_trim_again).
  intros r [<-|[<-|[]]]; split; vm_compute; reflexivity.
Defined.

(** C5 as stated fails: of a group with the log2-ratios 0, 1, 2 and 3 the
    trimming keeps 1 and 2 (the percentiles are 0.075 and 2.925), and
    applied again it removes both (the percentiles are then 1.025 and
    1.975). *)
Lemma quantile_trim_not_idempotent :
  quantile_trim four_values = [training_rec 1; training_rec 2]
  /\ quantile_trim (quantile_trim four_values) = []
  /\ quantile_trim (quantile_trim four_values) <> quantile_trim four_values.
Proof.
  assert (H1 : quantile_trim four_values = [training_rec 1; training_rec 2])
    by (vm_compute; reflexivity).
  assert (H2 : quantile_trim (quantile_trim four_values) = [])
    by (vm_compute; reflexivity).
  split; [exact H1|]. split; [exact H2|].
  rewrite H2, H1. discriminate.
Qed.

(** ** The likelihood test *)





Section Likelihood.
Context {F : Type} `{Float F} `{Libm F}.
Variables (het_del_fit hom_del_fit : ols_fit F) (params : list (param_row F)).

Lemma test_set_of_included (var : Variant) (exclude : list string) (epsilon : F)
    (ss : list string) :
  test_set_of var exclude epsilon ss
  = for_each (cn_rec_of var epsilon) (included exclude ss).
Proof.
  induction ss as [|s ss IH]; simpl; [reflexivity|].
  destruct (contains exclude s); simpl; [exact IH|].
  rewrite IH. reflexivity.
Qed.











End Likelihood.



(** * Further properties *)

(** ** Breakend pairs: preconditions and what is kept *)

Lemma getitem_Ok {V : Type} (d : gmap string V) (k : string) (x : V) :
  getitem d k = Ok x -> d !! k = Some x.
Proof. unfold getitem. destruct (d !! k); intros Hx; [congruence|discriminate]. Qed.

Lemma del_info_None (k : string) (v : Variant) :
  info v !! k = None -> del_info k v = Raise (KeyError k).
Proof. intros Hk. unfold del_info, delitem. rewrite Hk. reflexivity. Qed.

Lemma to_bnd_strings_outcome (var : Variant) (fixed_gts : bool) :
  (Forall (fun k => is_Some (info var !! k)) bnd_required
   /\ exists r, to_bnd_strings var fixed_gts = Ok r)
  \/ (exists k, In k bnd_required /\ info var !! k = None
                /\ to_bnd_strings var fixed_gts = Raise (KeyError k)).
Proof.
  unfold to_bnd_strings, getitem, bnd_required.
  destruct (info var !! "SVTYPE") as [t|] eqn:H1;
    [|right; exists "SVTYPE"; simpl; auto 10].
  destruct (info var !! "END") as [e|] eqn:H2;
    [|right; exists "END"; simpl; auto 10].
  destruct (info var !! "CIEND") as [ciend|] eqn:H3;
    [|right; exists "CIEND"; simpl; auto 10].
  destruct (info var !! "CIPOS") as [cipos|] eqn:H4;
    [|right; exists "CIPOS"; simpl; auto 10].
  destruct (info var !! "CIPOS95") as [cipos95|] eqn:H5;
    [|right; exists "CIPOS95"; simpl; auto 10].
  destruct (info var !! "CIEND95") as [ciend95|] eqn:H6;
    [|right; exists "CIEND95"; simpl; auto 10].
  simpl.
  destruct (info var !! "SVLEN") as [l|] eqn:H7.
  - left. split; [repeat constructor; eauto|].
    rewrite del_info_Some
      by (simpl; rewrite !lookup_insert_ne by done; eauto).
    simpl. rewrite del_info_Some
      by (simpl; rewrite lookup_delete_ne, !lookup_insert_ne by done; eauto).
    simpl. eexists. reflexivity.
  - right. exists "SVLEN". split; [simpl; auto 10|]. split; [exact H7|].
    rewrite del_info_None
      by (simpl; rewrite !lookup_insert_ne by done; exact H7).
    reflexivity.
Qed.

(** X1.  [to_bnd_strings] returns its two lines exactly when INFO has all of
    SVTYPE, END, CIEND, CIPOS, CIPOS95, CIEND95 and SVLEN; any other
    outcome is the [KeyError] of one of these keys, which is absent. *)
Theorem to_bnd_strings_succeeds_iff (var : Variant) (fixed_gts : bool) :
  ((exists r, to_bnd_strings var fixed_gts = Ok r)
   <-> Forall (fun k => is_Some (info var !! k)) bnd_required)
  /\ (forall e, to_bnd_strings var fixed_gts = Raise e ->
        exists k, In k bnd_required /\ info var !! k = None /\ e = KeyError k).
Proof.
  destruct (to_bnd_strings_outcome var fixed_gts)
    as [[Hall [r Hr]]|(k & Hk & Hnone & Hraise)].
  - split.
    + split; [intros _; exact Hall|intros _; exists r; exact Hr].
    + intros e He. rewrite Hr in He. discriminate.
  - split.
    + split.
      * intros [r Hr]. rewrite Hraise in Hr. discriminate.
      * intros Hall. rewrite Forall_forall in Hall.
        apply list_elem_of_In in Hk. destruct (Hall k Hk) as [x Hx]. congruence.
    + intros e He. rewrite Hraise in He. injection He as <-.
      exists k. auto.
Qed.

(** X2.  When [to_bnd_strings] succeeds, mate 1 stays at the position of
    the variant and mate 2 is placed at its END; both keep the chromosome,
    the quality, the filter, the samples and the genotypes, carry the
    [fixed_gts] flag of the call, and keep every INFO entry other than the
    ten that the rewriting touches. *)
Theorem to_bnd_strings_keeps (var : Variant) (fixed_gts : bool)
    (m1 m2 : var_string) :
  to_bnd_strings var fixed_gts = Ok (m1, m2) ->
  pos (vs_var m1) = pos var
  /\ info var !! "END" = Some (pos (vs_var m2))
  /\ same_fixed_columns (vs_var m1) var
  /\ same_fixed_columns (vs_var m2) var
  /\ vs_fixed_gts m1 = fixed_gts /\ vs_fixed_gts m2 = fixed_gts
  /\ forall k, ~ In k bnd_touched ->
       info (vs_var m1) !! k = info var !! k
       /\ info (vs_var m2) !! k = info var !! k.
Proof.
  intros Hb.
  destruct (to_bnd_strings_outcome var fixed_gts)
    as [[Hall _]|(k & _ & _ & Hr)]; [|congruence].
  unfold bnd_required in Hall.
  repeat match goal with
         | H : Forall _ (_ :: _) |- _ =>
             let Hx := fresh "Hx" in
             apply Forall_cons in H; destruct H as [[? Hx] H]
         end.
  revert Hb. unfold to_bnd_strings.
  repeat match goal with
         | H : info var !! _ = Some _ |- _ =>
             rewrite (getitem_Some _ _ _ H)
         end.
  simpl.
  rewrite del_info_Some by (simpl; rewrite !lookup_insert_ne by done; eauto).
  simpl.
  rewrite del_info_Some
    by (simpl; rewrite lookup_delete_ne, !lookup_insert_ne by done; eauto).
  simpl.
  assert (Hkeep : forall k, ~ In k bnd_touched ->
            delete "END" (delete "SVLEN"
              (<["EVENT":=PStr (var_id var)]>
                 (<["SVTYPE":=PStr "BND"]> (info var)))) !! k = info var !! k).
  { intros k Hk. unfold bnd_touched in Hk. simpl in Hk.
    rewrite !lookup_delete_ne, !lookup_insert_ne by (intros <-; tauto).
    reflexivity. }
  match goal with
  | |- context [eq_str ?t "DEL"] => destruct (eq_str t "DEL")
  end; intros Hb; injection Hb as <- <-; simpl;
    (split; [reflexivity|]); (split; [assumption|]);
    (split; [repeat split|]); (split; [repeat split|]);
    (split; [reflexivity|]); (split; [reflexivity|]);
    intros k Hk; pose proof (Hkeep k Hk) as Hk';
    unfold bnd_touched in Hk; simpl in Hk;
    (split; [rewrite lookup_insert_ne by (intros <-; tauto); exact Hk'
            |rewrite !lookup_insert_ne by (intros <-; tauto); exact Hk']).
Qed.

Lemma to_bnd_strings_succeeds_iff_witness :
  exists r, to_bnd_strings del_100_200 true = Ok r.
Proof.
  apply (proj1 (to_bnd_strings_succeeds_iff del_100_200 true)).
  unfold bnd_required. repeat constructor; vm_compute; eauto.
Defined.

Lemma to_bnd_strings_keeps_witness :
  exists m1 m2 : var_string,
    to_bnd_strings del_100_200 true = Ok (m1, m2)
    /\ pos (vs_var m1) = PInt 100 /\ pos (vs_var m2) = PStr "200".
Proof.
  destruct (to_bnd_strings del_100_200 true) as [[m1 m2]|e] eqn:Hb;
    [|vm_compute in Hb; discriminate].
  exists m1, m2. split; [reflexivity|].
  destruct (to_bnd_strings_keeps del_100_200 true m1 m2 Hb)
    as (Hp1 & Hp2 & _).
  split; [exact Hp1|].
  assert (Hend : info del_100_200 !! "END" = Some (PStr "200"))
    by (vm_compute; reflexivity).
  rewrite Hend in Hp2. injection Hp2 as <-. reflexivity.
Defined.

(** ** Breakend ALT strings *)

Lemma string_app_cons (a : ascii) (s t : string) :
  String a s ++ t = String a (s ++ t).
Proof. reflexivity. Qed.

Lemma string_app_nil (t : string) : EmptyString ++ t = t.
Proof. reflexivity. Qed.

Lemma string_app_assoc (s t u : string) : (s ++ t) ++ u = s ++ (t ++ u).
Proof.
  induction s as [|a s IH]; rewrite ?string_app_cons, ?string_app_nil;
    [reflexivity|].
  rewrite IH. reflexivity.
Qed.

Lemma all_chars_app (p : ascii -> bool) (s t : string) :
  all_chars p (s ++ t) = all_chars p s && all_chars p t.
Proof.
  induction s as [|a s IH]; rewrite ?string_app_cons, ?string_app_nil; simpl;
    [reflexivity|].
  rewrite IH, andb_assoc. reflexivity.
Qed.

Lemma all_chars_weaken (p q : ascii -> bool) (s : string) :
  (forall a, p a = true -> q a = true) ->
  all_chars p s = true -> all_chars q s = true.
Proof.
  intros Hpq. induction s as [|a s IH]; simpl; [reflexivity|].
  intros Hs. apply andb_prop in Hs. destruct Hs as [Ha Hs].
  rewrite (Hpq a Ha), (IH Hs). reflexivity.
Qed.

(** The lazy group stops at the first bracket after a run without brackets
    and newlines. *)
Lemma lazy_tail_region (s rest : string) (sep : ascii) :
  all_chars region_char s = true -> is_bracket sep = true ->
  lazy_tail (s ++ String sep rest) = Some (s, sep).
Proof.
  intros Hs Hsep.
  induction s as [|a s IH]; rewrite ?string_app_cons, ?string_app_nil; simpl.
  - rewrite Hsep. reflexivity.
  - simpl in Hs. apply andb_prop in Hs. destruct Hs as [Ha Hs].
    unfold region_char in Ha. apply andb_prop in Ha. destruct Ha as [Hb Hn].
    apply negb_true_iff in Hb, Hn. rewrite Hb, Hn, (IH Hs). reflexivity.
Qed.

Lemma match_here_region (sep1 sep2 b : ascii) (s rest : string) :
  is_bracket sep1 = true -> is_bracket sep2 = true ->
  all_chars region_char (String b s) = true ->
  match_here (String sep1 (String b s ++ String sep2 rest))
  = Some (String sep1 EmptyString, String b s, String sep2 EmptyString).
Proof.
  intros H1 H2 Hs. simpl in Hs. apply andb_prop in Hs. destruct Hs as [Hb Hs].
  unfold region_char in Hb. apply andb_prop in Hb. destruct Hb as [_ Hn].
  rewrite string_app_cons. simpl. rewrite H1, Hn. simpl.
  rewrite (lazy_tail_region s rest sep2 Hs H2). reflexivity.
Qed.

(** [s.split(c)] around the one occurrence of [c]. *)
Lemma split_on_absent (c : ascii) (s : string) :
  all_chars (fun a => negb (Ascii.eqb a c)) s = true -> split_on c s = [s].
Proof.
  induction s as [|a s IH]; simpl; [reflexivity|].
  intros Hs. apply andb_prop in Hs. destruct Hs as [Ha Hs].
  apply negb_true_iff in Ha. rewrite Ha, (IH Hs). reflexivity.
Qed.

Lemma split_on_once (c : ascii) (s t : string) :
  all_chars (fun a => negb (Ascii.eqb a c)) s = true ->
  all_chars (fun a => negb (Ascii.eqb a c)) t = true ->
  split_on c (s ++ String c t) = [s; t].
Proof.
  intros Hs Ht.
  induction s as [|a s IH]; rewrite ?string_app_cons, ?string_app_nil; simpl.
  - rewrite Ascii.eqb_refl, (split_on_absent c t Ht). reflexivity.
  - simpl in Hs. apply andb_prop in Hs. destruct Hs as [Ha Hs].
    apply negb_true_iff in Ha. rewrite Ha, (IH Hs). reflexivity.
Qed.

Lemma digit_is_name_char (a : ascii) (d : Z) :
  digit_of a = Some d -> name_char a = true.
Proof.
  destruct a as [[] [] [] [] [] [] [] []]; vm_compute; congruence.
Qed.

Lemma digits_are_name_chars (s : string) (acc n : Z) :
  digits_value acc s = Some n -> all_chars name_char s = true.
Proof.
  revert acc. induction s as [|a s IH]; simpl; intros acc Hn; [reflexivity|].
  destruct (digit_of a) as [d|] eqn:Hd; [|discriminate].
  rewrite (digit_is_name_char a d Hd), (IH _ Hn). reflexivity.
Qed.

(** A numeral has no bracket, newline or colon in it. *)
Lemma numeral_name_chars (s : string) (n : Z) :
  numeral s = Some n -> all_chars name_char s = true.
Proof.
  intros Hz. destruct s as [|a s]; [discriminate|].
  assert (Hcases : (a = "-"%char \/ a = "+"%char) \/ numeral (String a s)
                   = unsigned_of_string (String a s)).
  { destruct a as [[] [] [] [] [] [] [] []]; auto. }
  destruct Hcases as [[-> | ->]|Hu].
  - simpl in Hz. destruct (unsigned_of_string s) as [u|] eqn:Hu; [|discriminate].
    unfold unsigned_of_string in Hu. destruct s; [discriminate|].
    simpl. exact (digits_are_name_chars _ _ _ Hu).
  - simpl in Hz. unfold unsigned_of_string in Hz. destruct s; [discriminate|].
    simpl. exact (digits_are_name_chars _ _ _ Hz).
  - rewrite Hu in Hz. unfold unsigned_of_string in Hz.
    exact (digits_are_name_chars _ _ _ Hz).
Qed.

Lemma rstrip_chars (P : ascii -> bool) (s : string) :
  (forall a, is_space a = true -> P a = true) ->
  all_chars P (rstrip s) = true -> all_chars P s = true.
Proof.
  intros Hsp. induction s as [|a s IH]; [reflexivity|].
  cbn [rstrip all_chars]. destruct (rstrip s) as [|b r] eqn:Er.
  - intros Ha. rewrite (IH eq_refl), andb_true_r.
    destruct (is_space a) eqn:Es; [apply Hsp, Es|].
    simpl in Ha. rewrite andb_true_r in Ha. exact Ha.
  - intros Ha. cbn [all_chars] in Ha. apply andb_prop in Ha.
    destruct Ha as [Ha Hr]. rewrite Ha. apply IH. exact Hr.
Qed.

Lemma lstrip_chars (P : ascii -> bool) (s : string) :
  (forall a, is_space a = true -> P a = true) ->
  all_chars P (lstrip s) = true -> all_chars P s = true.
Proof.
  intros Hsp. induction s as [|a s IH]; [reflexivity|].
  cbn [lstrip]. destruct (is_space a) eqn:Es.
  - intros Hs. cbn [all_chars]. rewrite (Hsp a Es). apply IH. exact Hs.
  - intros Hs. exact Hs.
Qed.

Lemma space_or_name_char (a : ascii) :
  is_space a = true -> name_char a || is_newline a = true.
Proof. destruct a as [[] [] [] [] [] [] [] []]; vm_compute; congruence. Qed.

(** What [int] reads on a single line has no bracket, newline or colon in
    it. *)
Lemma int_name_chars (s : string) (n : Z) :
  int s = Ok n -> one_line s = true -> all_chars name_char s = true.
Proof.
  unfold int, int_of_string, strip, one_line.
  destruct (numeral (lstrip (rstrip s))) as [z|] eqn:Hz; [|discriminate].
  intros _ Hline.
  assert (Hall : all_chars (fun a => name_char a || is_newline a) s = true).
  { apply rstrip_chars; [exact space_or_name_char|].
    apply lstrip_chars; [exact space_or_name_char|].
    apply (all_chars_weaken name_char); [|exact (numeral_name_chars _ _ Hz)].
    intros a Ha. rewrite Ha. reflexivity. }
  clear Hz. induction s as [|a s IH]; [reflexivity|].
  cbn [all_chars] in *. apply andb_prop in Hline, Hall.
  destruct Hline as [Hl1 Hl2], Hall as [Ha1 Ha2].
  rewrite (IH Hl2 Ha2), andb_true_r.
  destruct (is_newline a); [discriminate|].
  rewrite orb_false_r in Ha1. exact Ha1.
Qed.

Lemma name_chars_region (s : string) :
  all_chars name_char s = true -> all_chars region_char s = true.
Proof.
  apply all_chars_weaken. intros a Ha. unfold name_char in Ha.
  apply andb_prop in Ha. tauto.
Qed.

Lemma name_chars_no_colon (s : string) :
  all_chars name_char s = true ->
  all_chars (fun a => negb (Ascii.eqb a ":")) s = true.
Proof.
  apply all_chars_weaken. intros a Ha. unfold name_char in Ha.
  apply andb_prop in Ha. tauto.
Qed.

(** The region [chrom:e] between two brackets is found and split. *)
Lemma region_parsed (chrom e : string) (n : Z) :
  all_chars name_char chrom = true -> int e = Ok n -> one_line e = true ->
  all_chars region_char (chrom ++ String ":" e) = true
  /\ split_on ":" (chrom ++ String ":" e) = [chrom; e].
Proof.
  intros Hc He Hl. pose proof (int_name_chars e n He Hl) as Hplain. split.
  - rewrite all_chars_app. simpl.
    rewrite (name_chars_region _ Hc), (name_chars_region _ Hplain). reflexivity.
  - apply split_on_once; apply name_chars_no_colon; assumption.
Qed.

Lemma first_match_here (s : string) (m : string * string * string) :
  match_here s = Some m -> first_match s = Some m.
Proof. intros Hm. destruct s; cbn [first_match]; rewrite Hm; reflexivity. Qed.

Lemma first_match_skip (a : ascii) (s : string) :
  match_here (String a s) = None -> first_match (String a s) = first_match s.
Proof. intros Hm. cbn [first_match]. rewrite Hm. reflexivity. Qed.

Lemma parse_alt_after (chrom e : string) (n : Z) :
  all_chars name_char chrom = true -> int e = Ok n -> one_line e = true ->
  parse_bnd_alt_string (alt_after chrom e) = Ok ("[", chrom, n).
Proof.
  intros Hc He Hl. destruct (region_parsed chrom e n Hc He Hl) as [Hr Hsplit].
  unfold parse_bnd_alt_string, alt_after.
  change ("N[" ++ chrom ++ ":" ++ e ++ "[")
    with (String "N" (String "[" (chrom ++ String ":" (e ++ "[")))).
  replace (chrom ++ String ":" (e ++ "["))
    with ((chrom ++ String ":" e) ++ String "[" EmptyString)
    by (rewrite string_app_assoc; reflexivity).
  destruct (chrom ++ String ":" e) as [|b r] eqn:Er.
  { destruct chrom; discriminate. }
  rewrite first_match_skip by reflexivity.
  rewrite (first_match_here _ _
             (match_here_region "[" "[" b r EmptyString eq_refl eq_refl Hr)).
  rewrite String.eqb_refl, Hsplit, He. reflexivity.
Qed.

Lemma parse_alt_before (chrom e : string) (n : Z) :
  all_chars name_char chrom = true -> int e = Ok n -> one_line e = true ->
  parse_bnd_alt_string (alt_before chrom e) = Ok ("]", chrom, n).
Proof.
  intros Hc He Hl. destruct (region_parsed chrom e n Hc He Hl) as [Hr Hsplit].
  unfold parse_bnd_alt_string, alt_before.
  change ("]" ++ chrom ++ ":" ++ e ++ "]N")
    with (String "]" (chrom ++ String ":" (e ++ "]N"))).
  replace (chrom ++ String ":" (e ++ "]N"))
    with ((chrom ++ String ":" e) ++ String "]" "N")
    by (rewrite string_app_assoc; reflexivity).
  destruct (chrom ++ String ":" e) as [|b r] eqn:Er.
  { destruct chrom; discriminate. }
  rewrite (first_match_here _ _
             (match_here_region "]" "]" b r "N" eq_refl eq_refl Hr)).
  rewrite String.eqb_refl, Hsplit, He. reflexivity.
Qed.

(** X3.  The two ALT strings that [to_bnd_strings] writes, [N[chrom:e[] and
    []chrom:e]N], are read back by [parse_bnd_alt_string] as the bracket,
    the chromosome and the position, for a chromosome name without
    bracket, colon or newline and a position that [int] reads, white space
    around it included as long as it is no newline. *)
Theorem bnd_alt_round_trip (chrom e : string) (n : Z) :
  all_chars name_char chrom = true -> int e = Ok n -> one_line e = true ->
  parse_bnd_alt_string (alt_after chrom e) = Ok ("[", chrom, n)
  /\ parse_bnd_alt_string (alt_before chrom e) = Ok ("]", chrom, n).
Proof.
  intros Hc He Hl.
  split; [apply parse_alt_after|apply parse_alt_before]; assumption.
Qed.

Lemma bnd_alt_round_trip_witness :
  parse_bnd_alt_string "N[1:200[" = Ok ("[", "1", 200)
  /\ parse_bnd_alt_string "]1:200]N" = Ok ("]", "1", 200).
Proof.
  apply (bnd_alt_round_trip "1" "200" 200); reflexivity.
Defined.

(** ** Breakpoints of a breakend *)

Lemma startswith_head (a : ascii) (s : string) :
  startswith (String a s) (String a EmptyString) = true.
Proof.
  unfold startswith. cbn [String.prefix].
  destruct (ascii_dec a a); [|congruence]. destruct s; reflexivity.
Qed.

Lemma bnd_breakpoints_after (v : Variant) (c e : string) (n p : Z) :
  pos v = PInt p -> all_chars name_char c = true -> int e = Ok n ->
  one_line e = true ->
  alt v = alt_after c e ->
  bnd_breakpoints v
  = Ok (mkBreakpoints (chrom v) (PInt p) (PInt p) c (PInt (n - 1)) (PInt (n - 1))
          "+" "-",
        set_info "END" (PInt (n - 1)) v).
Proof.
  intros Hp Hc He Hl Halt. unfold bnd_breakpoints.
  rewrite Halt, (parse_alt_after c e n Hc He Hl), Hp. reflexivity.
Qed.

Lemma bnd_breakpoints_before (v : Variant) (c e : string) (n p : Z) :
  pos v = PInt p -> all_chars name_char c = true -> int e = Ok n ->
  one_line e = true ->
  alt v = alt_before c e ->
  bnd_breakpoints v
  = Ok (mkBreakpoints (chrom v) (PInt (p - 1)) (PInt (p - 1)) c (PInt n) (PInt n)
          "-" "+",
        set_info "END" (PInt n) v).
Proof.
  intros Hp Hc He Hl Halt. unfold bnd_breakpoints.
  rewrite Halt, (parse_alt_before c e n Hc He Hl), Hp.
  cbn [mbind result_bind bind].
  replace (startswith (alt_before c e) "]") with true
    by (symmetry; apply startswith_head).
  reflexivity.
Qed.

(** X4.  For a breakend at the integer position [p] whose ALT is
    [N[c:e[], [bnd_breakpoints] gives the ends [(p, p)] and [(n - 1, n - 1)]
    with the orientations + and -, and stores [END = n - 1]; for the ALT
    []c:e]N] it gives [(p - 1, p - 1)] and [(n, n)] with the orientations -
    and +, and stores [END = n]; [n] being the integer that [int] reads
    from [e], which holds no newline. *)
Theorem bnd_breakpoints_of_alt (v : Variant) (c e : string) (n p : Z) :
  pos v = PInt p -> all_chars name_char c = true -> int e = Ok n ->
  one_line e = true ->
  (alt v = alt_after c e ->
   bnd_breakpoints v
   = Ok (mkBreakpoints (chrom v) (PInt p) (PInt p) c (PInt (n - 1))
           (PInt (n - 1)) "+" "-",
         set_info "END" (PInt (n - 1)) v))
  /\ (alt v = alt_before c e ->
      bnd_breakpoints v
      = Ok (mkBreakpoints (chrom v) (PInt (p - 1)) (PInt (p - 1)) c (PInt n)
              (PInt n) "-" "+",
            set_info "END" (PInt n) v)).
Proof.
  intros Hp Hc He Hl. split; intros Halt.
  - apply (bnd_breakpoints_after v c e n p); assumption.
  - apply (bnd_breakpoints_before v c e n p); assumption.
Qed.

Lemma bnd_breakpoints_of_alt_witness :
  bnd_breakpoints (set_alt "N[1:200[" del_100_200)
  = Ok (mkBreakpoints "1" (PInt 100) (PInt 100) "1" (PInt 199) (PInt 199) "+" "-",
        set_info "END" (PInt 199) (set_alt "N[1:200[" del_100_200)).
Proof.
  apply (proj1 (bnd_breakpoints_of_alt (set_alt "N[1:200[" del_100_200)
                  "1" "200" 200 100 eq_refl eq_refl eq_refl eq_refl)).
  reflexivity.
Defined.

Lemma to_bnd_strings_first_mate (var : Variant) (fixed_gts : bool)
    (m1 m2 : var_string) (t e : pyval) :
  to_bnd_strings var fixed_gts = Ok (m1, m2) ->
  info var !! "SVTYPE" = Some t -> info var !! "END" = Some e ->
  pos (vs_var m1) = pos var /\ chrom (vs_var m1) = chrom var
  /\ alt (vs_var m1)
     = (if eq_str t "DEL" then alt_after (chrom var) (to_str e)
        else alt_before (chrom var) (to_str e)).
Proof.
  intros Hb Ht He.
  destruct (to_bnd_strings_outcome var fixed_gts)
    as [[Hall _]|(k & _ & _ & Hr)]; [|congruence].
  unfold bnd_required in Hall.
  repeat match goal with
         | H : Forall _ (_ :: _) |- _ =>
             let Hx := fresh "Hx" in
             apply Forall_cons in H; destruct H as [[? Hx] H]
         end.
  revert Hb. unfold to_bnd_strings.
  rewrite (getitem_Some _ _ _ Ht), (getitem_Some _ _ _ He).
  repeat match goal with
         | H : info var !! _ = Some _ |- _ =>
             rewrite (getitem_Some _ _ _ H)
         end.
  simpl.
  rewrite del_info_Some by (simpl; rewrite !lookup_insert_ne by done; eauto).
  simpl.
  rewrite del_info_Some
    by (simpl; rewrite lookup_delete_ne, !lookup_insert_ne by done; eauto).
  simpl.
  destruct (eq_str t "DEL"); intros Hb; injection Hb as <- <-; simpl;
    repeat split.
Qed.

(** X5.  The first line that [to_bnd_strings] writes for a deletion, read
    as a breakend, has its first end at the position of the deletion with
    orientation + and its second end, on the same chromosome, at END - 1
    with orientation -; for any other type the first end is at the position
    less one with orientation - and the second at END with orientation +;
    END being an integer written without a newline. *)
Theorem first_mate_breakpoints (var : Variant) (fixed_gts : bool)
    (m1 m2 : var_string) (t e : pyval) (n p : Z) :
  to_bnd_strings var fixed_gts = Ok (m1, m2) ->
  info var !! "SVTYPE" = Some t ->
  info var !! "END" = Some e ->
  int (to_str e) = Ok n ->
  one_line (to_str e) = true ->
  pos var = PInt p ->
  all_chars name_char (chrom var) = true ->
  exists (bp : breakpoints) (v' : Variant),
    bnd_breakpoints (vs_var m1) = Ok (bp, v')
    /\ bp_c1 bp = chrom var /\ bp_c2 bp = chrom var
    /\ bp_e1 bp = bp_s1 bp /\ bp_e2 bp = bp_s2 bp
    /\ (if eq_str t "DEL"
        then bp_s1 bp = PInt p /\ bp_s2 bp = PInt (n - 1)
             /\ bp_o1 bp = "+" /\ bp_o2 bp = "-"
        else bp_s1 bp = PInt (p - 1) /\ bp_s2 bp = PInt n
             /\ bp_o1 bp = "-" /\ bp_o2 bp = "+").
Proof.
  intros Hb Ht He Hn Hl Hp Hc.
  destruct (to_bnd_strings_first_mate var fixed_gts m1 m2 t e Hb Ht He)
    as (Hpos & Hchrom & Halt).
  rewrite Hp in Hpos.
  destruct (eq_str t "DEL").
  - rewrite (bnd_breakpoints_after _ _ _ n p Hpos Hc Hn Hl Halt).
    eexists. eexists. split; [reflexivity|]. simpl. rewrite Hchrom. auto 10.
  - rewrite (bnd_breakpoints_before _ _ _ n p Hpos Hc Hn Hl Halt).
    eexists. eexists. split; [reflexivity|]. simpl. rewrite Hchrom. auto 10.
Qed.

Lemma first_mate_breakpoints_witness :
  exists (m1 m2 : var_string) (bp : breakpoints) (v' : Variant),
    to_bnd_strings del_100_200 true = Ok (m1, m2)
    /\ bnd_breakpoints (vs_var m1) = Ok (bp, v')
    /\ bp_s1 bp = PInt 100 /\ bp_s2 bp = PInt 199
    /\ bp_o1 bp = "+" /\ bp_o2 bp = "-".
Proof.
  destruct (to_bnd_strings del_100_200 true) as [[m1 m2]|x] eqn:Hb;
    [|vm_compute in Hb; discriminate].
  destruct (first_mate_breakpoints del_100_200 true m1 m2 (PStr "DEL")
              (PStr "200") 200 100 Hb eq_refl eq_refl eq_refl eq_refl eq_refl
              eq_refl)
    as (bp & v' & Hbp & _ & _ & _ & _ & H1 & H2 & H3 & H4).
  exists m1, m2, bp, v'. auto 10.
Defined.

(** ** Conversion to BEDPE: errors and coordinates *)

Lemma no_key_error_Ok {A : Type} (a : A) : no_key_error (Ok a).
Proof. intros k. discriminate. Qed.

Lemma no_key_error_bind {A B : Type} (m : result A) (f : A -> result B) :
  no_key_error m -> (forall a, no_key_error (f a)) -> no_key_error (m ≫= f).
Proof.
  intros Hm Hf k. destruct m as [a|e]; simpl.
  - apply Hf.
  - intros He. injection He as ->. exact (Hm k eq_refl).
Qed.

Lemma no_key_error_int (s : string) : no_key_error (int s).
Proof. intros k. unfold int. destruct (int_of_string s); discriminate. Qed.

Lemma no_key_error_to_int (v : pyval) : no_key_error (to_int v).
Proof. destruct v; simpl; try apply no_key_error_Ok. apply no_key_error_int. Qed.

Lemma no_key_error_add_int (v : pyval) (n : Z) : no_key_error (add_int v n).
Proof. intros k. destruct v; discriminate. Qed.

Lemma no_key_error_index {A : Type} (l : list A) (i : nat) :
  no_key_error (index l i).
Proof. intros k. unfold index. destruct (l !! i); discriminate. Qed.

Lemma no_key_error_for_each_int (l : list string) : no_key_error (for_each int l).
Proof.
  induction l as [|s l IH]; simpl; [apply no_key_error_Ok|].
  apply no_key_error_bind; [apply no_key_error_int|]. intros n.
  apply no_key_error_bind; [exact IH|]. intros ns. apply no_key_error_Ok.
Qed.

Lemma no_key_error_parse (alt_string : string) :
  no_key_error (parse_bnd_alt_string alt_string).
Proof.
  intros k. unfold parse_bnd_alt_string.
  destruct (first_match alt_string) as [[[sep1 region] sep2]|]; [|discriminate].
  destruct (String.eqb sep1 sep2); [|discriminate].
  destruct (split_on ":" region) as [|c [|b [|x l]]]; try discriminate.
  apply no_key_error_bind; [apply no_key_error_int|].
  intros n. apply no_key_error_Ok.
Qed.

Lemma no_key_error_bnd (v : Variant) : no_key_error (bnd_breakpoints v).
Proof.
  unfold bnd_breakpoints.
  apply no_key_error_bind; [apply no_key_error_parse|].
  intros [[sep chrom2] breakpoint2].
  apply no_key_error_bind.
  - destruct (startswith (alt v) sep); [|apply no_key_error_Ok].
    apply no_key_error_bind; [apply no_key_error_add_int|].
    intros b. apply no_key_error_Ok.
  - intros [o b]. destruct (String.eqb sep "["); apply no_key_error_Ok.
Qed.

Lemma no_key_error_simple (v : Variant) : no_key_error (simple_breakpoints v).
Proof.
  unfold simple_breakpoints.
  apply no_key_error_bind.
  - destruct (info v !! "END"); [apply no_key_error_to_int|intros k; discriminate].
  - intros n. apply no_key_error_bind.
    + destruct (info v !! "STRANDS") as [st|]; [|apply no_key_error_Ok].
      intros k. destruct st as [z|s|]; simpl; try discriminate.
      destruct s as [|a [|b s]]; discriminate.
    + intros [o1 o2]. apply no_key_error_Ok.
Qed.

Lemma no_key_error_adjust (v : Variant) (tag : string) (start end_ : pyval) :
  no_key_error (adjust_coordinate v tag start end_).
Proof.
  unfold adjust_coordinate. destruct (info v !! tag) as [x|]; [|apply no_key_error_Ok].
  apply no_key_error_bind.
  { intros k. destruct x; discriminate. }
  intros parts. apply no_key_error_bind; [apply no_key_error_for_each_int|].
  intros span. apply no_key_error_bind; [apply no_key_error_index|].
  intros span0. apply no_key_error_bind; [apply no_key_error_add_int|].
  intros start'. apply no_key_error_bind; [apply no_key_error_index|].
  intros span1. apply no_key_error_bind; [apply no_key_error_add_int|].
  intros end'. apply no_key_error_Ok.
Qed.

(** X6.  [convert] never lets a [KeyError] out: every INFO entry it reads
    is tested for or caught first, a missing SVTYPE or END being reported
    as a [ValueError]. *)
Theorem convert_never_raises_KeyError (primary secondary : option Variant)
    (k : string) :
  convert primary secondary <> Raise (KeyError k).
Proof.
  revert k. change (no_key_error (convert primary secondary)).
  unfold convert.
  apply no_key_error_bind.
  { destruct primary; [apply no_key_error_Ok|].
    destruct secondary; [apply no_key_error_Ok|]. intros k. discriminate. }
  intros v. apply no_key_error_bind.
  { destruct (info v !! "SVTYPE"); [apply no_key_error_Ok|]. intros k. discriminate. }
  intros t. apply no_key_error_bind.
  { destruct (eq_str t "BND"); [apply no_key_error_bnd|apply no_key_error_simple]. }
  intros [bp v']. apply no_key_error_bind; [apply no_key_error_adjust|].
  intros [x1 y1]. apply no_key_error_bind; [apply no_key_error_adjust|].
  intros [x2 y2]. destruct primary; apply no_key_error_Ok.
Qed.

(** X7.  On integer coordinates, [adjust_coordinate] adds the first two
    comma-separated integers of the tag to the start and to the end, and
    leaves both as they are when the tag is absent; it raises, without a
    result, exactly when the tag is a flag, has a field that is not an
    integer, or has fewer than two fields. *)
Theorem adjust_coordinate_span (v : Variant) (tag : string) (start end_ : Z) :
  match ci_span v tag with
  | Some (a, b) =>
      adjust_coordinate v tag (PInt start) (PInt end_)
      = Ok (PInt (start + a), PInt (end_ + b))
  | None => exists e, adjust_coordinate v tag (PInt start) (PInt end_) = Raise e
  end.
Proof.
  unfold ci_span, adjust_coordinate.
  destruct (info v !! tag) as [[n|s|]|].
  - eexists. reflexivity.
  - simpl. destruct (for_each int (split_on "," s)) as [[|a [|b rest]]|e] eqn:Hs.
    + eexists. reflexivity.
    + eexists. reflexivity.
    + reflexivity.
    + eexists. reflexivity.
  - eexists. reflexivity.
  - rewrite !Z.add_0_r. reflexivity.
Qed.

Lemma adjust_coordinate_span_witness :
  adjust_coordinate spaced_interval "CIPOS" (PInt 100) (PInt 100)
  = Ok (PInt 90, PInt 110)
  /\ exists e, adjust_coordinate spaced_interval "CIEND" (PInt 200) (PInt 200)
               = Raise e.
Proof.
  split.
  - exact (adjust_coordinate_span spaced_interval "CIPOS" 100 100).
  - exact (adjust_coordinate_span spaced_interval "CIEND" 200 200).
Defined.

Lemma adjust_coordinate_offsets (v : Variant) (tag : string)
    (start end_ a b : Z) :
  ci_span v tag = Some (a, b) ->
  adjust_coordinate v tag (PInt start) (PInt end_)
  = Ok (PInt (start + a), PInt (end_ + b)).
Proof.
  unfold ci_span, adjust_coordinate.
  destruct (info v !! tag) as [[n|s|]|]; try discriminate.
  - simpl. destruct (for_each int (split_on "," s)) as [[|a' [|b' rest]]|e];
      try discriminate.
    intros Hs. injection Hs as <- <-. reflexivity.
  - intros Hs. injection Hs as <- <-. rewrite !Z.add_0_r. reflexivity.
Qed.

(** X8.  For a simple (non-BND) variant at the integer position [p] with
    END [n] and no STRANDS entry, converted as the primary variant, the
    BEDPE record has both chromosomes equal to that of the variant, the
    orientations + and +, a dot as second INFO column, the name EVENT if
    there is one and the id otherwise, and the coordinates
    [max(p + a, 0)], [max(p + b, 0)], [max(n + c, 0)], [max(n + d, 0)] for
    the CIPOS offsets [(a, b)] and the CIEND offsets [(c, d)]. *)
Theorem convert_simple_record (v : Variant) (secondary : option Variant)
    (t e : pyval) (p n a b c d : Z) :
  info v !! "SVTYPE" = Some t -> eq_str t "BND" = false ->
  pos v = PInt p ->
  info v !! "END" = Some e -> to_int e = Ok n ->
  info v !! "STRANDS" = None ->
  ci_span v "CIPOS" = Some (a, b) ->
  ci_span v "CIEND" = Some (c, d) ->
  convert (Some v) secondary
  = Ok (mkBedpe (chrom v) (PInt (Z.max (p + a) 0)) (PInt (Z.max (p + b) 0))
          (chrom v) (PInt (Z.max (n + c) 0)) (PInt (Z.max (n + d) 0))
          (default (PStr (var_id v)) (info v !! "EVENT"))
          (qual v) "+" "+" t (filter v) (InfoString v) Dot v).
Proof.
  intros Ht Hbnd Hp He Hn Hst Hcipos Hciend.
  pose proof (adjust_coordinate_offsets v "CIPOS" p p a b Hcipos) as H1.
  pose proof (adjust_coordinate_offsets v "CIEND" n n c d Hciend) as H2.
  unfold convert. cbn -[eq_str adjust_coordinate simple_breakpoints].
  rewrite Ht. cbn -[eq_str adjust_coordinate simple_breakpoints].
  rewrite Hbnd. unfold simple_breakpoints. rewrite He, Hn, Hst, Hp.
  cbn -[eq_str adjust_coordinate]. rewrite H1.
  cbn -[eq_str adjust_coordinate]. rewrite H2.
  cbn -[eq_str adjust_coordinate].
  destruct (info v !! "EVENT"); reflexivity.
Qed.

Lemma convert_simple_record_witness :
  exists b : bedpe_fields,
    convert (Some simple_del) None = Ok b
    /\ s1 b = PInt 0 /\ e1 b = PInt 110 /\ s2 b = PInt 195 /\ e2 b = PInt 205.
Proof.
  eexists. split.
  - apply (convert_simple_record simple_del None (PStr "DEL") (PStr "200")
             100 200 (-150) 10 (-5) 5); reflexivity.
  - simpl. auto.
Defined.

(** X9.  A variant converted as the secondary one alone gives the record of
    its conversion as the primary one with the two ends exchanged
    (chromosome, start, end and orientation) and MISSING as first INFO
    column; name, type, quality and filter are the same. *)
Theorem convert_secondary_alone (v : Variant) (b : bedpe_fields) :
  convert (Some v) None = Ok b ->
  exists b' : bedpe_fields,
    convert None (Some v) = Ok b'
    /\ c1 b' = c2 b /\ s1 b' = s2 b /\ e1 b' = e2 b /\ o1 b' = o2 b
    /\ c2 b' = c1 b /\ s2 b' = s1 b /\ e2 b' = e1 b /\ o2 b' = o1 b
    /\ info_a b' = Missing
    /\ name b' = name b /\ sv_type b' = sv_type b
    /\ b_qual b' = b_qual b /\ b_filter b' = b_filter b.
Proof.
  unfold convert. simpl. intros H.
  destruct (info v !! "SVTYPE") as [t|]; [|discriminate]. simpl in *.
  destruct (if eq_str t "BND" then bnd_breakpoints v else simple_breakpoints v)
    as [[bp v']|x]; [|discriminate]. simpl in *.
  destruct (adjust_coordinate v' "CIPOS" (bp_s1 bp) (bp_e1 bp))
    as [[x1 y1]|x]; [|discriminate]. simpl in *.
  destruct (adjust_coordinate v' "CIEND" (bp_s2 bp) (bp_e2 bp))
    as [[x2 y2]|x]; [|discriminate]. simpl in *.
  injection H as <-. eexists. split; [reflexivity|]. simpl. auto 20.
Qed.

Lemma convert_secondary_alone_witness :
  exists b' : bedpe_fields,
    convert None (Some simple_del) = Ok b'
    /\ s1 b' = PInt 195 /\ s2 b' = PInt 0 /\ info_a b' = Missing.
Proof.
  destruct (convert (Some simple_del) None) as [b|x] eqn:Hb;
    [|vm_compute in Hb; discriminate].
  destruct (convert_secondary_alone simple_del b Hb)
    as (b' & Hb' & _ & Hs1 & _ & _ & _ & Hs2 & _ & _ & Hi & _).
  exists b'. split; [exact Hb'|].
  vm_compute in Hb. injection Hb as <-. auto.
Defined.

(** ** The driver: what the loop of [sv_classify] does not depend on *)

Lemma for_each_ext {A B : Type} (f g : A -> result B) (l : list A) :
  (forall x, f x = g x) -> for_each f l = for_each g l.
Proof.
  intros Hfg. induction l as [|x l IH]; simpl; [reflexivity|].
  rewrite Hfg, IH. reflexivity.
Qed.

Section Gender.
Context {F : Type} `{Float F} `{Libm F} `{Regression F}.
Variables (g1 g2 : gmap string Z) (exclude : list string).
Variables (f_overlap slope_threshold rsquared_threshold : F).
Variables (het_del_fit hom_del_fit : ols_fit F) (params : list (param_row F)).

Lemma sample_cn_autosome (var : Variant) (s : string) :
  on_sex_chrom var = false -> sample_cn (F := F) var g1 s = sample_cn var g2 s.
Proof. intros Hsex. unfold sample_cn. rewrite Hsex. reflexivity. Qed.

Lemma cn_by_genotype_autosome (var : Variant) (ss : list string)
    (acc : list F * list F * list F) :
  on_sex_chrom var = false ->
  cn_by_genotype var g1 exclude ss acc = cn_by_genotype var g2 exclude ss acc.
Proof.
  intros Hsex. revert acc. induction ss as [|s ss IH]; intros acc; simpl.
  - reflexivity.
  - destruct (contains exclude s); [apply IH|].
    rewrite (sample_cn_autosome var s Hsex).
    destruct (sample_cn var g2 s) as [cn|e]; simpl; [|reflexivity].
    destruct (get_format var s "GT") as [gt|e]; simpl; [|reflexivity].
    destruct acc as [[a b] c]. apply IH.
Qed.

Lemma low_freq_autosome (var : Variant) :
  on_sex_chrom var = false ->
  has_low_freq_depth_support (F := F) var g1 exclude
  = has_low_freq_depth_support var g2 exclude.
Proof.
  intros Hsex. unfold has_low_freq_depth_support.
  rewrite (cn_by_genotype_autosome var _ _ Hsex). reflexivity.
Qed.

Lemma high_freq_autosome (var : Variant) :
  on_sex_chrom var = false ->
  has_high_freq_depth_support var g1 exclude slope_threshold rsquared_threshold
  = has_high_freq_depth_support var g2 exclude slope_threshold rsquared_threshold.
Proof.
  intros Hsex. unfold has_high_freq_depth_support.
  rewrite (for_each_ext (sample_cn var g1) (sample_cn var g2))
    by (intros s; apply sample_cn_autosome; exact Hsex).
  reflexivity.
Qed.

Lemma depth_classify_gender (line svtype : string) (var : Variant) :
  depth_classify g1 exclude slope_threshold rsquared_threshold het_del_fit
    hom_del_fit params line svtype var
  = depth_classify g2 exclude slope_threshold rsquared_threshold het_del_fit
      hom_del_fit params line svtype var.
Proof.
  unfold depth_classify. destruct (on_sex_chrom var) eqn:Hsex; [reflexivity|].
  rewrite (low_freq_autosome var Hsex), (high_freq_autosome var Hsex).
  reflexivity.
Qed.

Lemma classify_line_gender (Variant_new : list string -> result Variant)
    (line : string) (ae_dict : option (gmap string (list feature))) :
  classify_line g1 exclude f_overlap slope_threshold rsquared_threshold
    het_del_fit hom_del_fit params Variant_new line ae_dict
  = classify_line g2 exclude f_overlap slope_threshold rsquared_threshold
      het_del_fit hom_del_fit params Variant_new line ae_dict.
Proof.
  unfold classify_line, classify_record.
  destruct (svtype_of_line line) as [[t|]|e]; simpl; try reflexivity.
  destruct (contains ["DEL"; "DUP"] t); [|reflexivity].
  destruct (Variant_new _) as [var|e]; simpl; [|reflexivity].
  destruct (mei_check f_overlap var ae_dict) as [[[ae|] d]|e]; simpl;
    try reflexivity.
  rewrite depth_classify_gender. reflexivity.
Qed.

Lemma run_gender (Variant_new : list string -> result Variant)
    (lines : list string) (st : loop_state) :
  run g1 exclude f_overlap slope_threshold rsquared_threshold het_del_fit
    hom_del_fit params Variant_new st lines
  = run g2 exclude f_overlap slope_threshold rsquared_threshold het_del_fit
      hom_del_fit params Variant_new st lines.
Proof.
  revert st. induction lines as [|line lines IH]; intros st; simpl.
  - reflexivity.
  - unfold step. rewrite classify_line_gender.
    destruct (in_header st && startswith line "#"); simpl; [apply IH|].
    destruct (classify_line g2 _ _ _ _ _ _ _ _ line (ae_dict st)); simpl;
      [apply IH|reflexivity].
Qed.

(** X10.  What [sv_classify] writes, and whether it raises, does not depend
    on the content of the gender map: a record on X or Y leaves the loop
    before the read-depth tests, and on any other chromosome the tests do
    not look the sample up. *)
Theorem gender_is_not_consulted (Variant_new : list string -> result Variant)
    (vcf_in : list string) (ae_dict : option (gmap string (list feature))) :
  sv_classify g1 exclude f_overlap slope_threshold rsquared_threshold
    het_del_fit hom_del_fit params Variant_new vcf_in ae_dict
  = sv_classify g2 exclude f_overlap slope_threshold rsquared_threshold
      het_del_fit hom_del_fit params Variant_new vcf_in ae_dict.
Proof. unfold sv_classify. apply run_gender. Qed.

End Gender.

Section Lines.
Context {F : Type} `{Float F} `{Libm F} `{Regression F}.
Variables (gender : gmap string Z) (exclude : list string).
Variables (f_overlap slope_threshold rsquared_threshold : F).
Variables (het_del_fit hom_del_fit : ols_fit F) (params : list (param_row F)).
Variable Variant_new : list string -> result Variant.

Let run_lines := run gender exclude f_overlap slope_threshold
                   rsquared_threshold het_del_fit hom_del_fit params
                   Variant_new.

Lemma run_header (lines h : list string)
    (ae : option (gmap string (list feature))) (o : list written)
    (d : list diag_row) :
  Forall (fun l => startswith l "#" = true) lines ->
  run_lines (mkLoop true h ae o d) lines
  = Ok (mkLoop true (h ++ lines)%list ae o d).
Proof.
  intros Hl. revert h. induction Hl as [|l lines Hl _ IH]; intros h.
  - simpl. rewrite app_nil_r. reflexivity.
  - unfold run_lines in *. simpl. unfold step. simpl. rewrite Hl. simpl.
    rewrite IH, <- app_assoc. reflexivity.
Qed.

Lemma classify_line_not_a_candidate (line : string)
    (ae : option (gmap string (list feature))) :
  not_a_candidate line = true ->
  classify_line gender exclude f_overlap slope_threshold rsquared_threshold
    het_del_fit hom_del_fit params Variant_new line ae
  = Ok (mkOutcome [WLine line] None ae).
Proof.
  unfold not_a_candidate, classify_line.
  destruct (svtype_of_line line) as [[t|]|e]; simpl; try discriminate;
    [|reflexivity].
  destruct (contains ["DEL"; "DUP"] t); [discriminate|reflexivity].
Qed.

Lemma run_pass_through (lines h : list string)
    (ae : option (gmap string (list feature))) (o : list written)
    (d : list diag_row) :
  Forall (fun l => not_a_candidate l = true) lines ->
  run_lines (mkLoop false h ae o d) lines
  = Ok (mkLoop false h ae (o ++ map WLine lines)%list d).
Proof.
  intros Hl. revert o. induction Hl as [|l lines Hl _ IH]; intros o.
  - simpl. rewrite app_nil_r. reflexivity.
  - unfold run_lines in *. simpl. unfold step. simpl.
    rewrite (classify_line_not_a_candidate l ae Hl). simpl.
    rewrite app_nil_r, IH, <- app_assoc. reflexivity.
Qed.

Lemma run_app (l1 l2 : list string) (st : loop_state) :
  run_lines st (l1 ++ l2)%list = run_lines st l1 ≫= fun st' => run_lines st' l2.
Proof.
  revert st. induction l1 as [|l l1 IH]; intros st.
  - reflexivity.
  - unfold run_lines in *. simpl.
    destruct (step _ _ _ _ _ _ _ _ _ st l) as [st'|e]; simpl;
      [apply IH|reflexivity].
Qed.

(** X11.  An input of header lines only leaves the output empty: the
    header is written when the first line that does not start with [#] is
    read, and not at the end of the input. *)
Theorem header_alone_is_not_written (vcf_in : list string)
    (ae : option (gmap string (list feature))) :
  Forall (fun l => startswith l "#" = true) vcf_in ->
  sv_classify gender exclude f_overlap slope_threshold rsquared_threshold
    het_del_fit hom_del_fit params Variant_new vcf_in ae
  = Ok (mkLoop true vcf_in ae [] []).
Proof.
  intros Hl. unfold sv_classify. apply (run_header vcf_in [] ae [] [] Hl).
Qed.

(** X12.  When no line after the header is a DEL or DUP candidate, the
    output is the header followed by these lines as they were read, in
    their order; no record is parsed, nothing goes to the diagnostic file
    and the annotation index is left as it was.  A line that starts with
    [#] after the first data line is treated as a data line. *)
Theorem other_types_pass_through (head : list string) (first : string)
    (rest : list string) (ae : option (gmap string (list feature))) :
  Forall (fun l => startswith l "#" = true) head ->
  startswith first "#" = false ->
  Forall (fun l => not_a_candidate l = true) (first :: rest) ->
  sv_classify gender exclude f_overlap slope_threshold rsquared_threshold
    het_del_fit hom_del_fit params Variant_new (head ++ first :: rest)%list ae
  = Ok (mkLoop false head ae (WHeader head :: map WLine (first :: rest)) []).
Proof.
  intros Hh Hf Hl. unfold sv_classify.
  change (run_lines (mkLoop true [] ae [] []) (head ++ first :: rest)%list
          = Ok (mkLoop false head ae
                  (WHeader head :: map WLine (first :: rest)) [])).
  rewrite run_app, (run_header head [] ae [] [] Hh). simpl.
  unfold run_lines. simpl. unfold step. simpl. rewrite Hf. simpl.
  rewrite (classify_line_not_a_candidate first ae (Forall_inv Hl)). simpl.
  apply (run_pass_through rest head ae [WHeader head; WLine first] []
           (Forall_inv_tail Hl)).
Qed.

End Lines.

Lemma header_alone_is_not_written_witness :
  sv_classify (F := PrimFloat.float) ∅ [] f_overlap_default
    slope_threshold_default rsquared_threshold_default no_offset no_offset []
    (fun _ => Raise AttributeError) [header_line; header_line] None
  = Ok (mkLoop true [header_line; header_line] None [] []).
Proof.
  apply (header_alone_is_not_written (F := PrimFloat.float)).
  repeat constructor.
Defined.

Lemma other_types_pass_through_witness :
  sv_classify (F := PrimFloat.float) ∅ [] f_overlap_default
    slope_threshold_default rsquared_threshold_default no_offset no_offset []
    (fun _ => Raise AttributeError) [header_line; bnd_line; inv_line] None
  = Ok (mkLoop false [header_line] None
          [WHeader [header_line]; WLine bnd_line; WLine inv_line] []).
Proof.
  apply (other_types_pass_through (F := PrimFloat.float) ∅ [] f_overlap_default
           slope_threshold_default rsquared_threshold_default no_offset
           no_offset [] (fun _ => Raise AttributeError) [header_line] bnd_line
           [inv_line] None).
  - repeat constructor.
  - reflexivity.
  - repeat constructor.
Defined.

(** ** The diagnostic line of a rewritten variant *)

Lemma to_bnd_strings_ids (var : Variant) (fixed_gts : bool)
    (m1 m2 : var_string) :
  to_bnd_strings var fixed_gts = Ok (m1, m2) ->
  var_id (vs_var m1) = var_id var ++ "_1"
  /\ var_id (vs_var m2) = var_id var ++ "_2"
  /\ info (vs_var m1) !! "MATEID" = Some (PStr (var_id var ++ "_2"))
  /\ info (vs_var m2) !! "MATEID" = Some (PStr (var_id var ++ "_1"))
  /\ info (vs_var m1) !! "EVENT" = Some (PStr (var_id var))
  /\ info (vs_var m2) !! "EVENT" = Some (PStr (var_id var)).
Proof.
  intros Hb.
  destruct (to_bnd_strings_outcome var fixed_gts)
    as [[Hall _]|(k & _ & _ & Hr)]; [|congruence].
  unfold bnd_required in Hall.
  repeat match goal with
         | H : Forall _ (_ :: _) |- _ =>
             let Hx := fresh "Hx" in
             apply Forall_cons in H; destruct H as [[? Hx] H]
         end.
  revert Hb. unfold to_bnd_strings.
  repeat match goal with
         | H : info var !! _ = Some _ |- _ =>
             rewrite (getitem_Some _ _ _ H)
         end.
  simpl.
  rewrite del_info_Some by (simpl; rewrite !lookup_insert_ne by done; eauto).
  simpl.
  rewrite del_info_Some
    by (simpl; rewrite lookup_delete_ne, !lookup_insert_ne by done; eauto).
  simpl.
  assert (Hev : forall ev : pyval,
            delete "END" (delete "SVLEN"
              (<["EVENT":=ev]> (<["SVTYPE":=PStr "BND"]> (info var))))
            !! "EVENT" = Some ev).
  { intros ev. rewrite !lookup_delete_ne by done. apply lookup_insert_eq. }
  match goal with
  | |- context [eq_str ?t "DEL"] => destruct (eq_str t "DEL")
  end; intros Hb; injection Hb as <- <-; simpl;
    (split; [reflexivity|]); (split; [reflexivity|]);
    (split; [apply lookup_insert_eq|]);
    (split; [rewrite !lookup_insert_ne by done; apply lookup_insert_eq|]);
    (split; [rewrite lookup_insert_ne by done; apply Hev
            |rewrite !lookup_insert_ne by done; apply Hev]).
Qed.

Section Diagnostics.
Context {F : Type} `{Float F} `{Libm F} `{Regression F}.
Variables (gender : gmap string Z) (exclude : list string).
Variables (slope_threshold rsquared_threshold : F).
Variables (het_del_fit hom_del_fit : ols_fit F) (params : list (param_row F)).

(** X13.  Whenever the read-depth part of the loop returns, it has either
    written the line as it was read, with a diagnostic line under the id of
    the record unless the record is on X or Y, which has none; or it has
    written the two breakends of [to_bnd_strings], and then the diagnostic
    line carries the id of the second breakend, the record having been
    renamed in place, and reports no high- and no low-frequency support. *)
Theorem diagnostic_line_of_rewritten_variant (line svtype : string)
    (var : Variant) (lines : list written) (d : option diag_row) :
  depth_classify gender exclude slope_threshold rsquared_threshold het_del_fit
    hom_del_fit params line svtype var = Ok (lines, d) ->
  (lines = [WLine line]
   /\ (d = None <-> on_sex_chrom var = true)
   /\ forall r, d = Some r -> d_var_id r = var_id var /\ d_svtype r = svtype)
  \/ (exists (m1 m2 : var_string) (r : diag_row),
        to_bnd_strings var true = Ok (m1, m2)
        /\ lines = [WVar m1; WVar m2]
        /\ on_sex_chrom var = false
        /\ d = Some r
        /\ d_var_id r = var_id var ++ "_2"
        /\ d_svtype r = svtype
        /\ d_high_freq_support r = false
        /\ d_low_freq_support r = false).
Proof.
  unfold depth_classify, write_bnd.
  destruct (on_sex_chrom var) eqn:Hsex.
  { intros Hd. injection Hd as <- <-. left. split; [reflexivity|].
    split; [tauto|]. discriminate. }
  assert (Hkeep : forall n a b c,
            [WLine line] = [WLine line]
            /\ (Some (mkDiag (var_id var) svtype n a b c) = None <-> false = true)
            /\ forall r, Some (mkDiag (var_id var) svtype n a b c) = Some r ->
                         d_var_id r = var_id var /\ d_svtype r = svtype).
  { intros n a b c. split; [reflexivity|]. split.
    - split; discriminate.
    - intros r Hr. injection Hr as <-. split; reflexivity. }
  intros Hd. bind_as Hd n Hn.
  destruct (n =? 0)%nat.
  { injection Hd as <- <-. left. apply Hkeep. }
  bind_as Hd nb Hnb.
  assert (Hbnd :
            ('(lines0, var') ←
               ('(var1, var2) ← to_bnd_strings var true;
                Ok ([WVar var1; WVar var2], vs_var var2));
             Ok (lines0, Some (mkDiag (var_id var') svtype n nb false false)))
            = Ok (lines, d) ->
            exists (m1 m2 : var_string) (r : diag_row),
              to_bnd_strings var true = Ok (m1, m2)
              /\ lines = [WVar m1; WVar m2]
              /\ false = false
              /\ d = Some r
              /\ d_var_id r = var_id var ++ "_2"
              /\ d_svtype r = svtype
              /\ d_high_freq_support r = false
              /\ d_low_freq_support r = false).
  { intros Hw.
    destruct (to_bnd_strings var true) as [[m1 m2]|e] eqn:Hto;
      [|discriminate].
    simpl in Hw. injection Hw as <- <-.
    destruct (to_bnd_strings_ids var true m1 m2 Hto) as (_ & Hid & _).
    exists m1, m2, (mkDiag (var_id (vs_var m2)) svtype n nb false false).
    simpl. auto 10. }
  destruct (n <? min_pos_samps_for_regression)%nat.
  - bind_as Hd low Hlow. destruct low.
    + injection Hd as <- <-. left. apply Hkeep.
    + right. apply (Hbnd Hd).
  - bind_as Hd high Hhigh. destruct high.
    + injection Hd as <- <-. left. apply Hkeep.
    + right. apply (Hbnd Hd).
Qed.

End Diagnostics.

Lemma diagnostic_line_of_rewritten_variant_witness :
  exists (lines : list written) (r : diag_row),
    depth_classify (F := PrimFloat.float) ∅ [] slope_threshold_default
      rsquared_threshold_default no_offset no_offset [] some_line "DEL"
      flat_del = Ok (lines, Some r)
    /\ d_var_id r = "7_2".
Proof.
  destruct (depth_classify (F := PrimFloat.float) ∅ [] slope_threshold_default
              rsquared_threshold_default no_offset no_offset [] some_line "DEL"
              flat_del) as [[lines d]|e] eqn:Hd;
    [|vm_compute in Hd; discriminate].
  destruct (diagnostic_line_of_rewritten_variant (F := PrimFloat.float) ∅ []
              slope_threshold_default rsquared_threshold_default no_offset
              no_offset [] some_line "DEL" flat_del lines d Hd)
    as [(Hl & _ & _)|(m1 & m2 & r & _ & _ & _ & Hr & Hid & _)].
  - vm_compute in Hd. injection Hd as <- <-. discriminate.
  - exists lines, r. rewrite Hr. split; [reflexivity|exact Hid].
Defined.

(** ** What the high-frequency test needs *)

Lemma for_each_length {A B : Type} (f : A -> result B) (l : list A)
    (ys : list B) :
  for_each f l = Ok ys -> length ys = length l.
Proof.
  revert ys. induction l as [|x l IH]; intros ys; simpl.
  - intros Hy. injection Hy as <-. reflexivity.
  - intros Hy. bind_as Hy y Hfx. bind_as Hy ys' Hfl.
    injection Hy as <-. simpl. rewrite (IH ys' Hfl). reflexivity.
Qed.

Lemma more_than_one_unique_length {F} `{Float F} (xs : list F) :
  Np.more_than_one_unique xs = true -> (2 <= length xs)%nat.
Proof.
  destruct xs as [|x [|y xs]]; simpl; try discriminate. lia.
Qed.

Section HighFrequency.
Context {F : Type} `{Float F} `{Regression F}.

(** X14.  The high-frequency test supports a variant only if CN is among the
    FORMAT fields of the record, the record has at least two samples, two of
    which have an allele balance, and INFO has an SVTYPE entry. *)
Theorem high_freq_support_needs (var : Variant) (gender : gmap string Z)
    (exclude : list string) (slope_threshold rsquared_threshold : F) :
  has_high_freq_depth_support var gender exclude slope_threshold
    rsquared_threshold = Ok true ->
  contains (active_formats var) "CN" = true
  /\ (2 <= length (sample_list var))%nat
  /\ (exists ab_list,
        for_each (sample_ab var) (sample_list var) = Ok ab_list
        /\ (2 <= length (List.filter
                           (fun ab => negb (ab =? float_of_Z (-1))%flt)
                           ab_list))%nat)
  /\ is_Some (info var !! "SVTYPE").
Proof.
  unfold has_high_freq_depth_support.
  destruct (contains (active_formats var) "CN"); [|discriminate].
  intros Hs. bind_as Hs ab_list Hab. bind_as Hs rd_list Hrd.
  pose proof (for_each_length _ _ _ Hab) as Lab.
  pose proof (for_each_length _ _ _ Hrd) as Lrd.
  set (keep := fun c : F * F => negb (c.1 =? float_of_Z (-1))%flt) in *.
  destruct (Np.more_than_one_unique (map fst (List.filter keep (zip ab_list rd_list))))
    eqn:Hu1; [|discriminate].
  apply more_than_one_unique_length in Hu1.
  assert (Hfst : map fst (List.filter keep (zip ab_list rd_list))
                 = List.filter (fun ab => negb (ab =? float_of_Z (-1))%flt)
                     ab_list).
  { assert (Hlen : length ab_list = length rd_list) by congruence.
    clear -Hlen. revert rd_list Hlen.
    induction ab_list as [|a l IH]; intros [|r rd] Hlen; try discriminate.
    - reflexivity.
    - simpl. unfold keep at 1. simpl.
      destruct (negb (a =? float_of_Z (-1))%flt); simpl;
        rewrite (IH rd) by (simpl in Hlen; lia); reflexivity. }
  rewrite Hfst in Hu1.
  split; [reflexivity|]. split.
  { rewrite <- Lab.
    pose proof (filter_length_le
                  (fun ab => negb (ab =? float_of_Z (-1))%flt) ab_list) as Hle.
    lia. }
  split; [exists ab_list; split; [exact Hab|exact Hu1]|].
  simpl in Hs.
  destruct (Np.more_than_one_unique _); simpl in Hs; [|discriminate].
  destruct (linregress _ _) as [slope r_value].
  destruct (_ <? rsquared_threshold)%flt; [discriminate|].
  unfold getitem in Hs. destruct (info var !! "SVTYPE"); [eauto|discriminate].
Qed.

End HighFrequency.

Lemma high_freq_support_needs_witness :
  exists ab_list : list PrimFloat.float,
    for_each (sample_ab (two_sample_del "0" "2")) ["NA1"; "NA2"] = Ok ab_list
    /\ (2 <= length (List.filter
                       (fun ab => negb (ab =? float_of_Z (-1))%flt)
                       ab_list))%nat.
Proof.
  apply (high_freq_support_needs (F := PrimFloat.float)
           (two_sample_del "0" "2") ∅ ["NA2"] slope_threshold_default
           rsquared_threshold_default).
  vm_compute. reflexivity.
Defined.

(** ** Class names of the annotation *)

Lemma index_short {A : Type} (l : list A) (i : nat) :
  (length l <= i)%nat -> index l i = Raise IndexError.
Proof.
  intros Hl. unfold index. rewrite (lookup_ge_None_2 l i Hl). reflexivity.
Qed.

Section ClassNames.
Context {F : Type} `{Float F} `{Libm F} `{Regression F}.
Variables (gender : gmap string Z) (exclude : list string).
Variables (f_overlap slope_threshold rsquared_threshold : F).
Variables (het_del_fit hom_del_fit : ols_fit F) (params : list (param_row F)).

(** X15.  When the mobile-element check finds a class whose name starts
    with neither SINE nor LINE and has fewer than two [|] separators, the
    loop raises [IndexError] on the record: the third field of the name is
    read without a test that it exists. *)
Theorem short_class_name_raises (line svtype : string) (var : Variant)
    (ae_dict ae_dict' : option (gmap string (list feature))) (ae : string) :
  mei_check f_overlap var ae_dict = Ok (Some ae, ae_dict') ->
  startswith ae "SINE" = false -> startswith ae "LINE" = false ->
  (length (split_on "|" ae) < 3)%nat ->
  classify_record gender exclude f_overlap slope_threshold rsquared_threshold
    het_del_fit hom_del_fit params line svtype var ae_dict
  = Raise IndexError.
Proof.
  intros Hmei Hsine Hline Hlen. unfold classify_record. rewrite Hmei. simpl.
  unfold to_mei. rewrite Hsine, Hline. simpl.
  rewrite index_short by lia. reflexivity.
Qed.

End ClassNames.

Lemma short_class_name_raises_witness :
  classify_record (F := PrimFloat.float) ∅ [] f_overlap_default
    slope_threshold_default rsquared_threshold_default no_offset no_offset []
    some_line "DEL" del_on_X (Some dna_index)
  = Raise IndexError.
Proof.
  apply (short_class_name_raises (F := PrimFloat.float) ∅ [] f_overlap_default
           slope_threshold_default rsquared_threshold_default no_offset
           no_offset [] some_line "DEL" del_on_X (Some dna_index)
           (Some dna_index) "DNA").
  - vm_compute. reflexivity.
  - reflexivity.
  - reflexivity.
  - vm_compute. lia.
Defined.

(** ** The annotation index *)

Lemma add_to_class_listed (c : string) (i : nat)
    (co : list (string * list nat)) (cls : string) (j : nat) :
  listed (add_to_class c i co) cls j <-> listed co cls j \/ (cls = c /\ j = i).
Proof.
  unfold listed. induction co as [|[c0 l] co IH]; simpl.
  - split.
    + intros (idxs & [Heq|[]] & Hj). injection Heq as <- <-.
      destruct Hj as [<-|[]]. right. auto.
    + intros [(idxs & [] & _)|[-> ->]]. exists [i]. simpl. auto.
  - destruct (String.eqb_spec c0 c) as [->|Hne]; simpl.
    + split.
      * intros (idxs & [Heq|Hin] & Hj).
        -- injection Heq as <- <-. apply in_app_or in Hj.
           destruct Hj as [Hj|[<-|[]]]; [left; exists l; auto|right; auto].
        -- left. exists idxs. auto.
      * intros [(idxs & [Heq|Hin] & Hj)|[-> ->]].
        -- injection Heq as <- <-. exists (l ++ [i])%list.
           split; [auto|]. apply in_or_app. auto.
        -- exists idxs. auto.
        -- exists (l ++ [i])%list. split; [auto|].
           apply in_or_app. simpl. auto.
    + split.
      * intros (idxs & [Heq|Hin] & Hj).
        -- left. exists idxs. auto.
        -- destruct (proj1 IH (ex_intro _ idxs (conj Hin Hj)))
             as [(idxs' & Hin' & Hj')|Hnew]; [|right; exact Hnew].
           left. exists idxs'. auto.
      * intros [(idxs & [Heq|Hin] & Hj)|Hnew].
        -- exists idxs. auto.
        -- destruct (proj2 IH (or_introl (ex_intro _ idxs (conj Hin Hj))))
             as (idxs' & Hin' & Hj'). exists idxs'. auto.
        -- destruct (proj2 IH (or_intror Hnew)) as (idxs' & Hin' & Hj').
           exists idxs'. auto.
Qed.

Lemma scan_features_listed (fs : list feature) (i0 : nat) (vs ve : Z)
    (co : list (string * list nat)) (cls : string) (i : nat) :
  listed (scan_features fs i0 vs ve co) cls i
  <-> listed co cls i
      \/ (exists f, (i0 <= i)%nat /\ fs !! (i - i0)%nat = Some f
                    /\ f_class f = cls /\ vs < f_end f
                    /\ forall j g, (j <= i - i0)%nat -> fs !! j = Some g ->
                                   f_start g < ve).
Proof.
  revert i0 co. induction fs as [|f fs IH]; intros i0 co; simpl.
  - split; [auto|]. intros [Hco|(f & _ & Hf & _)]; [exact Hco|discriminate].
  - rewrite Z.sub_0_r, Z.add_0_r, Z.gtb_ltb.
    destruct (Z.ltb_spec (f_start f) ve) as [Hs|Hs].
    + rewrite IH. clear IH.
      assert (Hco : listed (if vs <? f_end f
                            then add_to_class (f_class f) i0 co else co) cls i
                    <-> listed co cls i
                        \/ (vs < f_end f /\ cls = f_class f /\ i = i0)).
      { destruct (Z.ltb_spec vs (f_end f)) as [He|He].
        - rewrite add_to_class_listed. tauto.
        - split; [auto|]. intros [Hl|[Hlt _]]; [exact Hl|lia]. }
      rewrite Hco. clear Hco. split.
      * intros [[Hl|(He & -> & ->)]|(g & Hi & Hg & Hc & He & Hbefore)].
        -- left. exact Hl.
        -- right. exists f. rewrite Nat.sub_diag. simpl.
           repeat (split; [auto; lia|]).
           intros j g Hj Hg. assert (j = 0%nat) as -> by lia.
           simpl in Hg. injection Hg as <-. exact Hs.
        -- right. exists g. split; [lia|].
           replace (i - i0)%nat with (S (i - S i0)) by lia. simpl.
           repeat (split; [assumption|]).
           intros [|j] h Hj Hh; simpl in Hh.
           ++ injection Hh as <-. exact Hs.
           ++ apply (Hbefore j h); [lia|exact Hh].
      * intros [Hl|(g & Hi & Hg & Hc & He & Hbefore)]; [auto|].
        destruct (decide (i = i0)) as [->|Hne].
        -- rewrite Nat.sub_diag in Hg. simpl in Hg. injection Hg as <-.
           left. right. auto.
        -- right. exists g. split; [lia|].
           replace (i - i0)%nat with (S (i - S i0)) in Hg, Hbefore by lia.
           simpl in Hg. repeat (split; [assumption|]).
           intros j h Hj Hh. apply (Hbefore (S j) h); [lia|exact Hh].
    + split; [auto|]. intros [Hl|(g & _ & _ & _ & _ & Hbefore)]; [exact Hl|].
      specialize (Hbefore 0%nat f ltac:(lia) eq_refl). lia.
Qed.

(** X16.  The scan of the annotation lists a feature under a class exactly
    when it is of that class, ends after the start of the variant, and it
    and every feature before it in the index start before the end of the
    variant: the scan stops at the first feature that does not, so that a
    feature after it is missed when the index is not sorted by start. *)
Theorem scan_features_collects (store : list feature) (var_start var_end : Z)
    (cls : string) (i : nat) :
  listed (scan_features store 0 var_start var_end []) cls i
  <-> exists f, store !! i = Some f /\ f_class f = cls /\ var_start < f_end f
                /\ forall j g, (j <= i)%nat -> store !! j = Some g ->
                               f_start g < var_end.
Proof.
  rewrite scan_features_listed, Nat.sub_0_r. split.
  - intros [(idxs & [] & _)|(f & _ & Hf)]. exists f. exact Hf.
  - intros (f & Hf). right. exists f. split; [lia|exact Hf].
Qed.

(** ** Collapsing the features of a class *)

Lemma start_of_alter (store : list feature) (e : Z) (i j : nat) :
  start_of (alter (set_end e) i store) j = start_of store j.
Proof.
  unfold start_of. rewrite list_lookup_alter.
  destruct (decide (i = j)) as [->|Hne]; [|reflexivity].
  destruct (store !! j); reflexivity.
Qed.

Lemma end_of_alter_ne (store : list feature) (e : Z) (i j : nat) :
  i <> j -> end_of (alter (set_end e) i store) j = end_of store j.
Proof. intros Hne. unfold end_of. rewrite list_lookup_alter_ne by exact Hne. reflexivity. Qed.

Lemma end_of_alter_eq (store : list feature) (e : Z) (i : nat) :
  end_of (alter (set_end e) i store) i
  = match store !! i with Some _ => e | None => end_of store i end.
Proof.
  unfold end_of. rewrite list_lookup_alter_eq.
  destruct (store !! i); reflexivity.
Qed.

Lemma alter_is_Some (store : list feature) (e : Z) (i j : nat) :
  is_Some (store !! j) -> is_Some (alter (set_end e) i store !! j).
Proof.
  rewrite !lookup_lt_is_Some, length_alter. auto.
Qed.

Lemma separated_snoc (l : list feature) (x : feature) :
  separated l ->
  (forall a, last l = Some a -> f_end a < f_start x) ->
  separated (l ++ [x]).
Proof.
  induction l as [|a l IH]; [simpl; auto|].
  destruct l as [|b l]; intros Hs Hlast.
  - simpl. split; [apply Hlast; reflexivity|exact I].
  - destruct Hs as [Hab Hs]. change (f_end a < f_start b /\ separated ((b :: l) ++ [x])).
    split; [exact Hab|]. apply IH; [exact Hs|].
    intros c Hc. apply Hlast. exact Hc.
Qed.

Lemma collapse_loop_separated (rest : list nat) (store : list feature)
    (curr : nat) (collapsed : list feature) :
  is_Some (store !! curr) ->
  Forall (fun i => is_Some (store !! i)) rest ->
  separated collapsed ->
  (forall a, last collapsed = Some a -> f_end a < start_of store curr) ->
  let r := (collapse_loop store curr rest collapsed).1 in
  separated r /\ r <> []
  /\ (length r <= length collapsed + S (length rest))%nat.
Proof.
  revert store curr collapsed.
  induction rest as [|next rest IH]; intros store curr collapsed Hcurr Hrest Hs Hlast.
  - destruct Hcurr as [f Hf]. simpl. rewrite Hf. simpl.
    split; [|split].
    + apply separated_snoc; [exact Hs|]. intros a Ha.
      specialize (Hlast a Ha). unfold start_of in Hlast. rewrite Hf in Hlast.
      exact Hlast.
    + intros Hnil. apply app_eq_nil in Hnil. destruct Hnil. discriminate.
    + rewrite length_app. simpl. lia.
  - apply Forall_cons in Hrest. destruct Hrest as [Hnext Hrest]. simpl.
    destruct (end_of store curr >=? start_of store next) eqn:Hge.
    + destruct (IH (alter (set_end (end_of store next)) curr store) curr
                  collapsed) as (H1 & H2 & H3).
      * apply alter_is_Some. exact Hcurr.
      * eapply Forall_impl; [exact Hrest|]. intros i Hi.
        apply alter_is_Some. exact Hi.
      * exact Hs.
      * intros a Ha. rewrite start_of_alter. apply Hlast. exact Ha.
      * split; [exact H1|]. split; [exact H2|lia].
    + destruct Hcurr as [f Hf]. rewrite Hf. simpl.
      destruct (IH store next (collapsed ++ [f])%list) as (H1 & H2 & H3).
      * exact Hnext.
      * exact Hrest.
      * apply separated_snoc; [exact Hs|]. intros a Ha.
        specialize (Hlast a Ha). unfold start_of in Hlast.
        rewrite Hf in Hlast. exact Hlast.
      * intros a Ha. rewrite last_snoc in Ha. injection Ha as <-.
        unfold Z.geb in Hge. unfold end_of in Hge. rewrite Hf in Hge.
        simpl in Hge.
        destruct (f_end f ?= start_of store next) eqn:Hc; try discriminate.
        apply Z.compare_lt_iff in Hc. exact Hc.
      * split; [exact H1|]. split; [exact H2|].
        rewrite length_app in H3. simpl in H3. lia.
Qed.

Lemma insert_by_end_perm (store : list feature) (i : nat) (l : list nat) :
  insert_by_end store i l ≡ₚ i :: l.
Proof.
  induction l as [|j l IH]; simpl; [reflexivity|].
  destruct (end_of store j <=? end_of store i); [|reflexivity].
  rewrite IH. apply Permutation_swap.
Qed.

Lemma fold_insert_perm (store : list feature) (l acc : list nat) :
  fold_left (fun acc i => insert_by_end store i acc) l acc ≡ₚ (l ++ acc)%list.
Proof.
  revert acc. induction l as [|i l IH]; intros acc; simpl; [reflexivity|].
  rewrite IH, insert_by_end_perm. symmetry. apply Permutation_middle.
Qed.

Lemma sort_by_end_perm (store : list feature) (l : list nat) :
  sort_by_end store l ≡ₚ l.
Proof.
  unfold sort_by_end. rewrite fold_insert_perm, app_nil_r. reflexivity.
Qed.

(** X17.  [collapse_bed_records] raises [IndexError] on an empty list and
    on no other; the records it returns are at least one and at most as
    many as the features, each of them ends before the next one starts. *)
Theorem collapse_bed_records_separated (store : list feature)
    (bed_list : list nat) :
  Forall (fun i => is_Some (store !! i)) bed_list ->
  match collapse_bed_records store bed_list with
  | Ok (collapsed, _) =>
      separated collapsed /\ collapsed <> []
      /\ (length collapsed <= length bed_list)%nat
  | Raise e => bed_list = [] /\ e = IndexError
  end.
Proof.
  intros Hvalid. unfold collapse_bed_records.
  pose proof (sort_by_end_perm store bed_list) as Hperm.
  destruct (sort_by_end store bed_list) as [|curr rest].
  - apply Permutation_nil in Hperm. auto.
  - rewrite <- Hperm in Hvalid. apply Forall_cons in Hvalid.
    destruct Hvalid as [Hcurr Hrest].
    destruct (collapse_loop_separated rest store curr [] Hcurr Hrest I)
      as (H1 & H2 & H3); [discriminate|].
    destruct (collapse_loop store curr rest []) as [collapsed store'].
    simpl in *. split; [exact H1|]. split; [exact H2|].
    rewrite <- (Permutation_length Hperm). simpl. lia.
Qed.

Lemma collapse_bed_records_separated_witness :
  exists l store',
    collapse_bed_records three_sines [0; 1; 2]%nat = Ok (l, store')
    /\ separated l /\ l <> [] /\ (length l <= 3)%nat.
Proof.
  pose proof (collapse_bed_records_separated three_sines [0; 1; 2]%nat) as Hc.
  destruct (collapse_bed_records three_sines [0; 1; 2]%nat) as [[l store']|e];
    [|destruct Hc as [Hnil _];
      [repeat constructor; vm_compute; eauto|discriminate]].
  exists l, store'. split; [reflexivity|]. apply Hc.
  repeat constructor; vm_compute; eauto.
Defined.

(** ** What a call leaves in the annotation index *)

Lemma grown_refl (store : list feature) : Forall2 grown store store.
Proof.
  induction store as [|f store IH]; constructor; [|exact IH].
  unfold grown. repeat split; lia.
Qed.

Lemma grown_trans (s1 s2 s3 : list feature) :
  Forall2 grown s1 s2 -> Forall2 grown s2 s3 -> Forall2 grown s1 s3.
Proof.
  intros H12. revert s3. induction H12 as [|a b s1 s2 Hab _ IH]; intros s3 H23.
  - inversion H23. constructor.
  - inversion H23 as [|b' c s2' s3' Hbc H23' E1 E2]; subst.
    constructor; [|apply IH; exact H23'].
    destruct Hab as (A1 & A2 & A3), Hbc as (B1 & B2 & B3).
    unfold grown. repeat split; [congruence|congruence|lia].
Qed.

Lemma insert_by_end_sorted (store : list feature) (i : nat) (l : list nat) :
  sorted_by_end store l -> sorted_by_end store (insert_by_end store i l).
Proof.
  induction l as [|j l IH]; simpl.
  - intros _. split; [constructor|exact I].
  - intros [Hj Hs].
    destruct (Z.leb_spec (end_of store j) (end_of store i)) as [Hle|Hlt]; simpl.
    + split; [|apply IH; exact Hs].
      rewrite insert_by_end_perm. constructor; [exact Hle|exact Hj].
    + split; [|split; assumption].
      constructor; [lia|]. eapply Forall_impl; [exact Hj|].
      intros k Hk. simpl in Hk. lia.
Qed.

Lemma sort_by_end_sorted (store : list feature) (l : list nat) :
  sorted_by_end store (sort_by_end store l).
Proof.
  unfold sort_by_end.
  assert (Hgen : forall acc, sorted_by_end store acc ->
            sorted_by_end store
              (fold_left (fun acc i => insert_by_end store i acc) l acc)).
  { induction l as [|i l IH]; intros acc Hacc; simpl; [exact Hacc|].
    apply IH, insert_by_end_sorted, Hacc. }
  apply Hgen. exact I.
Qed.

Lemma sorted_by_end_ext (s1 s2 : list feature) (l : list nat) :
  (forall j, In j l -> end_of s2 j = end_of s1 j) ->
  sorted_by_end s1 l -> sorted_by_end s2 l.
Proof.
  induction l as [|i l IH]; simpl; [auto|].
  intros Hext [Hi Hs]. split.
  - rewrite Forall_forall in *. intros j Hj.
    rewrite (Hext i (or_introl eq_refl)).
    rewrite (Hext j (or_intror (proj1 (list_elem_of_In _ _) Hj))).
    apply Hi. exact Hj.
  - apply IH; [|exact Hs]. intros j Hj. apply Hext. right. exact Hj.
Qed.

Lemma collapse_loop_grown (rest : list nat) (store : list feature)
    (curr : nat) (collapsed : list feature) :
  NoDup (curr :: rest) ->
  sorted_by_end store (curr :: rest) ->
  Forall2 grown store (collapse_loop store curr rest collapsed).2.
Proof.
  revert store curr collapsed.
  induction rest as [|next rest IH]; intros store curr collapsed Hnd Hs.
  - simpl. apply grown_refl.
  - simpl. destruct Hs as [Hcurr [Hnext Hs]].
    apply Forall_cons in Hcurr. destruct Hcurr as [Hcn Hcurr].
    apply NoDup_cons in Hnd. destruct Hnd as [Hnotin Hnd].
    apply not_elem_of_cons in Hnotin. destruct Hnotin as [Hne Hnotin].
    destruct (end_of store curr >=? start_of store next).
    + set (store' := alter (set_end (end_of store next)) curr store).
      apply (grown_trans store store').
      * apply Forall2_alter_r; [apply grown_refl|].
        intros x y Hx Hy (G1 & G2 & G3). unfold grown. simpl.
        repeat split; [exact G1|exact G2|].
        unfold end_of in Hcn at 1. rewrite Hx in Hcn. exact Hcn.
      * apply IH.
        -- apply NoDup_cons. split; [exact Hnotin|].
           apply NoDup_cons in Hnd. tauto.
        -- assert (Hother : forall j, In j rest ->
                     end_of store' j = end_of store j).
           { intros j Hj. apply end_of_alter_ne. intros ->.
             apply Hnotin. apply list_elem_of_In. exact Hj. }
           split.
           ++ rewrite Forall_forall in *. intros j Hj.
              rewrite (Hother j (proj1 (list_elem_of_In _ _) Hj)).
              unfold store'. rewrite end_of_alter_eq.
              destruct (store !! curr); [apply Hnext|apply Hcurr]; exact Hj.
           ++ apply (sorted_by_end_ext store); [exact Hother|exact Hs].
    + apply IH; [exact Hnd|]. split; assumption.
Qed.

Lemma collapse_bed_records_grown (store store' : list feature)
    (bed_list : list nat) (collapsed : list feature) :
  NoDup bed_list ->
  collapse_bed_records store bed_list = Ok (collapsed, store') ->
  Forall2 grown store store'.
Proof.
  intros Hnd. unfold collapse_bed_records.
  pose proof (sort_by_end_perm store bed_list) as Hperm.
  pose proof (sort_by_end_sorted store bed_list) as Hsorted.
  destruct (sort_by_end store bed_list) as [|curr rest]; [discriminate|].
  intros Hc. injection Hc as Hc.
  rewrite <- Hperm in Hnd.
  pose proof (collapse_loop_grown rest store curr [] Hnd Hsorted) as Hg.
  rewrite Hc in Hg. exact Hg.
Qed.

Lemma add_to_class_NoDup (c : string) (i : nat)
    (co : list (string * list nat)) :
  Forall (fun e => NoDup e.2 /\ Forall (fun j => (j < i)%nat) e.2) co ->
  Forall (fun e => NoDup e.2 /\ Forall (fun j => (j < S i)%nat) e.2)
    (add_to_class c i co).
Proof.
  assert (Hweak : forall l : list nat,
            Forall (fun j => (j < i)%nat) l -> Forall (fun j => (j < S i)%nat) l).
  { intros l Hl. eapply Forall_impl; [exact Hl|]. intros j Hj. simpl in Hj. lia. }
  induction co as [|[c0 l] co IH]; simpl; intros Hco.
  - constructor; [simpl; split|constructor].
    + apply NoDup_singleton.
    + constructor; [lia|constructor].
  - apply Forall_cons in Hco. destruct Hco as [[Hnd Hlt] Hco]. simpl in *.
    destruct (String.eqb c0 c).
    + constructor; simpl.
      * split.
        -- apply NoDup_app. split; [exact Hnd|]. split; [|apply NoDup_singleton].
           intros j Hj Hji. apply list_elem_of_singleton in Hji. subst j.
           rewrite Forall_forall in Hlt. specialize (Hlt i Hj). simpl in Hlt. lia.
        -- apply Forall_app. split; [apply Hweak; exact Hlt|].
           repeat constructor.
      * eapply Forall_impl; [exact Hco|]. intros e [He1 He2].
        split; [exact He1|apply Hweak; exact He2].
    + constructor; [simpl; split; [exact Hnd|apply Hweak; exact Hlt]|].
      apply IH. exact Hco.
Qed.

Lemma scan_features_NoDup (fs : list feature) (i0 : nat) (vs ve : Z)
    (co : list (string * list nat)) :
  Forall (fun e => NoDup e.2 /\ Forall (fun j => (j < i0)%nat) e.2) co ->
  Forall (fun e => NoDup e.2) (scan_features fs i0 vs ve co).
Proof.
  revert i0 co. induction fs as [|f fs IH]; intros i0 co Hco; simpl.
  - eapply Forall_impl; [exact Hco|]. intros e [He _]. exact He.
  - destruct (f_start f - 0 <? ve).
    + apply (IH (S i0)). destruct (f_end f + 0 >? vs).
      * apply add_to_class_NoDup. exact Hco.
      * eapply Forall_impl; [exact Hco|]. intros e [He1 He2].
        split; [exact He1|]. eapply Forall_impl; [exact He2|].
        intros j Hj. simpl in Hj. lia.
    + eapply Forall_impl; [exact Hco|]. intros e [He _]. exact He.
Qed.

Section Grown.
Context {F : Type} `{Float F}.

Lemma best_class_grown (a : Z * Z) (classes : list (string * list nat))
    (store store' : list feature) (best best' : F * string) :
  Forall (fun e => NoDup e.2) classes ->
  best_class a classes store best = Ok (best', store') ->
  Forall2 grown store store'.
Proof.
  revert store best. induction classes as [|[cls bed_list] classes IH];
    intros store best Hnd; simpl.
  - intros Hb. injection Hb as _ <-. apply grown_refl.
  - apply Forall_cons in Hnd. destruct Hnd as [Hnd1 Hnd]. simpl in Hnd1.
    intros Hb.
    destruct (collapse_bed_records store bed_list) as [[collapsed s1]|e] eqn:Hc;
      [|discriminate].
    simpl in Hb. apply (grown_trans store s1).
    + apply (collapse_bed_records_grown store s1 bed_list collapsed Hnd1 Hc).
    + apply (IH s1 _ Hnd Hb).
Qed.

(** X18.  A call of [annotation_intersect] that returns leaves the
    annotation index with the same chromosomes and, on each, the same
    features in the same order, except that on the chromosome of the
    variant the end of a feature can have moved to the right: merging the
    features of a class writes into the features of the index. *)
Theorem annotation_intersect_grows_features (var : Variant)
    (ae_dict ae_dict' : gmap string (list feature)) (threshold : F)
    (r : option string) :
  annotation_intersect var ae_dict threshold = Ok (r, ae_dict') ->
  forall c,
    option_Forall2 (Forall2 grown) (ae_dict !! c) (ae_dict' !! c)
    /\ (c <> chrom var -> ae_dict' !! c = ae_dict !! c).
Proof.
  unfold annotation_intersect. intros Ha c.
  assert (Hsame : option_Forall2 (Forall2 grown) (ae_dict !! c) (ae_dict !! c)).
  { destruct (ae_dict !! c); constructor. apply grown_refl. }
  destruct (ae_dict !! chrom var) as [store|] eqn:Hstore.
  - bind_as Ha var_start Hvs. bind_as Ha e He. bind_as Ha var_end Hve.
    destruct (best_class _ _ _ _) as [[[frac cls] store']|x] eqn:Hb;
      [|discriminate].
    simpl in Ha.
    assert (Hd : ae_dict' = <[chrom var := store']> ae_dict).
    { destruct (_ >=? threshold)%flt; injection Ha as _ <-; reflexivity. }
    subst ae_dict'.
    destruct (decide (c = chrom var)) as [->|Hne].
    + rewrite lookup_insert_eq, Hstore. split; [|congruence].
      constructor. apply (best_class_grown _ _ _ _ _ _ ltac:(
        apply (scan_features_NoDup store 0 var_start var_end []); constructor) Hb).
    + rewrite lookup_insert_ne by congruence. auto.
  - injection Ha as _ <-. auto.
Qed.

End Grown.

Lemma annotation_intersect_grows_features_witness :
  exists (r : option string) (d : gmap string (list feature)),
    annotation_intersect (F := PrimFloat.float) del_on_X sine_index
      f_overlap_default = Ok (r, d)
    /\ option_Forall2 (Forall2 grown) (sine_index !! "X") (d !! "X").
Proof.
  destruct (annotation_intersect (F := PrimFloat.float) del_on_X sine_index
              f_overlap_default) as [[r d]|e] eqn:Ha;
    [|vm_compute in Ha; discriminate].
  exists r, d. split; [reflexivity|].
  apply (annotation_intersect_grows_features del_on_X sine_index d
           f_overlap_default r Ha "X").
Defined.

(** ** Reading the annotation and the gender file *)

Lemma load_annotations_lookup (ae_bedfile : list string)
    (d0 d : gmap string (list feature)) (c : string) :
  load_annotations ae_bedfile d0 = Ok d ->
  default [] (d !! c) = (default [] (d0 !! c) ++ features_on c ae_bedfile)%list
  /\ (d !! c = None <-> d0 !! c = None /\ features_on c ae_bedfile = []).
Proof.
  revert d0. induction ae_bedfile as [|line rest IH]; intros d0.
  - intros Hd. injection Hd as <-. unfold features_on. simpl.
    rewrite app_nil_r. tauto.
  - unfold features_on. cbn [load_annotations omap list_omap]. unfold bed_row.
    destruct (split_on "009" (rstrip line)) as [|c0 [|s [|e [|cls tl]]]];
      try (intros Hd; apply (IH d0 Hd)).
    cbn [length Nat.ltb Nat.leb]. unfold index, int. simpl.
    destruct (int_of_string s) as [s'|]; simpl; [|discriminate].
    destruct (int_of_string e) as [e'|]; simpl; [|discriminate].
    intros Hd. apply IH in Hd. fold (features_on c rest).
    destruct Hd as [Hd1 Hd2].
    destruct (String.eqb_spec c0 c) as [->|Hne].
    + rewrite Hd1, Hd2. clear Hd1 Hd2.
      destruct (d0 !! c) as [fs|] eqn:Hc; rewrite lookup_insert_eq; simpl.
      * rewrite <- app_assoc. split; [reflexivity|].
        split; intros [Hx Hy]; (discriminate Hx || discriminate Hy).
      * split; [reflexivity|].
        split; intros [Hx Hy]; (discriminate Hx || discriminate Hy).
    + rewrite Hd1, Hd2. clear Hd1 Hd2.
      destruct (d0 !! c0) as [fs|] eqn:Hc;
        rewrite lookup_insert_ne by exact Hne; tauto.
Qed.

(** X21.  The annotation index that [main] builds from an empty
    dictionary has, for each chromosome, the features of the lines of that
    chromosome in the order of the file, lines of fewer than four columns
    being left out; a chromosome is a key exactly when it has a feature. *)
Theorem load_annotations_by_chromosome (ae_bedfile : list string)
    (ae_dict : gmap string (list feature)) (c : string) :
  load_annotations ae_bedfile ∅ = Ok ae_dict ->
  ae_dict !! c
  = match features_on c ae_bedfile with
    | [] => None
    | fs => Some fs
    end.
Proof.
  intros Hd. destruct (load_annotations_lookup _ _ _ c Hd) as [H1 H2].
  rewrite lookup_empty in H1, H2. simpl in H1.
  destruct (ae_dict !! c) as [fs|] eqn:Hc; simpl in H1.
  - rewrite <- H1. destruct fs; [|reflexivity].
    exfalso. assert (Hn : @None (list feature) = None /\ features_on c ae_bedfile = [])
      by (split; [reflexivity|symmetry; exact H1]).
    apply H2 in Hn. discriminate.
  - rewrite <- H1. reflexivity.
Qed.

Lemma load_annotations_by_chromosome_witness :
  exists d : gmap string (list feature),
    load_annotations
      [bed_line "1" "100" "150" "SINE"; bed_line "2" "5" "9" "LINE";
       "track"; bed_line "1" "150" "200" "SINE"] ∅ = Ok d
    /\ d !! "1" = Some [mkFeature 100 150 "SINE"; mkFeature 150 200 "SINE"]
    /\ d !! "3" = None.
Proof.
  destruct (load_annotations
              [bed_line "1" "100" "150" "SINE"; bed_line "2" "5" "9" "LINE";
               "track"; bed_line "1" "150" "200" "SINE"] ∅) as [d|e] eqn:Hd;
    [|vm_compute in Hd; discriminate].
  exists d. split; [reflexivity|].
  split; rewrite (load_annotations_by_chromosome _ d _ Hd); reflexivity.
Defined.

(** X22.  The annotation file is read to its end exactly when every line
    of four columns or more has an integer start and end; otherwise the
    loading raises [ValueError]. *)
Theorem load_annotations_succeeds_iff (ae_bedfile : list string)
    (d0 : gmap string (list feature)) :
  match load_annotations ae_bedfile d0 with
  | Ok _ =>
      Forall (fun line =>
                (4 <= length (split_on "009" (rstrip line)))%nat ->
                is_Some (bed_row line)) ae_bedfile
  | Raise e =>
      e = ValueError "invalid literal for int()"
      /\ Exists (fun line =>
                   (4 <= length (split_on "009" (rstrip line)))%nat
                   /\ bed_row line = None) ae_bedfile
  end.
Proof.
  revert d0. induction ae_bedfile as [|line rest IH]; intros d0.
  - constructor.
  - cbn [load_annotations].
    destruct (split_on "009" (rstrip line)) as [|c0 [|s [|e [|cls tl]]]] eqn:Hv;
      try (specialize (IH d0); destruct (load_annotations rest d0);
           [constructor; [rewrite Hv; simpl; lia|exact IH]
           |split; [tauto|apply Exists_cons_tl; tauto]]).
    cbn [length Nat.ltb Nat.leb]. unfold index, int. simpl.
    destruct (int_of_string s) as [s'|] eqn:Hs; simpl;
      [|split; [reflexivity|];
        apply Exists_cons_hd; split; [rewrite Hv; simpl; lia|];
        unfold bed_row; rewrite Hv, Hs; reflexivity].
    destruct (int_of_string e) as [e'|] eqn:He; simpl;
      [|split; [reflexivity|];
        apply Exists_cons_hd; split; [rewrite Hv; simpl; lia|];
        unfold bed_row; rewrite Hv, Hs, He; reflexivity].
    match goal with
    | |- context [load_annotations rest ?d] =>
        specialize (IH d); destruct (load_annotations rest d)
    end.
    + constructor; [|exact IH].
      intros _. unfold bed_row. rewrite Hv, Hs, He. eauto.
    + split; [tauto|apply Exists_cons_tl; tauto].
Qed.

Lemma load_annotations_succeeds_iff_witness :
  bed_row (bed_line "1" " 100" "200 " "SINE")
  = Some ("1", mkFeature 100 200 "SINE")
  /\ Exists (fun line => bed_row line = None) [bed_line "1" "1e2" "200" "SINE"].
Proof.
  split; [reflexivity|].
  pose proof (load_annotations_succeeds_iff [bed_line "1" "1e2" "200" "SINE"] ∅)
    as Hl.
  destruct (load_annotations [bed_line "1" "1e2" "200" "SINE"] ∅) as [d|e] eqn:Hd;
    [vm_compute in Hd; discriminate|].
  destruct Hl as [_ Hl]. apply Exists_exists in Hl.
  destruct Hl as (line & Hin & _ & Hnone).
  apply Exists_exists. exists line. split; assumption.
Defined.

Lemma gender_row_read (line : string) (s : string) (n : Z) (rest : list string)
    (g : gmap string Z) :
  gender_row line = Some (s, n) ->
  read_gender (line :: rest) g = read_gender rest (<[s := n]> g).
Proof.
  unfold gender_row. cbn [read_gender].
  destruct (split_on "009" (rstrip line)) as [|s0 [|x tl]]; try discriminate.
  unfold index, int. simpl.
  destruct (int_of_string x) as [m|]; simpl; [|discriminate].
  intros Hr. injection Hr as <- <-. reflexivity.
Qed.

Lemma read_gender_other (gender_file : list string) (g0 g : gmap string Z)
    (s : string) :
  Forall (fun line => forall s' n, gender_row line = Some (s', n) -> s' <> s)
    gender_file ->
  read_gender gender_file g0 = Ok g ->
  g !! s = g0 !! s.
Proof.
  intros Hf. revert g0. induction Hf as [|line rest Hline _ IH]; intros g0.
  - intros Hg. injection Hg as <-. reflexivity.
  - cbn [read_gender]. pose proof Hline as Hrow. unfold gender_row in Hrow.
    destruct (split_on "009" (rstrip line)) as [|s0 [|x tl]];
      try discriminate.
    unfold index, int. simpl.
    destruct (int_of_string x) as [m|]; simpl; [|discriminate].
    intros Hg. rewrite (IH _ Hg).
    apply lookup_insert_ne. apply (Hrow s0 m). reflexivity.
Qed.

(** X23.  In the gender dictionary that [sv_classify] reads, a sample has
    the value of the last line of the file that names it: a later line for
    the same sample replaces an earlier one. *)
Theorem last_gender_line_decides (before after : list string) (line s : string)
    (n : Z) (g : gmap string Z) :
  gender_row line = Some (s, n) ->
  Forall (fun line' => forall s' n', gender_row line' = Some (s', n') -> s' <> s)
    after ->
  read_gender (before ++ line :: after)%list ∅ = Ok g ->
  g !! s = Some n.
Proof.
  intros Hline Hafter.
  assert (Hgen : forall g0, read_gender (before ++ line :: after)%list g0 = Ok g ->
                            g !! s = Some n).
  { induction before as [|l before IH]; intros g0 Hg.
    - cbn [app] in Hg. rewrite (gender_row_read _ _ _ _ _ Hline) in Hg.
      rewrite (read_gender_other _ _ _ s Hafter Hg). apply lookup_insert_eq.
    - change ((l :: before) ++ line :: after)%list
        with (l :: (before ++ line :: after))%list in Hg.
      cbn [read_gender] in Hg.
      bind_as Hg x Hx. bind_as Hg m Hm. bind_as Hg s0 Hs0.
      apply (IH _ Hg). }
  apply Hgen.
Qed.

Lemma last_gender_line_decides_witness :
  exists g : gmap string Z,
    read_gender [gender_line "NA1" "1"; gender_line "NA2" "2";
                 gender_line "NA1" "2"] ∅ = Ok g
    /\ g !! "NA1" = Some 2.
Proof.
  destruct (read_gender [gender_line "NA1" "1"; gender_line "NA2" "2";
                         gender_line "NA1" "2"] ∅) as [g|e] eqn:Hg;
    [|vm_compute in Hg; discriminate].
  exists g. split; [reflexivity|].
  apply (last_gender_line_decides
           [gender_line "NA1" "1"; gender_line "NA2" "2"] []
           (gender_line "NA1" "2") "NA1" 2 g).
  - reflexivity.
  - constructor.
  - exact Hg.
Defined.

(** ** The training set *)

Section TrainingSet.
Context {F : Type} `{Float F} `{Libm F}.

Lemma training_rows_called (var : Variant) (epsilon : F) (ss : list string) :
  (forall s, In s ss -> is_Some (genotype_of var s)) ->
  training_rows var epsilon ss = for_each (cn_rec_of var epsilon) (called var ss).
Proof.
  induction ss as [|s ss IH]; intros Hgt; [reflexivity|].
  destruct (Hgt s (or_introl eq_refl)) as [gt Hs].
  cbn [training_rows]. unfold called. cbn [List.filter].
  rewrite (get_format_genotype _ _ _ Hs), Hs. simpl.
  fold (called var ss).
  rewrite (IH (fun s' Hs' => Hgt s' (or_intror Hs'))).
  destruct (String.eqb_spec gt "./.") as [->|Hne].
  - rewrite bool_decide_eq_true_2 by reflexivity. reflexivity.
  - rewrite bool_decide_eq_false_2 by congruence. reflexivity.
Qed.

(** X25.  For a record whose samples all have a GT field, the rows that
    [calc_params] puts into the training set are the rows that
    [has_cn_support_by_nb] builds for the samples with a genotype call when
    no sample is excluded: same fields, same order, same exception. *)
Theorem training_rows_are_test_rows (var : Variant) (epsilon : F)
    (ss : list string) :
  (forall s, In s ss -> is_Some (genotype_of var s)) ->
  training_rows var epsilon ss = test_set_of var [] epsilon (called var ss).
Proof.
  intros Hgt. rewrite (training_rows_called var epsilon ss Hgt).
  rewrite test_set_of_included. unfold included.
  rewrite filter_all; [reflexivity|].
  intros s _. reflexivity.
Qed.

Variable Variant_new : list string -> result Variant.

Lemma training_loop_head (epsilon : F) (pre rest h ss : list string)
    (t : list (CN_rec F)) :
  Forall before_column_names pre ->
  training_loop Variant_new epsilon (mkTraining true h ss t) (pre ++ rest)%list
  = training_loop Variant_new epsilon
      (mkTraining true (h ++ List.filter (fun l => startswith l "#") pre)%list
         ss t) rest.
Proof.
  intros Hpre. revert h. induction Hpre as [|l pre Hl _ IH]; intros h.
  - simpl. rewrite app_nil_r. reflexivity.
  - destruct Hl as (c0 & Hc0 & Hc1).
    change ((l :: pre) ++ rest)%list with (l :: (pre ++ rest))%list.
    cbn [training_loop List.filter]. unfold training_step.
    cbn [t_in_header t_header t_vcf_samples tSet]. rewrite Hc0. simpl.
    assert (Hstart : startswith l "#" = Ascii.eqb c0 "#").
    { unfold char_at in Hc0. unfold startswith.
      destruct l as [|a l]; simpl in Hc0; [discriminate|].
      injection Hc0 as ->. cbn [String.prefix].
      destruct (ascii_dec "#" c0) as [E|E].
      - subst c0. destruct l; reflexivity.
      - symmetry. apply Ascii.eqb_neq. congruence. }
    rewrite Hstart.
    destruct (Ascii.eqb_spec c0 "#") as [E|_].
    + rewrite (Hc1 E). simpl. rewrite IH, <- app_assoc. reflexivity.
    + apply IH.
Qed.

(** X26.  Until the line of the column names is read, [calc_params] puts
    the lines that start with [#] into the header and passes over the
    others: records placed before that line add nothing to the training
    set, and a file without that line gives an empty one. *)
Theorem records_before_column_names_are_ignored (pre rest : list string) :
  Forall before_column_names pre ->
  training_set Variant_new (pre ++ rest)%list
  = training_set Variant_new
      (List.filter (fun l => startswith l "#") pre ++ rest)%list
  /\ training_set Variant_new pre = Ok [].
Proof.
  intros Hpre. unfold training_set. split.
  - rewrite (training_loop_head _ pre rest [] [] [] Hpre).
    rewrite (training_loop_head _ (List.filter (fun l => startswith l "#") pre)
               rest [] [] []).
    + rewrite (filter_all _ (List.filter (fun l => startswith l "#") pre));
        [reflexivity|].
      intros l Hl. apply filter_In in Hl. tauto.
    + rewrite Forall_forall in *. intros l Hl.
      apply list_elem_of_In, filter_In in Hl. destruct Hl as [Hl _].
      apply Hpre, list_elem_of_In, Hl.
  - rewrite <- (app_nil_r pre) at 1.
    rewrite (training_loop_head _ pre [] [] [] [] Hpre). reflexivity.
Qed.

End TrainingSet.

Lemma training_rows_are_test_rows_witness :
  training_rows (F := PrimFloat.float) flat_del default_epsilon
    ["NA1"; "NA2"; "NA3"]
  = test_set_of flat_del [] default_epsilon ["NA1"; "NA2"; "NA3"].
Proof.
  apply (training_rows_are_test_rows (F := PrimFloat.float) flat_del
           default_epsilon ["NA1"; "NA2"; "NA3"]).
  intros s [<-|[<-|[<-|[]]]]; vm_compute; eauto.
Defined.

Lemma records_before_column_names_are_ignored_witness :
  training_set (F := PrimFloat.float) (fun _ => Raise AttributeError)
    ["##fileformat=VCFv4.2"; bnd_line]
  = Ok [].
Proof.
  apply (records_before_column_names_are_ignored (F := PrimFloat.float)
           (fun _ => Raise AttributeError) ["##fileformat=VCFv4.2"; bnd_line] []).
  repeat constructor; eexists; (split; [reflexivity|]); try reflexivity.
  intros E. discriminate E.
Defined.

(** X24.  The gender file is read to its end exactly when every line has a
    second column that is an integer; a line without a tab, an empty line
    among them, raises [IndexError] and another value in the second column
    [ValueError]. *)
Theorem read_gender_succeeds_iff (gender_file : list string)
    (g0 : gmap string Z) :
  match read_gender gender_file g0 with
  | Ok _ => Forall (fun line => is_Some (gender_row line)) gender_file
  | Raise e =>
      exists line, In line gender_file /\ gender_row line = None
        /\ e = if (length (split_on "009" (rstrip line)) <? 2)%nat
               then IndexError
               else ValueError "invalid literal for int()"
  end.
Proof.
  revert g0. induction gender_file as [|line rest IH]; intros g0.
  - constructor.
  - cbn [read_gender].
    destruct (split_on "009" (rstrip line)) as [|s0 [|x tl]] eqn:Hv.
    + exists line. unfold gender_row. rewrite Hv. simpl. auto.
    + exists line. unfold gender_row. rewrite Hv. simpl. auto.
    + unfold index, int. simpl.
      destruct (int_of_string x) as [n|] eqn:Hx; simpl.
      * specialize (IH (<[s0 := n]> g0)).
        destruct (read_gender rest (<[s0 := n]> g0)) as [g|e].
        -- constructor; [|exact IH].
           unfold gender_row. rewrite Hv, Hx. simpl. eauto.
        -- destruct IH as (l & Hl & Hrow & He). exists l.
           split; [right; exact Hl|]. split; assumption.
      * exists line. unfold gender_row. rewrite Hv, Hx. simpl. auto.
Qed.

Lemma read_gender_succeeds_iff_witness :
  Forall (fun line => is_Some (gender_row line))
    [gender_line "NA1" " 1"; gender_line "NA2" "+2 "]
  /\ read_gender [gender_line "NA1" " 1"; gender_line "NA2" "+2 "] ∅
     = Ok {[ "NA1" := 1; "NA2" := 2 ]}.
Proof.
  split; [|vm_compute; reflexivity].
  pose proof (read_gender_succeeds_iff
                [gender_line "NA1" " 1"; gender_line "NA2" "+2 "] ∅) as Hg.
  destruct (read_gender [gender_line "NA1" " 1"; gender_line "NA2" "+2 "] ∅)
    as [g|e] eqn:Hr; [exact Hg|vm_compute in Hr; discriminate].
Defined.

(** ** The secondary variant in the conversion *)

(** X27.  When a primary variant is given, the secondary one has no part in
    the coordinates, the orientations, the name or any other column than
    the second INFO column, which is its INFO string for a BND and a dot
    otherwise; it does not change whether the conversion raises. *)
Theorem secondary_only_supplies_info (v w : Variant) :
  match convert (Some v) None with
  | Ok b0 =>
      exists b, convert (Some v) (Some w) = Ok b
        /\ c1 b = c1 b0 /\ s1 b = s1 b0 /\ e1 b = e1 b0
        /\ c2 b = c2 b0 /\ s2 b = s2 b0 /\ e2 b = e2 b0
        /\ name b = name b0 /\ b_qual b = b_qual b0
        /\ o1 b = o1 b0 /\ o2 b = o2 b0 /\ sv_type b = sv_type b0
        /\ b_filter b = b_filter b0 /\ info_a b = info_a b0
        /\ formats_of b = formats_of b0
        /\ info_b b = (if eq_str (sv_type b0) "BND" then InfoString w else Dot)
  | Raise e => convert (Some v) (Some w) = Raise e
  end.
Proof.
  unfold convert. cbn -[eq_str adjust_coordinate simple_breakpoints bnd_breakpoints].
  destruct (info v !! "SVTYPE") as [t|];
    cbn -[eq_str adjust_coordinate simple_breakpoints bnd_breakpoints];
    [|reflexivity].
  destruct (if eq_str t "BND" then bnd_breakpoints v else simple_breakpoints v)
    as [[bp v']|x];
    cbn -[eq_str adjust_coordinate simple_breakpoints bnd_breakpoints];
    [|reflexivity].
  destruct (adjust_coordinate v' "CIPOS" (bp_s1 bp) (bp_e1 bp)) as [[x1 y1]|x];
    cbn -[eq_str adjust_coordinate simple_breakpoints bnd_breakpoints];
    [|reflexivity].
  destruct (adjust_coordinate v' "CIEND" (bp_s2 bp) (bp_e2 bp)) as [[x2 y2]|x];
    cbn -[eq_str adjust_coordinate simple_breakpoints bnd_breakpoints];
    [|reflexivity].
  eexists. split; [reflexivity|]. cbn -[eq_str].
  destruct (eq_str t "BND"); auto 20.
Qed.
